(** * Financial data management system: CSV reconciliation and reports

    A shallow embedding of the data loader ([backend/routes/data-loader.js]),
    of the storage wrapper ([backend/config/database.js]), of the relational
    schema ([database/schema.sql]) and of the reporting routes
    ([backend/routes/queries.js]), followed by the properties of the
    reconciliation pipeline and of the reports; then of the client model
    ([backend/models/Client.js]) and its routes ([backend/routes/clients.js])
    and their properties.

    Conventions.
    - JavaScript values are a small inductive type; JavaScript numbers are
      IEEE binary64 floats, which is what [PrimFloat] provides.
    - [DECIMAL(15,2)] columns are integers counting hundredths, so that SQL's
      [SUM] is exact.
    - Code that awaits storage is written in a state and exception monad
      over the storage state.
    - What the schema file leaves to the database server (the collation and
      the character set of the text columns, the clock) is part of the
      database state, so that a statement about every database is one about
      every server. *)

From Stdlib Require Import ZArith List String Ascii Bool Lia Arith.
From Stdlib Require Import Floats Uint63 DecimalString Permutation.
Import ListNotations.

Set Warnings "-register-all".

Local Open Scope string_scope.
Local Open Scope list_scope.

(** ** JavaScript values *)

Module Js.

Inductive value : Type :=
| VUndefined
| VNull
| VBool (b : bool)
| VNum (n : float)
| VStr (s : string)
| VArr (items : list value)
| VObj (fields : list (string * value)).

Definition num_of_nat (n : nat) : float :=
  PrimFloat.of_uint63 (Uint63.of_Z (Z.of_nat n)).

Definition num_of_Z (z : Z) : float :=
  if (z <? 0)%Z
  then PrimFloat.opp (PrimFloat.of_uint63 (Uint63.of_Z (Z.opp z)))
  else PrimFloat.of_uint63 (Uint63.of_Z z).

(** Template literals print numbers in decimal. *)
Definition string_of_nat (n : nat) : string :=
  NilEmpty.string_of_uint (Nat.to_uint n).

Fixpoint lookup (k : string) (fields : list (string * value)) : value :=
  match fields with
  | [] => VUndefined
  | (k', v) :: rest => if String.eqb k k' then v else lookup k rest
  end.

(** [v.k] for a value [v] that is neither [undefined] nor [null]: an absent
    property reads as [undefined]. *)
Definition get (v : value) (k : string) : value :=
  match v with
  | VObj fields => lookup k fields
  | VArr items =>
      if String.eqb k "length" then VNum (num_of_nat (List.length items)) else VUndefined
  | VStr s => if String.eqb k "length" then VNum (num_of_nat (String.length s)) else VUndefined
  | _ => VUndefined
  end.

(** [v[i]] for a literal index [i]. *)
Definition get_index (v : value) (i : nat) : value :=
  match v with
  | VArr items => nth i items VUndefined
  | VObj fields => lookup (string_of_nat i) fields
  | _ => VUndefined
  end.

Definition is_nullish (v : value) : bool :=
  match v with
  | VUndefined | VNull => true
  | _ => false
  end.

Definition ToBoolean (v : value) : bool :=
  match v with
  | VUndefined | VNull => false
  | VBool b => b
  | VNum n => negb (PrimFloat.is_nan n || PrimFloat.is_zero n)
  | VStr s => negb (String.eqb s "")
  | VArr _ | VObj _ => true
  end.

Section Conversions.

(** The conversion to a number of strings, arrays and objects goes through
    the language's string grammar and [ToPrimitive]; it is left to the
    language. *)
Variable ToNumberOther : value -> float.

Definition ToNumber (v : value) : float :=
  match v with
  | VUndefined => PrimFloat.nan
  | VNull => PrimFloat.zero
  | VBool b => if b then PrimFloat.one else PrimFloat.zero
  | VNum n => n
  | _ => ToNumberOther v
  end.

(** [v > n] for a numeric literal [n]: false whenever [v] converts to NaN. *)
Definition gt (v : value) (n : float) : bool :=
  PrimFloat.ltb n (ToNumber v).

End Conversions.

(** Outcome of running a block: a value, or a thrown [Error] with its
    [message]. *)
Inductive outcome (A : Type) : Type :=
| Return (a : A)
| Throw (message : string).

Arguments Return {A} a.
Arguments Throw {A} message.

End Js.

Export Js.

(** ** The data loader: [backend/routes/data-loader.js] *)

Module DataLoader.

(** One parsed CSV record: an object whose properties are the header's
    column names; [None] is an absent property ([undefined]), [Some s] the
    cell's text. *)
Record Row : Type := mkRow {
  client_code : option string;
  first_name : option string;
  last_name : option string;
  email : option string;
  phone : option string;
  address : option string;
  city : option string;
  department : option string;
  invoice_number : option string;
  billing_period : option string;
  total_amount : option string;
  paid_amount : option string;
  invoice_status : option string;
  transaction_reference : option string;
  transaction_date : option string;
  transaction_amount : option string;
  transaction_type : option string;
  transaction_status : option string;
  platform_name : option string
}.

(** The property read as a JavaScript value. *)
Definition prop (field : option string) : value :=
  match field with
  | Some s => VStr s
  | None => VUndefined
  end.

(** [!!field]. *)
Definition truthy (field : option string) : bool := ToBoolean (prop field).

(** [field || null]. *)
Definition or_null (field : option string) : value :=
  if truthy field then prop field else VNull.

(** The statements the loader sends, in the order of the source. *)
Inductive Sql : Type :=
| SELECT_client_id_FROM_clients_WHERE_client_code
| UPDATE_clients_SET_WHERE_client_code
| INSERT_INTO_clients
| SELECT_invoice_id_FROM_invoices_WHERE_invoice_number
| UPDATE_invoices_SET_WHERE_invoice_number
| INSERT_INTO_invoices
| SELECT_platform_id_FROM_platforms_WHERE_platform_name
| INSERT_INTO_platforms
| SELECT_transaction_id_FROM_transactions_WHERE_transaction_reference
| UPDATE_transactions_SET_WHERE_transaction_reference
| INSERT_INTO_transactions.

Record Stats : Type := mkStats {
  clients_processed : nat;
  clients_created : nat;
  clients_updated : nat;
  invoices_processed : nat;
  invoices_created : nat;
  invoices_updated : nat;
  transactions_processed : nat;
  transactions_created : nat;
  transactions_updated : nat;
  errors : list string
}.

Definition stats0 : Stats := mkStats 0 0 0 0 0 0 0 0 0 [].

Definition push_errors (s : Stats) (es : list string) : Stats :=
  mkStats (clients_processed s) (clients_created s) (clients_updated s)
          (invoices_processed s) (invoices_created s) (invoices_updated s)
          (transactions_processed s) (transactions_created s) (transactions_updated s)
          (errors s ++ es).

Definition count_client (s : Stats) (created : bool) : Stats :=
  mkStats (S (clients_processed s))
          (if created then S (clients_created s) else clients_created s)
          (if created then clients_updated s else S (clients_updated s))
          (invoices_processed s) (invoices_created s) (invoices_updated s)
          (transactions_processed s) (transactions_created s) (transactions_updated s)
          (errors s).

Definition count_invoice (s : Stats) (created : bool) : Stats :=
  mkStats (clients_processed s) (clients_created s) (clients_updated s)
          (S (invoices_processed s))
          (if created then S (invoices_created s) else invoices_created s)
          (if created then invoices_updated s else S (invoices_updated s))
          (transactions_processed s) (transactions_created s) (transactions_updated s)
          (errors s).

Definition count_transaction (s : Stats) (created : bool) : Stats :=
  mkStats (clients_processed s) (clients_created s) (clients_updated s)
          (invoices_processed s) (invoices_created s) (invoices_updated s)
          (S (transactions_processed s))
          (if created then S (transactions_created s) else transactions_created s)
          (if created then transactions_updated s else S (transactions_updated s))
          (errors s).

Definition row_message (rowNumber : nat) (message : string) : string :=
  "Row " ++ string_of_nat rowNumber ++ ": " ++ message.

Record ClientResult : Type := { clientId : value; client_created : bool }.
Record InvoiceResult : Type := { invoiceId : value; invoice_created : bool }.
Record TransactionResult : Type := { transactionId : value; transaction_created : bool }.

Section WithStorage.

(** The storage engine behind [pool.execute]: a statement and its bind
    parameters take the storage to a new state and either reject with an
    error message ([inl]) or resolve with the rows or the result header
    ([inr]). *)
Context {Store : Type}.
Variable pool_execute : Sql -> list value -> Store -> Store * (string + value).

(** The language's [parseFloat] on strings, and its number conversion of
    non-primitive values. *)
Variable parseFloat : string -> float.
Variable ToNumberOther : value -> float.

(** [parseFloat(field)]: an absent property is first printed as
    ["undefined"]. *)
Definition parseFloat_prop (field : option string) : float :=
  match field with
  | Some s => parseFloat s
  | None => parseFloat "undefined"
  end.

(** [field && isNaN(parseFloat(field))]. *)
Definition not_numeric (field : option string) : bool :=
  truthy field && PrimFloat.is_nan (parseFloat_prop field).

(** Code that awaits the storage. *)
Definition M (A : Type) : Type := Store -> Store * outcome A.

Definition ret {A} (a : A) : M A := fun st => (st, Return a).

Definition throw {A} (message : string) : M A := fun st => (st, Throw message).

Definition bind {A B} (m : M A) (k : A -> M B) : M B :=
  fun st =>
    match m st with
    | (st', Return a) => k a st'
    | (st', Throw message) => (st', Throw message)
    end.

(** [try { m } catch (error) { handler(error.message) }]. *)
Definition try_catch {A} (m : M A) (handler : string -> M A) : M A :=
  fun st =>
    match m st with
    | (st', Return a) => (st', Return a)
    | (st', Throw message) => handler message st'
    end.

Notation "x <- m ;; k" := (bind m (fun x => k))
  (at level 100, m at next level, right associativity).

(** [config/database.js], [executeQuery]: the rejection of [pool.execute]
    is caught and turned into a result object; nothing is thrown. *)
Definition executeQuery (query : Sql) (params : list value) : M value :=
  fun st =>
    match pool_execute query params st with
    | (st', inr rows) =>
        (st', Return (VObj [("success", VBool true); ("data", rows)]))
    | (st', inl message) =>
        (st', Return (VObj [("success", VBool false); ("error", VStr message)]))
    end.

(** [v.k] and [v[i]], which throw a [TypeError] when [v] is [undefined] or
    [null]. *)
Definition nullish_name (v : value) : string :=
  match v with
  | VNull => "null"
  | _ => "undefined"
  end.

Definition member (v : value) (k : string) : M value :=
  if is_nullish v
  then throw ("Cannot read properties of " ++ nullish_name v
              ++ " (reading '" ++ k ++ "')")
  else ret (get v k).

Definition index (v : value) (i : nat) : M value :=
  if is_nullish v
  then throw ("Cannot read properties of " ++ nullish_name v
              ++ " (reading '" ++ string_of_nat i ++ "')")
  else ret (get_index v i).

Definition validateRow (data : Row) (rowNumber : nat) : list string :=
  (if negb (truthy (client_code data)) || negb (truthy (first_name data))
      || negb (truthy (last_name data))
   then [row_message rowNumber "Missing required client information"] else [])
  ++ (if negb (truthy (invoice_number data))
      then [row_message rowNumber "Missing invoice number"] else [])
  ++ (if negb (truthy (transaction_reference data))
      then [row_message rowNumber "Missing transaction reference"] else [])
  ++ (if negb (truthy (platform_name data))
      then [row_message rowNumber "Missing platform name"] else [])
  ++ (if not_numeric (total_amount data)
      then [row_message rowNumber "Invalid total amount"] else [])
  ++ (if not_numeric (paid_amount data)
      then [row_message rowNumber "Invalid paid amount"] else [])
  ++ (if not_numeric (transaction_amount data)
      then [row_message rowNumber "Invalid transaction amount"] else []).

Definition processClient (clientData : Row) : M ClientResult :=
  try_catch
    (existingClient <- executeQuery SELECT_client_id_FROM_clients_WHERE_client_code
                         [prop (client_code clientData)] ;;
     length <- member existingClient "length" ;;
     if gt ToNumberOther length PrimFloat.zero then
       _ <- executeQuery UPDATE_clients_SET_WHERE_client_code
              [prop (first_name clientData); prop (last_name clientData);
               or_null (email clientData); or_null (phone clientData);
               or_null (address clientData); or_null (city clientData);
               or_null (department clientData); prop (client_code clientData)] ;;
       first <- index existingClient 0 ;;
       client_id <- member first "client_id" ;;
       ret {| clientId := client_id; client_created := false |}
     else
       result <- executeQuery INSERT_INTO_clients
              [prop (client_code clientData); prop (first_name clientData);
               prop (last_name clientData);
               or_null (email clientData); or_null (phone clientData);
               or_null (address clientData); or_null (city clientData);
               or_null (department clientData)] ;;
       insertId <- member result "insertId" ;;
       ret {| clientId := insertId; client_created := true |})
    (fun message => throw ("Error processing client: " ++ message)).

Definition processInvoice (invoiceData : Row) (clientId : value) : M InvoiceResult :=
  try_catch
    (existingInvoice <- executeQuery SELECT_invoice_id_FROM_invoices_WHERE_invoice_number
                          [prop (invoice_number invoiceData)] ;;
     length <- member existingInvoice "length" ;;
     if gt ToNumberOther length PrimFloat.zero then
       _ <- executeQuery UPDATE_invoices_SET_WHERE_invoice_number
              [prop (billing_period invoiceData);
               VNum (parseFloat_prop (total_amount invoiceData));
               VNum (parseFloat_prop (paid_amount invoiceData));
               prop (invoice_status invoiceData);
               prop (invoice_number invoiceData)] ;;
       first <- index existingInvoice 0 ;;
       invoice_id <- member first "invoice_id" ;;
       ret {| invoiceId := invoice_id; invoice_created := false |}
     else
       result <- executeQuery INSERT_INTO_invoices
              [prop (invoice_number invoiceData); clientId;
               prop (billing_period invoiceData);
               VNum (parseFloat_prop (total_amount invoiceData));
               VNum (parseFloat_prop (paid_amount invoiceData));
               prop (invoice_status invoiceData)] ;;
       insertId <- member result "insertId" ;;
       ret {| invoiceId := insertId; invoice_created := true |})
    (fun message => throw ("Error processing invoice: " ++ message)).

Definition processTransaction (transactionData : Row) (invoiceId : value)
  : M TransactionResult :=
  try_catch
    (existingPlatform <- executeQuery SELECT_platform_id_FROM_platforms_WHERE_platform_name
                           [prop (platform_name transactionData)] ;;
     platforms_length <- member existingPlatform "length" ;;
     platformId <-
       (if gt ToNumberOther platforms_length PrimFloat.zero then
          first <- index existingPlatform 0 ;;
          member first "platform_id"
        else
          platformResult <- executeQuery INSERT_INTO_platforms
                 [prop (platform_name transactionData); VStr "DIGITAL_WALLET"] ;;
          member platformResult "insertId") ;;
     existingTransaction <-
       executeQuery SELECT_transaction_id_FROM_transactions_WHERE_transaction_reference
         [prop (transaction_reference transactionData)] ;;
     length <- member existingTransaction "length" ;;
     if gt ToNumberOther length PrimFloat.zero then
       _ <- executeQuery UPDATE_transactions_SET_WHERE_transaction_reference
              [invoiceId; platformId;
               prop (transaction_date transactionData);
               VNum (parseFloat_prop (transaction_amount transactionData));
               prop (transaction_type transactionData);
               prop (transaction_status transactionData);
               prop (transaction_reference transactionData)] ;;
       first <- index existingTransaction 0 ;;
       transaction_id <- member first "transaction_id" ;;
       ret {| transactionId := transaction_id; transaction_created := false |}
     else
       result <- executeQuery INSERT_INTO_transactions
              [prop (transaction_reference transactionData); invoiceId; platformId;
               prop (transaction_date transactionData);
               VNum (parseFloat_prop (transaction_amount transactionData));
               prop (transaction_type transactionData);
               prop (transaction_status transactionData)] ;;
       insertId <- member result "insertId" ;;
       ret {| transactionId := insertId; transaction_created := true |})
    (fun message => throw ("Error processing transaction: " ++ message)).

(** The body of the [for] loop of [processCSVData] for the row at index
    [i]: the statistics object is mutated in place, so what was counted
    before a throw stays counted. *)
Definition process_row (i : nat) (row : Row) (stats : Stats) (st : Store)
  : Store * Stats :=
  let rowNumber := i + 2 in
  let validationErrors := validateRow row rowNumber in
  if (0 <? List.length validationErrors)%nat then (st, push_errors stats validationErrors)
  else
    match processClient row st with
    | (st1, Throw message) => (st1, push_errors stats [row_message rowNumber message])
    | (st1, Return clientResult) =>
      let stats1 := count_client stats (client_created clientResult) in
      match processInvoice row (clientId clientResult) st1 with
      | (st2, Throw message) => (st2, push_errors stats1 [row_message rowNumber message])
      | (st2, Return invoiceResult) =>
        let stats2 := count_invoice stats1 (invoice_created invoiceResult) in
        match processTransaction row (invoiceId invoiceResult) st2 with
        | (st3, Throw message) => (st3, push_errors stats2 [row_message rowNumber message])
        | (st3, Return transactionResult) =>
          (st3, count_transaction stats2 (transaction_created transactionResult))
        end
      end
    end.

(** [for (let i = ...; i < data.length; i++)], from index [i] on. *)
Fixpoint process_rows (i : nat) (data : list Row) (stats : Stats) (st : Store)
  : Store * Stats :=
  match data with
  | [] => (st, stats)
  | row :: rest =>
      let '(st', stats') := process_row i row stats st in
      process_rows (S i) rest stats' st'
  end.

Definition processCSVData (data : list Row) (st : Store) : Store * Stats :=
  process_rows 0 data stats0 st.

(** *** Observations on a run *)

(** The storage after one statement, and after a sequence of them. *)
Definition after (query : Sql) (params : list value) (st : Store) : Store :=
  fst (pool_execute query params st).

Definition send (statements : list (Sql * list value)) (st : Store) : Store :=
  fold_left (fun st' statement => after (fst statement) (snd statement) st')
            statements st.

(** The validation defects of a batch, in order, for rows from index [i]. *)
Fixpoint defects_from (i : nat) (data : list Row) : list string :=
  match data with
  | [] => []
  | row :: rest => validateRow row (i + 2) ++ defects_from (S i) rest
  end.

End WithStorage.

(** A row lacks one of the six required fields. *)
Definition missing_required (row : Row) : Prop :=
  truthy (client_code row) = false \/ truthy (first_name row) = false
  \/ truthy (last_name row) = false \/ truthy (invoice_number row) = false
  \/ truthy (transaction_reference row) = false \/ truthy (platform_name row) = false.

(** The seven checks of the validator, in its order: whether the row
    fails the check, and the message the check then pushes. *)
Definition checks (parseFloat : string -> float) (row : Row) : list (bool * string) :=
  [ (negb (truthy (client_code row)) || negb (truthy (first_name row))
     || negb (truthy (last_name row)),
     "Missing required client information");
    (negb (truthy (invoice_number row)), "Missing invoice number");
    (negb (truthy (transaction_reference row)), "Missing transaction reference");
    (negb (truthy (platform_name row)), "Missing platform name");
    (not_numeric parseFloat (total_amount row), "Invalid total amount");
    (not_numeric parseFloat (paid_amount row), "Invalid paid amount");
    (not_numeric parseFloat (transaction_amount row), "Invalid transaction amount") ].

Definition failed_checks (parseFloat : string -> float) (row : Row) : list string :=
  map snd (filter fst (checks parseFloat row)).

(** The nine counters of two statistics objects agree. *)
Definition same_counters (a b : Stats) : Prop :=
  clients_processed a = clients_processed b
  /\ clients_created a = clients_created b
  /\ clients_updated a = clients_updated b
  /\ invoices_processed a = invoices_processed b
  /\ invoices_created a = invoices_created b
  /\ invoices_updated a = invoices_updated b
  /\ transactions_processed a = transactions_processed b
  /\ transactions_created a = transactions_created b
  /\ transactions_updated a = transactions_updated b.

(** Each processed counter is the sum of its created and updated ones. *)
Definition balanced (s : Stats) : Prop :=
  clients_processed s = clients_created s + clients_updated s
  /\ invoices_processed s = invoices_created s + invoices_updated s
  /\ transactions_processed s = transactions_created s + transactions_updated s.

(** The statements the three steps send for a row. *)
Definition client_statements (clientData : Row) : list (Sql * list value) :=
  [ (SELECT_client_id_FROM_clients_WHERE_client_code, [prop (client_code clientData)]);
    (INSERT_INTO_clients,
     [prop (client_code clientData); prop (first_name clientData);
      prop (last_name clientData);
      or_null (email clientData); or_null (phone clientData);
      or_null (address clientData); or_null (city clientData);
      or_null (department clientData)]) ].

Definition invoice_statements (parseFloat : string -> float) (invoiceData : Row)
  (clientId : value) : list (Sql * list value) :=
  [ (SELECT_invoice_id_FROM_invoices_WHERE_invoice_number,
     [prop (invoice_number invoiceData)]);
    (INSERT_INTO_invoices,
     [prop (invoice_number invoiceData); clientId;
      prop (billing_period invoiceData);
      VNum (parseFloat_prop parseFloat (total_amount invoiceData));
      VNum (parseFloat_prop parseFloat (paid_amount invoiceData));
      prop (invoice_status invoiceData)]) ].

Definition transaction_statements (parseFloat : string -> float) (transactionData : Row)
  (invoiceId platformId : value) : list (Sql * list value) :=
  [ (SELECT_platform_id_FROM_platforms_WHERE_platform_name,
     [prop (platform_name transactionData)]);
    (INSERT_INTO_platforms,
     [prop (platform_name transactionData); VStr "DIGITAL_WALLET"]);
    (SELECT_transaction_id_FROM_transactions_WHERE_transaction_reference,
     [prop (transaction_reference transactionData)]);
    (INSERT_INTO_transactions,
     [prop (transaction_reference transactionData); invoiceId; platformId;
      prop (transaction_date transactionData);
      VNum (parseFloat_prop parseFloat (transaction_amount transactionData));
      prop (transaction_type transactionData);
      prop (transaction_status transactionData)]) ].

End DataLoader.

(** ** The relational schema: [database/schema.sql] *)

Module Schema.

(** [DECIMAL(15,2)]: a count of hundredths. *)
Definition decimal : Type := Z.

(** [DATETIME], kept in its [YYYY-MM-DD hh:mm:ss] text, whose alphabetical
    order is the chronological one. *)
Definition datetime : Type := string.

Inductive InvoiceStatus : Type := INV_PENDING | INV_PARTIAL | INV_PAID | INV_OVERDUE.

Inductive TransactionType : Type := PAYMENT | REFUND | ADJUSTMENT.

Inductive TransactionStatus : Type := PENDING | COMPLETED | FAILED | CANCELLED.

(** A row of each table. [is_active] is [true] exactly when the column is
    [TRUE]. An ENUM column is declared without [NOT NULL]: it holds one of
    its labels or [NULL]. The [created_at] and [updated_at] columns are kept
    for [clients], whose rows the program reads them from; no statement of
    the program reads those of the other three tables. *)
Module Platforms.
Record row : Type := mk {
  platform_id : Z;
  platform_name : string;
  platform_type : string;
  is_active : bool
}.
End Platforms.

Module Clients.
Record row : Type := mk {
  client_id : Z;
  client_code : string;
  first_name : string;
  last_name : string;
  email : option string;
  phone : option string;
  address : option string;
  city : option string;
  department : option string;
  is_active : bool;
  created_at : option datetime;
  updated_at : option datetime
}.
End Clients.

Module Invoices.
Record row : Type := mk {
  invoice_id : Z;
  invoice_number : string;
  client_id : Z;
  billing_period : string;
  total_amount : decimal;
  paid_amount : option decimal;
  status : option InvoiceStatus;
  description : option string
}.
End Invoices.

Module Transactions.
Record row : Type := mk {
  transaction_id : Z;
  transaction_reference : string;
  invoice_id : Z;
  platform_id : Z;
  transaction_date : datetime;
  amount : decimal;
  transaction_type : option TransactionType;
  status : option TransactionStatus;
  description : option string
}.
End Transactions.

(** What the schema file leaves to the server it is loaded into.
    - The collation of the text columns, as the weight it gives a string:
      two strings are equal under the collation exactly when their weights
      are the same.
    - The length of a string in characters and in bytes under the
      character set.
    - The clock: [timeline n] is what [CURRENT_TIMESTAMP] reads in the
      statement that is the [n]-th to store it in a row. *)
Record Server : Type := mkServer {
  weight : string -> string;
  char_length : string -> nat;
  byte_length : string -> nat;
  timeline : nat -> datetime
}.

(** The four tables, the next [AUTO_INCREMENT] value of each, the server,
    and the number of statements that have stored the clock so far. *)
Record Database : Type := mkDatabase {
  platforms : list Platforms.row;
  clients : list Clients.row;
  invoices : list Invoices.row;
  transactions : list Transactions.row;
  next_platform_id : Z;
  next_client_id : Z;
  next_invoice_id : Z;
  next_transaction_id : Z;
  server : Server;
  stamped : nat
}.

(** [CURRENT_TIMESTAMP] in the next statement that stores it, and the
    database once that statement has run. *)
Definition current_timestamp (db : Database) : datetime :=
  timeline (server db) (stamped db).

Definition stamp (db : Database) : Database :=
  mkDatabase (platforms db) (clients db) (invoices db) (transactions db)
             (next_platform_id db) (next_client_id db) (next_invoice_id db)
             (next_transaction_id db) (server db) (S (stamped db)).

(** Equality of two strings, and of two nullable strings, under the
    collation; [NULL] equals nothing. *)
Definition collates (sv : Server) (a b : string) : bool :=
  String.eqb (weight sv a) (weight sv b).

Definition collates_nullable (sv : Server) (a b : option string) : bool :=
  match a, b with
  | Some x, Some y => collates sv x y
  | _, _ => false
  end.

(** The server of the scenarios: UTF-8 text, a collation that ignores the
    case of the letters a to z, as the default collation of the server
    does, and a clock that reads a second later each time, within one
    minute. *)
Fixpoint fold_case (s : string) : string :=
  match s with
  | EmptyString => EmptyString
  | String c rest =>
      let n := Ascii.nat_of_ascii c in
      String (if (97 <=? n)%nat && (n <=? 122)%nat
              then Ascii.ascii_of_nat (n - 32) else c)
             (fold_case rest)
  end.

Fixpoint utf8_length (s : string) : nat :=
  match s with
  | EmptyString => 0
  | String c rest =>
      let n := Ascii.nat_of_ascii c in
      (if (128 <=? n)%nat && (n <? 192)%nat then 0 else 1) + utf8_length rest
  end.

Definition scenario_clock (n : nat) : datetime :=
  let second := Nat.modulo n 60 in
  ("2024-01-15 10:00:" ++ (if (second <? 10)%nat then "0" else "")
   ++ NilEmpty.string_of_uint (Nat.to_uint second))%string.

Definition scenario_server : Server :=
  mkServer fold_case utf8_length String.length scenario_clock.

(** The state right after the schema file has run on the server of the
    scenarios: empty tables and the five default platforms. *)
Definition initial : Database :=
  {| platforms :=
       [ Platforms.mk 1 "Nequi" "DIGITAL_WALLET" true;
         Platforms.mk 2 "Daviplata" "DIGITAL_WALLET" true;
         Platforms.mk 3 "Bancolombia" "BANK" true;
         Platforms.mk 4 "Banco de Bogotá" "BANK" true;
         Platforms.mk 5 "BBVA Colombia" "BANK" true ];
     clients := [];
     invoices := [];
     transactions := [];
     next_platform_id := 6;
     next_client_id := 1;
     next_invoice_id := 1;
     next_transaction_id := 1;
     server := scenario_server;
     stamped := 0 |}.

End Schema.

(** ** A storage engine for the schema

    A reference behaviour for [pool.execute] of the driver on the statements
    of the data loader: the driver rejects a statement with an [undefined]
    bind parameter before sending it; the engine enforces [NOT NULL],
    [UNIQUE], [FOREIGN KEY], ENUM membership and the width of the text
    columns as the server's default (strict) mode does, compares text under
    the server's collation, and assigns [AUTO_INCREMENT] keys. *)

Module MySQL.

Import Schema.
Import DataLoader.

Local Open Scope string_scope.

(** The integer nearest to [f * scale], for a finite [f]. *)
Definition round_scaled (scale : Z) (f : float) : option Z :=
  match Prim2SF f with
  | S754_zero _ => Some 0%Z
  | S754_finite negative m e =>
      let num := (Z.pos m * scale)%Z in
      let magnitude :=
        if (0 <=? e)%Z then (num * 2 ^ e)%Z
        else ((2 * num + 2 ^ (- e)) / 2 ^ (1 - e))%Z in
      Some (if negative then (- magnitude)%Z else magnitude)
  | _ => None
  end.

Definition is_undefined (v : value) : bool :=
  match v with
  | VUndefined => true
  | _ => false
  end.

(** Decoding of a bind parameter for a column of each type; [inl] is the
    engine's refusal. *)
Definition too_long (column : string) : string :=
  "Data too long for column '" ++ column ++ "' at row 1".

(** [VARCHAR(width) NOT NULL], [VARCHAR(width)] and [TEXT]: a longer
    string is refused. (The server cuts blanks at the end of a string that
    is too long only by them; such a string is refused here.) *)
Definition varchar_not_null (sv : Server) (width : nat) (column : string) (v : value)
  : string + string :=
  match v with
  | VStr s => if (char_length sv s <=? width)%nat then inr s else inl (too_long column)
  | VNull => inl ("Column '" ++ column ++ "' cannot be null")
  | _ => inl ("Incorrect string value for column '" ++ column ++ "'")
  end.

Definition varchar (sv : Server) (width : nat) (column : string) (v : value)
  : string + option string :=
  match v with
  | VStr s =>
      if (char_length sv s <=? width)%nat then inr (Some s) else inl (too_long column)
  | VNull => inr None
  | _ => inl ("Incorrect string value for column '" ++ column ++ "'")
  end.

Definition text (sv : Server) (column : string) (v : value) : string + option string :=
  match v with
  | VStr s =>
      if (Z.of_nat (byte_length sv s) <=? 65535)%Z then inr (Some s)
      else inl (too_long column)
  | VNull => inr None
  | _ => inl ("Incorrect string value for column '" ++ column ++ "'")
  end.

Definition int_not_null (column : string) (v : value) : string + Z :=
  match v with
  | VNum n =>
      match round_scaled 1 n with
      | Some z => inr z
      | None => inl ("Incorrect integer value for column '" ++ column ++ "'")
      end
  | VNull => inl ("Column '" ++ column ++ "' cannot be null")
  | _ => inl ("Incorrect integer value for column '" ++ column ++ "'")
  end.

(** [DATETIME NOT NULL], given as text. *)
Definition datetime_not_null (column : string) (v : value) : string + datetime :=
  match v with
  | VStr s => inr s
  | VNull => inl ("Column '" ++ column ++ "' cannot be null")
  | _ => inl ("Incorrect datetime value for column '" ++ column ++ "'")
  end.

Definition in_decimal_15_2 (z : Z) : bool :=
  (Z.abs z <? 10 ^ 15)%Z.

Definition decimal_not_null (column : string) (v : value) : string + decimal :=
  match v with
  | VNum n =>
      match round_scaled 100 n with
      | Some z =>
          if in_decimal_15_2 z then inr z
          else inl ("Out of range value for column '" ++ column ++ "'")
      | None => inl ("Incorrect decimal value for column '" ++ column ++ "'")
      end
  | VNull => inl ("Column '" ++ column ++ "' cannot be null")
  | _ => inl ("Incorrect decimal value for column '" ++ column ++ "'")
  end.

Definition decimal_null (column : string) (v : value) : string + option decimal :=
  match v with
  | VNull => inr None
  | _ =>
      match decimal_not_null column v with
      | inr z => inr (Some z)
      | inl message => inl message
      end
  end.

(** The three ENUM columns: a label is matched under the collation, and
    [NULL] is stored as it is. *)
Definition invoice_status_of (sv : Server) (v : value) : string + option InvoiceStatus :=
  match v with
  | VStr s =>
      if collates sv s "PENDING" then inr (Some INV_PENDING)
      else if collates sv s "PARTIAL" then inr (Some INV_PARTIAL)
      else if collates sv s "PAID" then inr (Some INV_PAID)
      else if collates sv s "OVERDUE" then inr (Some INV_OVERDUE)
      else inl "Data truncated for column 'status'"
  | VNull => inr None
  | _ => inl "Data truncated for column 'status'"
  end.

Definition transaction_type_of (sv : Server) (v : value)
  : string + option TransactionType :=
  match v with
  | VStr s =>
      if collates sv s "PAYMENT" then inr (Some PAYMENT)
      else if collates sv s "REFUND" then inr (Some REFUND)
      else if collates sv s "ADJUSTMENT" then inr (Some ADJUSTMENT)
      else inl "Data truncated for column 'transaction_type'"
  | VNull => inr None
  | _ => inl "Data truncated for column 'transaction_type'"
  end.

Definition transaction_status_of (sv : Server) (v : value)
  : string + option TransactionStatus :=
  match v with
  | VStr s =>
      if collates sv s "PENDING" then inr (Some PENDING)
      else if collates sv s "COMPLETED" then inr (Some COMPLETED)
      else if collates sv s "FAILED" then inr (Some FAILED)
      else if collates sv s "CANCELLED" then inr (Some CANCELLED)
      else inl "Data truncated for column 'status'"
  | VNull => inr None
  | _ => inl "Data truncated for column 'status'"
  end.

(** Sequencing of decodings and checks. *)
Definition and_then {A B} (r : string + A) (k : A -> string + B) : string + B :=
  match r with
  | inl message => inl message
  | inr a => k a
  end.

Notation "x <-- r ;;; k" := (and_then r (fun x => k))
  (at level 100, r at next level, right associativity).

Definition check (ok : bool) (message : string) : string + unit :=
  if ok then inr tt else inl message.

Definition ResultSetHeader (affectedRows : nat) (insertId : Z) : value :=
  VObj [("fieldCount", VNum (num_of_nat 0));
        ("affectedRows", VNum (num_of_nat affectedRows));
        ("insertId", VNum (num_of_Z insertId))].

Definition id_rows (column : string) (ids : list Z) : value :=
  VArr (map (fun id => VObj [(column, VNum (num_of_Z id))]) ids).

(** [WHERE natural_key = ?], under the collation. *)
Definition has_client_code (sv : Server) (code : string) (c : Clients.row) : bool :=
  collates sv (Clients.client_code c) code.

Definition has_invoice_number (sv : Server) (number : string) (i : Invoices.row) : bool :=
  collates sv (Invoices.invoice_number i) number.

Definition has_platform_name (sv : Server) (name : string) (p : Platforms.row) : bool :=
  collates sv (Platforms.platform_name p) name.

Definition has_transaction_reference (sv : Server) (reference : string)
  (t : Transactions.row) : bool :=
  collates sv (Transactions.transaction_reference t) reference.

Definition with_clients (db : Database) (cs : list Clients.row) (next : Z) : Database :=
  mkDatabase (platforms db) cs (invoices db) (transactions db)
             (next_platform_id db) next (next_invoice_id db) (next_transaction_id db)
             (server db) (stamped db).

Definition with_invoices (db : Database) (rows : list Invoices.row) (next : Z) : Database :=
  mkDatabase (platforms db) (clients db) rows (transactions db)
             (next_platform_id db) (next_client_id db) next (next_transaction_id db)
             (server db) (stamped db).

Definition with_platforms (db : Database) (ps : list Platforms.row) (next : Z) : Database :=
  mkDatabase ps (clients db) (invoices db) (transactions db)
             next (next_client_id db) (next_invoice_id db) (next_transaction_id db)
             (server db) (stamped db).

Definition with_transactions (db : Database) (ts : list Transactions.row) (next : Z)
  : Database :=
  mkDatabase (platforms db) (clients db) (invoices db) ts
             (next_platform_id db) (next_client_id db) (next_invoice_id db) next
             (server db) (stamped db).

Definition arity_error : string := "Incorrect arguments to mysqld_stmt_execute".

Definition foreign_key_error : string :=
  "Cannot add or update a child row: a foreign key constraint fails".

Definition duplicate_error (entry key : string) : string :=
  "Duplicate entry '" ++ entry ++ "' for key '" ++ key ++ "'".

(** [SELECT id FROM table WHERE natural_key = ?]. *)
Definition select_ids {R} (table : list R) (matches : string -> R -> bool)
  (id : R -> Z) (column : string) (params : list value) : string + value :=
  match params with
  | [VStr key] => inr (id_rows column (map id (filter (matches key) table)))
  | [_] => inr (id_rows column [])
  | _ => inl arity_error
  end.

Definition email_taken (db : Database) (e : option string) (except_code : string) : bool :=
  existsb (fun c => collates_nullable (server db) (Clients.email c) e
                    && negb (has_client_code (server db) except_code c))
          (clients db).

Definition insert_client (db : Database) (params : list value) : string + (Database * value) :=
  let sv := server db in
  match params with
  | [p_code; p_first; p_last; p_email; p_phone; p_address; p_city; p_department] =>
      code <-- varchar_not_null sv 20 "client_code" p_code ;;;
      first <-- varchar_not_null sv 100 "first_name" p_first ;;;
      last <-- varchar_not_null sv 100 "last_name" p_last ;;;
      e <-- varchar sv 150 "email" p_email ;;;
      ph <-- varchar sv 20 "phone" p_phone ;;;
      ad <-- text sv "address" p_address ;;;
      ci <-- varchar sv 100 "city" p_city ;;;
      de <-- varchar sv 100 "department" p_department ;;;
      _ <-- check (negb (existsb (has_client_code sv code) (clients db)))
              (duplicate_error code "clients.client_code") ;;;
      _ <-- check (negb (existsb (fun c => collates_nullable sv (Clients.email c) e)
                                 (clients db)))
              (duplicate_error (match e with Some s => s | None => "" end) "clients.email") ;;;
      let id := next_client_id db in
      inr (stamp (with_clients db
                    (clients db
                     ++ [Clients.mk id code first last e ph ad ci de true
                           (Some (current_timestamp db)) (Some (current_timestamp db))])
                    (id + 1)%Z),
           ResultSetHeader 1 id)
  | _ => inl arity_error
  end.

Definition update_client (db : Database) (params : list value) : string + (Database * value) :=
  let sv := server db in
  match params with
  | [p_first; p_last; p_email; p_phone; p_address; p_city; p_department; p_code] =>
      first <-- varchar_not_null sv 100 "first_name" p_first ;;;
      last <-- varchar_not_null sv 100 "last_name" p_last ;;;
      e <-- varchar sv 150 "email" p_email ;;;
      ph <-- varchar sv 20 "phone" p_phone ;;;
      ad <-- text sv "address" p_address ;;;
      ci <-- varchar sv 100 "city" p_city ;;;
      de <-- varchar sv 100 "department" p_department ;;;
      match p_code with
      | VStr code =>
          let hit := existsb (has_client_code sv code) (clients db) in
          _ <-- check (negb (hit && email_taken db e code))
                  (duplicate_error (match e with Some s => s | None => "" end)
                                   "clients.email") ;;;
          inr (stamp (with_clients db
                        (map (fun c =>
                                if has_client_code sv code c
                                then Clients.mk (Clients.client_id c)
                                       (Clients.client_code c)
                                       first last e ph ad ci de (Clients.is_active c)
                                       (Clients.created_at c) (Some (current_timestamp db))
                                else c) (clients db))
                        (next_client_id db)),
               ResultSetHeader
                 (List.length (filter (has_client_code sv code) (clients db))) 0)
      | _ => inr (db, ResultSetHeader 0 0)
      end
  | _ => inl arity_error
  end.

Definition client_exists (db : Database) (id : Z) : bool :=
  existsb (fun c => (Clients.client_id c =? id)%Z) (clients db).

Definition invoice_exists (db : Database) (id : Z) : bool :=
  existsb (fun i => (Invoices.invoice_id i =? id)%Z) (invoices db).

Definition platform_exists (db : Database) (id : Z) : bool :=
  existsb (fun p => (Platforms.platform_id p =? id)%Z) (platforms db).

Definition insert_invoice (db : Database) (params : list value) : string + (Database * value) :=
  let sv := server db in
  match params with
  | [p_number; p_client; p_period; p_total; p_paid; p_status] =>
      number <-- varchar_not_null sv 50 "invoice_number" p_number ;;;
      client <-- int_not_null "client_id" p_client ;;;
      period <-- varchar_not_null sv 20 "billing_period" p_period ;;;
      total <-- decimal_not_null "total_amount" p_total ;;;
      paid <-- decimal_null "paid_amount" p_paid ;;;
      st <-- invoice_status_of sv p_status ;;;
      _ <-- check (negb (existsb (has_invoice_number sv number) (invoices db)))
              (duplicate_error number "invoices.invoice_number") ;;;
      _ <-- check (client_exists db client) foreign_key_error ;;;
      let id := next_invoice_id db in
      inr (with_invoices db
             (invoices db ++ [Invoices.mk id number client period total paid st None])
             (id + 1)%Z,
           ResultSetHeader 1 id)
  | _ => inl arity_error
  end.

Definition update_invoice (db : Database) (params : list value) : string + (Database * value) :=
  let sv := server db in
  match params with
  | [p_period; p_total; p_paid; p_status; p_number] =>
      period <-- varchar_not_null sv 20 "billing_period" p_period ;;;
      total <-- decimal_not_null "total_amount" p_total ;;;
      paid <-- decimal_null "paid_amount" p_paid ;;;
      st <-- invoice_status_of sv p_status ;;;
      match p_number with
      | VStr number =>
          inr (with_invoices db
                 (map (fun i =>
                         if has_invoice_number sv number i
                         then Invoices.mk (Invoices.invoice_id i) (Invoices.invoice_number i)
                                (Invoices.client_id i) period total paid st
                                (Invoices.description i)
                         else i) (invoices db))
                 (next_invoice_id db),
               ResultSetHeader
                 (List.length (filter (has_invoice_number sv number) (invoices db))) 0)
      | _ => inr (db, ResultSetHeader 0 0)
      end
  | _ => inl arity_error
  end.

Definition insert_platform (db : Database) (params : list value) : string + (Database * value) :=
  let sv := server db in
  match params with
  | [p_name; p_type] =>
      name <-- varchar_not_null sv 50 "platform_name" p_name ;;;
      type <-- varchar_not_null sv 30 "platform_type" p_type ;;;
      _ <-- check (negb (existsb (has_platform_name sv name) (platforms db)))
              (duplicate_error name "platforms.platform_name") ;;;
      let id := next_platform_id db in
      inr (with_platforms db (platforms db ++ [Platforms.mk id name type true]) (id + 1)%Z,
           ResultSetHeader 1 id)
  | _ => inl arity_error
  end.

Definition insert_transaction (db : Database) (params : list value)
  : string + (Database * value) :=
  let sv := server db in
  match params with
  | [p_reference; p_invoice; p_platform; p_date; p_amount; p_type; p_status] =>
      reference <-- varchar_not_null sv 100 "transaction_reference" p_reference ;;;
      invoice <-- int_not_null "invoice_id" p_invoice ;;;
      platform <-- int_not_null "platform_id" p_platform ;;;
      date <-- datetime_not_null "transaction_date" p_date ;;;
      amount <-- decimal_not_null "amount" p_amount ;;;
      type <-- transaction_type_of sv p_type ;;;
      st <-- transaction_status_of sv p_status ;;;
      _ <-- check (negb (existsb (has_transaction_reference sv reference)
                                 (transactions db)))
              (duplicate_error reference "transactions.transaction_reference") ;;;
      _ <-- check (invoice_exists db invoice && platform_exists db platform)
              foreign_key_error ;;;
      let id := next_transaction_id db in
      inr (with_transactions db
             (transactions db
              ++ [Transactions.mk id reference invoice platform date amount type st None])
             (id + 1)%Z,
           ResultSetHeader 1 id)
  | _ => inl arity_error
  end.

Definition update_transaction (db : Database) (params : list value)
  : string + (Database * value) :=
  let sv := server db in
  match params with
  | [p_invoice; p_platform; p_date; p_amount; p_type; p_status; p_reference] =>
      invoice <-- int_not_null "invoice_id" p_invoice ;;;
      platform <-- int_not_null "platform_id" p_platform ;;;
      date <-- datetime_not_null "transaction_date" p_date ;;;
      amount <-- decimal_not_null "amount" p_amount ;;;
      type <-- transaction_type_of sv p_type ;;;
      st <-- transaction_status_of sv p_status ;;;
      match p_reference with
      | VStr reference =>
          let hit := existsb (has_transaction_reference sv reference) (transactions db) in
          _ <-- check (negb hit || (invoice_exists db invoice && platform_exists db platform))
                  foreign_key_error ;;;
          inr (with_transactions db
                 (map (fun t =>
                         if has_transaction_reference sv reference t
                         then Transactions.mk (Transactions.transaction_id t)
                                (Transactions.transaction_reference t)
                                invoice platform date amount type st
                                (Transactions.description t)
                         else t) (transactions db))
                 (next_transaction_id db),
               ResultSetHeader
                 (List.length (filter (has_transaction_reference sv reference)
                                      (transactions db)))
                 0)
      | _ => inr (db, ResultSetHeader 0 0)
      end
  | _ => inl arity_error
  end.

(** *** Name resolution

    A statement is prepared before it is executed, and one that names a
    column its table does not have is rejected ([ER_BAD_FIELD_ERROR]),
    whatever the tables hold. *)

(** The columns of each table, as the schema file creates them. *)
Definition columns (table : string) : list string :=
  if String.eqb table "platforms" then
    ["platform_id"; "platform_name"; "platform_type"; "is_active";
     "created_at"; "updated_at"]
  else if String.eqb table "clients" then
    ["client_id"; "client_code"; "first_name"; "last_name"; "email"; "phone";
     "address"; "city"; "department"; "is_active"; "created_at"; "updated_at"]
  else if String.eqb table "invoices" then
    ["invoice_id"; "invoice_number"; "client_id"; "billing_period"; "total_amount";
     "paid_amount"; "status"; "description"; "created_at"; "updated_at"]
  else if String.eqb table "transactions" then
    ["transaction_id"; "transaction_reference"; "invoice_id"; "platform_id";
     "transaction_date"; "amount"; "transaction_type"; "status"; "description";
     "created_at"; "updated_at"]
  else [].

(** A qualified column name of a statement, and the clause it stands in. *)
Record reference : Type := mkReference {
  qualifier : string;
  column : string;
  clause : string
}.

(** The names of a SELECT: the tables of its [FROM] and [JOIN] clauses
    under their aliases, and its column names in the order the server
    resolves them: the select list, then the conditions, then the
    ordering. *)
Record names : Type := mkNames {
  tables : list (string * string);
  references : list reference
}.

Definition table_of (s : names) (alias : string) : option string :=
  option_map snd (find (fun entry => String.eqb (fst entry) alias) (tables s)).

Definition resolves (s : names) (r : reference) : bool :=
  match table_of s (qualifier r) with
  | Some table => existsb (String.eqb (column r)) (columns table)
  | None => false
  end.

Definition unknown_column (s : names) : option reference :=
  find (fun r => negb (resolves s r)) (references s).

Definition bad_field_error (r : reference) : string :=
  "Unknown column '" ++ qualifier r ++ "." ++ column r ++ "' in '" ++ clause r ++ "'".

(** [pool.execute] on a SELECT whose result set, when its names resolve, is
    [rows]. *)
Definition select {Row : Type} (s : names) (rows : list Row) : string + list Row :=
  match unknown_column s with
  | Some r => inl (bad_field_error r)
  | None => inr rows
  end.

Definition run (db : Database) (r : string + (Database * value))
  : Database * (string + value) :=
  match r with
  | inl message => (db, inl message)
  | inr (db', v) => (db', inr v)
  end.

Definition pool_execute (query : Sql) (params : list value) (db : Database)
  : Database * (string + value) :=
  if existsb is_undefined params
  then (db, inl "Bind parameters must not contain undefined. To pass SQL NULL specify JS null")
  else
    match query with
    | SELECT_client_id_FROM_clients_WHERE_client_code =>
        (db, select_ids (clients db) (has_client_code (server db)) Clients.client_id
               "client_id" params)
    | UPDATE_clients_SET_WHERE_client_code => run db (update_client db params)
    | INSERT_INTO_clients => run db (insert_client db params)
    | SELECT_invoice_id_FROM_invoices_WHERE_invoice_number =>
        (db, select_ids (invoices db) (has_invoice_number (server db))
               Invoices.invoice_id "invoice_id" params)
    | UPDATE_invoices_SET_WHERE_invoice_number => run db (update_invoice db params)
    | INSERT_INTO_invoices => run db (insert_invoice db params)
    | SELECT_platform_id_FROM_platforms_WHERE_platform_name =>
        (db, select_ids (platforms db) (has_platform_name (server db))
               Platforms.platform_id "platform_id" params)
    | INSERT_INTO_platforms => run db (insert_platform db params)
    | SELECT_transaction_id_FROM_transactions_WHERE_transaction_reference =>
        (db, select_ids (transactions db) (has_transaction_reference (server db))
               Transactions.transaction_id "transaction_id" params)
    | UPDATE_transactions_SET_WHERE_transaction_reference =>
        run db (update_transaction db params)
    | INSERT_INTO_transactions => run db (insert_transaction db params)
    end.

End MySQL.

(** ** Language built-ins used to run the loader on concrete batches

    [parseFloat] on plain decimal text: optional leading blanks, an optional
    sign, digits, an optional fraction; anything after that is ignored, and
    text without a digit gives NaN. On such text of at most fifteen
    significant digits the quotient below is the correctly rounded value.
    Exponents and [Infinity] are outside this instance. *)

Module Builtins.

Definition is_digit (c : ascii) : bool :=
  let n := nat_of_ascii c in (48 <=? n)%nat && (n <=? 57)%nat.

Definition is_blank (c : ascii) : bool :=
  let n := nat_of_ascii c in (n =? 32)%nat || ((9 <=? n)%nat && (n <=? 13)%nat).

Fixpoint skip_blanks (s : string) : string :=
  match s with
  | String c rest => if is_blank c then skip_blanks rest else s
  | EmptyString => s
  end.

Fixpoint read_digits (s : string) (acc : Z) (count : nat) : Z * nat * string :=
  match s with
  | String c rest =>
      if is_digit c
      then read_digits rest (acc * 10 + (Z.of_nat (nat_of_ascii c) - 48))%Z (S count)
      else (acc, count, s)
  | EmptyString => (acc, count, s)
  end.

Definition parseFloat (s : string) : float :=
  let s1 := skip_blanks s in
  let '(negative, s2) :=
    match s1 with
    | String "-"%char rest => (true, rest)
    | String "+"%char rest => (false, rest)
    | _ => (false, s1)
    end in
  let '(whole, whole_digits, s3) := read_digits s2 0%Z 0 in
  let '(numerator, fraction_digits) :=
    match s3 with
    | String "."%char rest =>
        let '(v, k, _) := read_digits rest whole 0 in (v, k)
    | _ => (whole, 0)
    end in
  if (whole_digits + fraction_digits =? 0)%nat then PrimFloat.nan
  else
    let q := PrimFloat.div (num_of_Z numerator)
                           (num_of_Z (10 ^ Z.of_nat fraction_digits)) in
    if negative then PrimFloat.opp q else q.

(** Number conversion of strings, arrays and objects: not exercised by the
    loader, which only converts [undefined]. *)
Definition ToNumberOther (v : value) : float := PrimFloat.nan.

End Builtins.

(** ** A storage that records the statements it receives *)

Module Trace.

Import DataLoader.

(** A statement, its bind parameters, and what the storage answered. *)
Definition log : Type := list (Sql * list value * (string + value)).

Definition traced {Store : Type}
  (pool_execute : Sql -> list value -> Store -> Store * (string + value))
  (query : Sql) (params : list value) (st : Store * log)
  : (Store * log) * (string + value) :=
  let '(st', result) := pool_execute query params (fst st) in
  ((st', snd st ++ [(query, params, result)]), result).

End Trace.

(** The loader over the reference storage engine. *)
Module Loader.

Definition processCSVData (data : list DataLoader.Row) (db : Schema.Database)
  : Schema.Database * DataLoader.Stats :=
  DataLoader.processCSVData MySQL.pool_execute Builtins.parseFloat
    Builtins.ToNumberOther data db.

(** The row of the import scenario:
    [client_code=TEST001, first_name=Test, last_name=User, invoice_number=INV-1,
     transaction_reference=TXN-1, platform_name=Nequi, total_amount=100,
     paid_amount=100, transaction_amount=100], the other columns empty except
    those the schema requires. *)
Definition test_row : DataLoader.Row :=
  DataLoader.mkRow
    (Some "TEST001") (Some "Test") (Some "User")
    (Some "") (Some "") (Some "") (Some "") (Some "")
    (Some "INV-1") (Some "2024-01") (Some "100") (Some "100") (Some "PAID")
    (Some "TXN-1") (Some "2024-01-15 10:00:00") (Some "100")
    (Some "PAYMENT") (Some "COMPLETED") (Some "Nequi").

(** The same row without its platform column, and without both its invoice
    number and its platform. *)
Definition no_platform_row : DataLoader.Row :=
  DataLoader.mkRow
    (Some "TEST001") (Some "Test") (Some "User")
    (Some "") (Some "") (Some "") (Some "") (Some "")
    (Some "INV-1") (Some "2024-01") (Some "100") (Some "100") (Some "PAID")
    (Some "TXN-1") (Some "2024-01-15 10:00:00") (Some "100")
    (Some "PAYMENT") (Some "COMPLETED") None.

Definition no_invoice_no_platform_row : DataLoader.Row :=
  DataLoader.mkRow
    (Some "TEST001") (Some "Test") (Some "User")
    (Some "") (Some "") (Some "") (Some "") (Some "")
    (Some "") (Some "2024-01") (Some "100") (Some "100") (Some "PAID")
    (Some "TXN-1") (Some "2024-01-15 10:00:00") (Some "100")
    (Some "PAYMENT") (Some "COMPLETED") (Some "").

(** A row that names a platform the schema does not seed. *)
Definition new_platform_row : DataLoader.Row :=
  DataLoader.mkRow
    (Some "TEST002") (Some "Ana") (Some "Diaz")
    (Some "") (Some "") (Some "") (Some "") (Some "")
    (Some "INV-2") (Some "2024-01") (Some "100") (Some "100") (Some "PAID")
    (Some "TXN-2") (Some "2024-01-15 10:00:00") (Some "100")
    (Some "PAYMENT") (Some "COMPLETED") (Some "PayNow").

(** The database after the schema file, with one client and one of its
    invoices. *)
Definition with_one_invoice : Schema.Database :=
  Schema.mkDatabase
    (Schema.platforms Schema.initial)
    [Schema.Clients.mk 1 "TEST001" "Test" "User" None None None None None true
       (Some (Schema.scenario_clock 0)) (Some (Schema.scenario_clock 0))]
    [Schema.Invoices.mk 1 "INV-1" 1 "2024-01" 10000%Z (Some 10000%Z)
       (Some Schema.INV_PAID) None]
    []
    6 2 2 1 Schema.scenario_server 1.

(** The loader over the engine that also records the statements. *)
Definition processCSVData_traced (data : list DataLoader.Row)
  (st : Schema.Database * Trace.log) : (Schema.Database * Trace.log) * DataLoader.Stats :=
  DataLoader.processCSVData (Trace.traced MySQL.pool_execute) Builtins.parseFloat
    Builtins.ToNumberOther data st.

Definition processTransaction_traced (row : DataLoader.Row) (invoiceId : value)
  (st : Schema.Database * Trace.log)
  : (Schema.Database * Trace.log) * outcome DataLoader.TransactionResult :=
  DataLoader.processTransaction (Trace.traced MySQL.pool_execute) Builtins.parseFloat
    Builtins.ToNumberOther row invoiceId st.

End Loader.

(** ** The reporting routes: [backend/routes/queries.js] *)

Module Queries.

Import Schema.

Local Open Scope string_scope.

(** [ORDER BY]: a stable insertion sort along a total preorder. *)
Fixpoint insert {A} (le : A -> A -> bool) (x : A) (l : list A) : list A :=
  match l with
  | [] => [x]
  | y :: rest => if le x y then x :: l else y :: insert le x rest
  end.

Definition order_by {A} (le : A -> A -> bool) (l : list A) : list A :=
  fold_right (insert le) [] l.

(** [SUM] over a [DECIMAL] column. *)
Definition sum_decimal {A} (f : A -> decimal) (l : list A) : decimal :=
  fold_right (fun a acc => (f a + acc)%Z) 0%Z l.

(** [MAX] over a [DATETIME] column: [NULL] over no row. *)
Definition max_datetime (l : list datetime) : option datetime :=
  fold_right (fun d acc =>
                match acc with
                | None => Some d
                | Some m => Some (if String.leb m d then d else m)
                end) None l.

(** [CONCAT(c.first_name, ' ', c.last_name)]. *)
Definition client_name (c : Clients.row) : string :=
  Clients.first_name c ++ " " ++ Clients.last_name c.

(** [parseFloat] of the text the driver returns for a [DECIMAL] value:
    the decimal number itself, rounded once to binary64 (for magnitudes
    below 2^53 hundredths). *)
Definition parseFloat_decimal (d : decimal) : float :=
  PrimFloat.div (num_of_Z d) (num_of_nat 100).

(** [parseFloat] of a nullable [DECIMAL]: [null] prints as ["null"] and
    parses to NaN. *)
Definition parseFloat_nullable (d : option decimal) : float :=
  match d with
  | Some z => parseFloat_decimal z
  | None => PrimFloat.nan
  end.

(** What a route sends back. *)
Inductive Response (Data Summary : Type) : Type :=
| Json (data : list Data) (summary : Summary) (count : nat)
| Status500 (message error : string).

Arguments Json {Data Summary} data summary count.
Arguments Status500 {Data Summary} message error.

(** *** [GET /api/queries/total-payments] *)

Module TotalPayments.

Record row : Type := mk {
  client_id : Z;
  client_code : string;
  client_name : string;
  email : option string;
  city : option string;
  department : option string;
  total_paid : decimal;
  total_transactions : nat;
  last_payment_date : option datetime
}.

Record summary : Type := mkSummary {
  total_clients : nat;
  total_amount_paid : float;
  average_payment_per_client : float
}.

End TotalPayments.

Definition is_completed (t : Transactions.row) : bool :=
  match Transactions.status t with
  | Some COMPLETED => true
  | _ => false
  end.

(** [LEFT JOIN invoices i ON c.client_id = i.client_id]: the invoices of a
    client. *)
Definition invoices_of (db : Database) (c : Clients.row) : list Invoices.row :=
  filter (fun i => (Clients.client_id c =? Invoices.client_id i)%Z) (invoices db).

(** [ON i.invoice_id = t.invoice_id AND t.status = 'COMPLETED']. *)
Definition joins (i : Invoices.row) (t : Transactions.row) : bool :=
  (Invoices.invoice_id i =? Transactions.invoice_id t)%Z && is_completed t.

(** The transactions the two [LEFT JOIN]s attach to a client: for each of
    its invoices, the COMPLETED transactions of that invoice. *)
Definition joined_transactions (db : Database) (c : Clients.row) : list Transactions.row :=
  flat_map (fun i => filter (joins i) (transactions db)) (invoices_of db c).

(** One group of the [GROUP BY]: [client_id] is the primary key, so a group
    is a client. *)
Definition total_payments_group (db : Database) (c : Clients.row) : TotalPayments.row :=
  let ts := joined_transactions db c in
  TotalPayments.mk (Clients.client_id c) (Clients.client_code c) (client_name c)
    (Clients.email c) (Clients.city c) (Clients.department c)
    (sum_decimal Transactions.amount ts)
    (List.length ts)
    (max_datetime (map Transactions.transaction_date ts)).

(** [ORDER BY total_paid DESC]. *)
Definition by_total_paid_desc (a b : TotalPayments.row) : bool :=
  (TotalPayments.total_paid b <=? TotalPayments.total_paid a)%Z.

Definition total_payments_query (db : Database) : list TotalPayments.row :=
  order_by by_total_paid_desc
    (map (total_payments_group db) (filter Clients.is_active (clients db))).

Definition total_payments_summary (data : list TotalPayments.row) : TotalPayments.summary :=
  let totalClients := List.length data in
  let totalAmount :=
    fold_left (fun sum client =>
                 PrimFloat.add sum (parseFloat_decimal (TotalPayments.total_paid client)))
              data PrimFloat.zero in
  let averagePayment :=
    if (0 <? totalClients)%nat
    then PrimFloat.div totalAmount (num_of_nat totalClients)
    else PrimFloat.zero in
  TotalPayments.mkSummary totalClients totalAmount averagePayment.

(** The handler, given what [executeQuery] returned: [inl] for
    [{ success: false, error }], [inr] for [{ success: true, data }]. *)
Definition total_payments_handler (result : string + list TotalPayments.row)
  : Response TotalPayments.row TotalPayments.summary :=
  match result with
  | inl error => Status500 "Error retrieving total payments" error
  | inr data => Json data (total_payments_summary data) (List.length data)
  end.

(** The names of the statement: every one is a column of the schema. *)
Definition total_payments_names : MySQL.names :=
  let field := "field list" in
  MySQL.mkNames
    [("c", "clients"); ("i", "invoices"); ("t", "transactions")]
    [ MySQL.mkReference "c" "client_id" field;
      MySQL.mkReference "c" "client_code" field;
      MySQL.mkReference "c" "first_name" field;
      MySQL.mkReference "c" "last_name" field;
      MySQL.mkReference "c" "email" field;
      MySQL.mkReference "c" "city" field;
      MySQL.mkReference "c" "department" field;
      MySQL.mkReference "t" "amount" field;
      MySQL.mkReference "t" "transaction_id" field;
      MySQL.mkReference "t" "transaction_date" field;
      MySQL.mkReference "c" "client_id" "on clause";
      MySQL.mkReference "i" "client_id" "on clause";
      MySQL.mkReference "i" "invoice_id" "on clause";
      MySQL.mkReference "t" "invoice_id" "on clause";
      MySQL.mkReference "t" "status" "on clause";
      MySQL.mkReference "c" "is_active" "where clause";
      MySQL.mkReference "c" "client_id" "group statement";
      MySQL.mkReference "c" "client_code" "group statement";
      MySQL.mkReference "c" "first_name" "group statement";
      MySQL.mkReference "c" "last_name" "group statement";
      MySQL.mkReference "c" "email" "group statement";
      MySQL.mkReference "c" "city" "group statement";
      MySQL.mkReference "c" "department" "group statement" ].

Definition total_payments (db : Database)
  : Response TotalPayments.row TotalPayments.summary :=
  total_payments_handler (MySQL.select total_payments_names (total_payments_query db)).

(** *** [GET /api/queries/pending-invoices] *)

Module PendingInvoices.

(** An element of the [JSON_ARRAYAGG] of an invoice's transactions. *)
Record transaction : Type := mkTransaction {
  transaction_id : Z;
  transaction_reference : string;
  amount : decimal;
  transaction_date : datetime;
  transaction_status : option string;
  platform_name : string
}.

(** A row of the result set, by the names of the select list.
    [invoice_date] and [due_date] are values of columns that no source file
    declares. *)
Record row : Type := mk {
  invoice_id : Z;
  invoice_number : string;
  client_code : string;
  client_name : string;
  email : option string;
  phone : option string;
  city : option string;
  department : option string;
  invoice_date : value;
  due_date : value;
  total_amount : decimal;
  paid_amount : option decimal;
  pending_amount : option decimal;
  status : option string;
  description : option string;
  days_overdue : option Z;
  payment_status : string;
  transactions : option (list transaction)
}.

Record summary : Type := mkSummary {
  total_pending_invoices : nat;
  total_pending_amount : float;
  overdue_invoices : nat;
  due_today_invoices : nat
}.

End PendingInvoices.

(** [i.status IN ('PENDING', 'PARTIAL', 'OVERDUE')]. *)
Definition is_outstanding (i : Invoices.row) : bool :=
  match Invoices.status i with
  | Some INV_PENDING | Some INV_PARTIAL | Some INV_OVERDUE => true
  | Some INV_PAID | None => false
  end.

(** The names of the statement. The select list reads [i.invoice_date] and
    [i.due_date]; the ordering reads [i.due_date] again. *)
Definition pending_invoices_names : MySQL.names :=
  let field := "field list" in
  MySQL.mkNames
    [("i", "invoices"); ("c", "clients"); ("t2", "transactions"); ("p", "platforms")]
    [ MySQL.mkReference "i" "invoice_id" field;
      MySQL.mkReference "i" "invoice_number" field;
      MySQL.mkReference "c" "client_code" field;
      MySQL.mkReference "c" "first_name" field;
      MySQL.mkReference "c" "last_name" field;
      MySQL.mkReference "c" "email" field;
      MySQL.mkReference "c" "phone" field;
      MySQL.mkReference "c" "city" field;
      MySQL.mkReference "c" "department" field;
      MySQL.mkReference "i" "invoice_date" field;
      MySQL.mkReference "i" "due_date" field;
      MySQL.mkReference "i" "total_amount" field;
      MySQL.mkReference "i" "paid_amount" field;
      MySQL.mkReference "i" "total_amount" field;
      MySQL.mkReference "i" "paid_amount" field;
      MySQL.mkReference "i" "status" field;
      MySQL.mkReference "i" "description" field;
      MySQL.mkReference "i" "due_date" field;
      MySQL.mkReference "i" "due_date" field;
      MySQL.mkReference "i" "due_date" field;
      MySQL.mkReference "t2" "transaction_id" field;
      MySQL.mkReference "t2" "transaction_reference" field;
      MySQL.mkReference "t2" "amount" field;
      MySQL.mkReference "t2" "transaction_date" field;
      MySQL.mkReference "t2" "status" field;
      MySQL.mkReference "p" "platform_name" field;
      MySQL.mkReference "t2" "platform_id" "on clause";
      MySQL.mkReference "p" "platform_id" "on clause";
      MySQL.mkReference "t2" "invoice_id" "where clause";
      MySQL.mkReference "i" "invoice_id" "where clause";
      MySQL.mkReference "i" "client_id" "on clause";
      MySQL.mkReference "c" "client_id" "on clause";
      MySQL.mkReference "i" "status" "where clause";
      MySQL.mkReference "c" "is_active" "where clause";
      MySQL.mkReference "i" "due_date" "order clause";
      MySQL.mkReference "i" "due_date" "order clause";
      MySQL.mkReference "i" "due_date" "order clause" ].

Definition days_overdue_positive (invoice : PendingInvoices.row) : bool :=
  match PendingInvoices.days_overdue invoice with
  | Some d => (0 <? d)%Z
  | None => false
  end.

Definition days_overdue_zero (invoice : PendingInvoices.row) : bool :=
  match PendingInvoices.days_overdue invoice with
  | Some d => (d =? 0)%Z
  | None => false
  end.

Definition pending_invoices_summary (data : list PendingInvoices.row)
  : PendingInvoices.summary :=
  let totalPendingInvoices := List.length data in
  let totalPendingAmount :=
    fold_left (fun sum invoice =>
                 PrimFloat.add sum
                   (parseFloat_nullable (PendingInvoices.pending_amount invoice)))
              data PrimFloat.zero in
  let overdueInvoices := List.length (filter days_overdue_positive data) in
  let dueTodayInvoices := List.length (filter days_overdue_zero data) in
  PendingInvoices.mkSummary totalPendingInvoices totalPendingAmount
    overdueInvoices dueTodayInvoices.

Definition pending_invoices_handler (result : string + list PendingInvoices.row)
  : Response PendingInvoices.row PendingInvoices.summary :=
  match result with
  | inl error => Status500 "Error retrieving pending invoices" error
  | inr data => Json data (pending_invoices_summary data) (List.length data)
  end.

(** The route over the schema. [reading] stands for the result set the
    statement has on a database where its names resolve; no source file
    defines the two columns it would be computed from. *)
Definition pending_invoices (reading : Database -> list PendingInvoices.row)
  (db : Database) : Response PendingInvoices.row PendingInvoices.summary :=
  pending_invoices_handler (MySQL.select pending_invoices_names (reading db)).

(** *** [GET /api/queries/transactions-by-platform] *)

Module ByPlatform.

(** A row of the result set, by the names of the select list. The two ENUM
    columns of [transactions] and the one of [invoices] may hold [NULL];
    [invoice_date] is the value of a column that no source file declares. *)
Record row : Type := mk {
  platform_id : Z;
  platform_name : string;
  platform_type : string;
  transaction_id : Z;
  transaction_reference : string;
  transaction_date : datetime;
  amount : decimal;
  transaction_type : option string;
  status : option string;
  description : option string;
  client_code : string;
  client_name : string;
  email : option string;
  city : option string;
  department : option string;
  invoice_number : string;
  invoice_date : value;
  total_amount : decimal;
  invoice_status : option string
}.

(** An element of [platform_statistics]. *)
Module Stats.
Record entry : Type := mk {
  platform_name : string;
  total_transactions : nat;
  total_amount : float;
  completed_transactions : nat;
  pending_transactions : nat;
  failed_transactions : nat
}.
End Stats.

Module Summary.
Record t : Type := mk {
  total_transactions : nat;
  total_amount : float;
  completed_transactions : nat;
  pending_transactions : nat;
  failed_transactions : nat;
  platform_statistics : list Stats.entry
}.
End Summary.

End ByPlatform.

(** [if (platform)] on the query-string parameter. *)
Definition platform_given (platform : option string) : bool :=
  ToBoolean (match platform with Some s => VStr s | None => VUndefined end).

(** The names of the statement; [AND p.platform_name = ?] is appended only
    for a given platform. The select list reads [i.invoice_date]. *)
Definition transactions_by_platform_names (platform : option string) : MySQL.names :=
  let field := "field list" in
  MySQL.mkNames
    [("t", "transactions"); ("p", "platforms"); ("i", "invoices"); ("c", "clients")]
    ([ MySQL.mkReference "p" "platform_id" field;
       MySQL.mkReference "p" "platform_name" field;
       MySQL.mkReference "p" "platform_type" field;
       MySQL.mkReference "t" "transaction_id" field;
       MySQL.mkReference "t" "transaction_reference" field;
       MySQL.mkReference "t" "transaction_date" field;
       MySQL.mkReference "t" "amount" field;
       MySQL.mkReference "t" "transaction_type" field;
       MySQL.mkReference "t" "status" field;
       MySQL.mkReference "t" "description" field;
       MySQL.mkReference "c" "client_code" field;
       MySQL.mkReference "c" "first_name" field;
       MySQL.mkReference "c" "last_name" field;
       MySQL.mkReference "c" "email" field;
       MySQL.mkReference "c" "city" field;
       MySQL.mkReference "c" "department" field;
       MySQL.mkReference "i" "invoice_number" field;
       MySQL.mkReference "i" "invoice_date" field;
       MySQL.mkReference "i" "total_amount" field;
       MySQL.mkReference "i" "status" field;
       MySQL.mkReference "t" "platform_id" "on clause";
       MySQL.mkReference "p" "platform_id" "on clause";
       MySQL.mkReference "t" "invoice_id" "on clause";
       MySQL.mkReference "i" "invoice_id" "on clause";
       MySQL.mkReference "i" "client_id" "on clause";
       MySQL.mkReference "c" "client_id" "on clause";
       MySQL.mkReference "c" "is_active" "where clause" ]
     ++ (if platform_given platform
         then [MySQL.mkReference "p" "platform_name" "where clause"] else [])
     ++ [ MySQL.mkReference "t" "transaction_date" "order clause" ])%list.

(** The [platformStats] object: its own properties in creation order. A
    property name that [Object.prototype] defines reads as the inherited
    (truthy) value when the object has no own property of that name. *)
Definition Object_prototype_names : list string :=
  ["constructor"; "__defineGetter__"; "__defineSetter__"; "hasOwnProperty";
   "__lookupGetter__"; "__lookupSetter__"; "isPrototypeOf"; "propertyIsEnumerable";
   "toString"; "valueOf"; "__proto__"; "toLocaleString"].

Definition inherited (name : string) : bool :=
  existsb (String.eqb name) Object_prototype_names.

Definition has_own (name : string) (object : list (string * ByPlatform.Stats.entry))
  : bool :=
  existsb (fun kv => String.eqb (fst kv) name) object.

(** The updates of one transaction on its platform's entry. *)
Definition bump (transaction : ByPlatform.row) (e : ByPlatform.Stats.entry)
  : ByPlatform.Stats.entry :=
  let has label :=
    match ByPlatform.status transaction with
    | Some status => String.eqb status label
    | None => false
    end in
  ByPlatform.Stats.mk
    (ByPlatform.Stats.platform_name e)
    (S (ByPlatform.Stats.total_transactions e))
    (PrimFloat.add (ByPlatform.Stats.total_amount e)
                   (parseFloat_decimal (ByPlatform.amount transaction)))
    (if has "COMPLETED"
     then S (ByPlatform.Stats.completed_transactions e)
     else ByPlatform.Stats.completed_transactions e)
    (if has "COMPLETED" then ByPlatform.Stats.pending_transactions e
     else if has "PENDING"
          then S (ByPlatform.Stats.pending_transactions e)
          else ByPlatform.Stats.pending_transactions e)
    (if has "COMPLETED" then ByPlatform.Stats.failed_transactions e
     else if has "PENDING" then ByPlatform.Stats.failed_transactions e
     else if has "FAILED"
          then S (ByPlatform.Stats.failed_transactions e)
          else ByPlatform.Stats.failed_transactions e).

(** Assignment through [platformStats[name]]: on the own entry when there
    is one; otherwise on the inherited object, which [Object.values] never
    lists. *)
Fixpoint update_own (name : string) (f : ByPlatform.Stats.entry -> ByPlatform.Stats.entry)
  (object : list (string * ByPlatform.Stats.entry))
  : list (string * ByPlatform.Stats.entry) :=
  match object with
  | [] => []
  | (k, e) :: rest =>
      if String.eqb k name then (k, f e) :: rest
      else (k, e) :: update_own name f rest
  end.

(** The body of [result.data.forEach]. *)
Definition group_transaction (platformStats : list (string * ByPlatform.Stats.entry))
  (transaction : ByPlatform.row) : list (string * ByPlatform.Stats.entry) :=
  let platformName := ByPlatform.platform_name transaction in
  let platformStats1 :=
    if has_own platformName platformStats || inherited platformName
    then platformStats
    else (platformStats
          ++ [(platformName, ByPlatform.Stats.mk platformName 0 PrimFloat.zero 0 0 0)])%list in
  update_own platformName (bump transaction) platformStats1.

(** A property name that is an array index: the decimal text of an integer
    below 2^32 - 1, without a leading zero. *)
Definition array_index (name : string) : option Z :=
  match Builtins.read_digits name 0%Z 0 with
  | (v, count, EmptyString) =>
      if (0 <? count)%nat
         && (String.eqb name "0"
             || negb (String.eqb (String.substring 0 1 name) "0"))
         && (v <? 4294967295)%Z
      then Some v else None
  | _ => None
  end.

Definition index_order (a b : Z * ByPlatform.Stats.entry) : bool :=
  (fst a <=? fst b)%Z.

(** [Object.values]: the values of the array-index names in ascending
    order, then the others in creation order. *)
Definition Object_values (object : list (string * ByPlatform.Stats.entry))
  : list ByPlatform.Stats.entry :=
  (map snd
       (order_by index_order
          (flat_map (fun kv => match array_index (fst kv) with
                               | Some n => [(n, snd kv)]
                               | None => []
                               end) object))
   ++ map snd (filter (fun kv => match array_index (fst kv) with
                                 | Some _ => false
                                 | None => true
                                 end) object))%list.

(** [t.status === label]: [null] is no label. *)
Definition status_is (label : string) (t : ByPlatform.row) : bool :=
  match ByPlatform.status t with
  | Some status => String.eqb status label
  | None => false
  end.

Definition transactions_by_platform_summary (data : list ByPlatform.row)
  : ByPlatform.Summary.t :=
  let totalTransactions := List.length data in
  let totalAmount :=
    fold_left (fun sum transaction =>
                 PrimFloat.add sum (parseFloat_decimal (ByPlatform.amount transaction)))
              data PrimFloat.zero in
  let completedTransactions := List.length (filter (status_is "COMPLETED") data) in
  let pendingTransactions := List.length (filter (status_is "PENDING") data) in
  let failedTransactions := List.length (filter (status_is "FAILED") data) in
  let platformStats := fold_left group_transaction data [] in
  ByPlatform.Summary.mk totalTransactions totalAmount
    completedTransactions pendingTransactions failedTransactions
    (Object_values platformStats).

Definition transactions_by_platform_handler (result : string + list ByPlatform.row)
  : Response ByPlatform.row ByPlatform.Summary.t :=
  match result with
  | inl error => Status500 "Error retrieving transactions by platform" error
  | inr data => Json data (transactions_by_platform_summary data) (List.length data)
  end.

(** The route over the schema, [reading] being the result set of the
    statement on a database where its names resolve. *)
Definition transactions_by_platform
  (reading : option string -> Database -> list ByPlatform.row)
  (platform : option string) (db : Database)
  : Response ByPlatform.row ByPlatform.Summary.t :=
  transactions_by_platform_handler
    (MySQL.select (transactions_by_platform_names platform) (reading platform db)).

(** *** Observations on a report *)

(** The rows a response lists. *)
Definition data_of {Data Summary : Type} (response : Response Data Summary) : list Data :=
  match response with
  | Json data _ _ => data
  | Status500 _ _ => []
  end.

(** The invoice of a transaction exists and belongs to an active client. *)
Definition owner_active (db : Database) (t : Transactions.row) : bool :=
  existsb (fun i =>
             (Invoices.invoice_id i =? Transactions.invoice_id t)%Z
             && existsb (fun c => (Clients.client_id c =? Invoices.client_id i)%Z
                                  && Clients.is_active c)
                        (clients db))
          (invoices db).

(** A client without any COMPLETED transaction on any of its invoices. *)
Definition no_completed_transaction (db : Database) (c : Clients.row) : Prop :=
  forall (i : Invoices.row) (t : Transactions.row),
    In i (invoices db) -> In t (transactions db) ->
    Invoices.client_id i = Clients.client_id c ->
    Transactions.invoice_id t = Invoices.invoice_id i ->
    Transactions.status t <> Some COMPLETED.










(** A database where one client has been deactivated after paying: the
    client, its invoice and its COMPLETED transaction of 100.00. *)
Definition deactivated_payer : Database :=
  mkDatabase
    (platforms initial)
    [Clients.mk 1 "TEST001" "Test" "User" None None None None None false
       (Some (scenario_clock 0)) (Some (scenario_clock 1))]
    [Invoices.mk 1 "INV-1" 1 "2024-01" 10000%Z (Some 10000%Z) (Some INV_PAID) None]
    [Transactions.mk 1 "TXN-1" 1 1 "2024-01-15 10:00:00" 10000%Z (Some PAYMENT)
       (Some COMPLETED) None]
    6 2 2 2 scenario_server 2.

(** A database with three clients, the third without invoice, a partly
    paid invoice, a paid one, and three transactions, one of them
    cancelled. *)
Definition ana : Clients.row :=
  Clients.mk 1 "CLI001" "Ana" "Diaz" None None None None None true
    (Some (scenario_clock 0)) (Some (scenario_clock 0)).

Definition luis : Clients.row :=
  Clients.mk 2 "CLI002" "Luis" "Mora" None None None None None true
    (Some (scenario_clock 1)) (Some (scenario_clock 1)).

Definition eva : Clients.row :=
  Clients.mk 3 "CLI003" "Eva" "Rios" None None None None None true
    (Some (scenario_clock 2)) (Some (scenario_clock 2)).

Definition invoice_of_ana : Invoices.row :=
  Invoices.mk 1 "INV-1" 1 "2024-01" 10000%Z (Some 5000%Z) (Some INV_PARTIAL) None.

Definition invoice_of_luis : Invoices.row :=
  Invoices.mk 2 "INV-2" 2 "2024-01" 10000%Z (Some 10000%Z) (Some INV_PAID) None.

Definition sample : Database :=
  mkDatabase
    (platforms initial)
    [ana; luis; eva]
    [invoice_of_ana; invoice_of_luis]
    [Transactions.mk 1 "TXN-1" 1 1 "2024-01-01 00:00:00" 5000%Z (Some PAYMENT)
       (Some COMPLETED) None;
     Transactions.mk 2 "TXN-2" 2 1 "2024-01-02 00:00:00" 10000%Z (Some PAYMENT)
       (Some COMPLETED) None;
     Transactions.mk 3 "TXN-3" 1 3 "2024-01-03 00:00:00" 700%Z (Some PAYMENT)
       (Some CANCELLED) None]
    6 4 3 4 scenario_server 3.

End Queries.

(** * Properties of the data loader *)

Module LoaderProperties.

Import DataLoader.

Section WithStorage.

Context {Store : Type}.
Variable pool_execute : Sql -> list value -> Store -> Store * (string + value).
Variable parseFloat : string -> float.
Variable ToNumberOther : value -> float.

Local Abbreviation executeQuery := (executeQuery pool_execute).
Local Abbreviation after := (after pool_execute).
Local Abbreviation send := (send pool_execute).
Local Abbreviation validateRow := (validateRow parseFloat).
Local Abbreviation processClient := (processClient pool_execute ToNumberOther).
Local Abbreviation processInvoice := (processInvoice pool_execute parseFloat ToNumberOther).
Local Abbreviation processTransaction :=
  (processTransaction pool_execute parseFloat ToNumberOther).
Local Abbreviation process_row := (process_row pool_execute parseFloat ToNumberOther).
Local Abbreviation process_rows := (process_rows pool_execute parseFloat ToNumberOther).
Local Abbreviation processCSVData := (processCSVData pool_execute parseFloat ToNumberOther).
Local Abbreviation defects_from := (defects_from parseFloat).

(** [executeQuery] always returns, and what it returns is the wrapper
    object: reading its [length] or its [insertId] gives [undefined]. *)
Lemma executeQuery_returns (query : Sql) (params : list value) (st : Store) :
  exists wrapper,
    executeQuery query params st = (after query params st, Return wrapper)
    /\ (forall st' : Store, member wrapper "length" st' = (st', Return VUndefined))
    /\ (forall st' : Store, member wrapper "insertId" st' = (st', Return VUndefined)).
Proof.
  unfold DataLoader.executeQuery, DataLoader.after.
  destruct (pool_execute query params st) as [st' [message | rows]]; cbn [fst];
    eexists; repeat split; reflexivity.
Qed.

(** [undefined > 0] is false. *)
Lemma gt_undefined : gt ToNumberOther VUndefined PrimFloat.zero = false.
Proof. reflexivity. Qed.

Ltac step_query :=
  match goal with
  | |- context [DataLoader.executeQuery pool_execute ?q ?ps ?st] =>
      let w := fresh "wrapper" in
      let E := fresh "E" in
      let L := fresh "L" in
      let I := fresh "I" in
      destruct (executeQuery_returns q ps st) as (w & E & L & I);
      rewrite E; cbv beta iota; try rewrite L; try rewrite I; cbv beta iota;
      try rewrite gt_undefined; cbv beta iota
  end.

Lemma processClient_eq (row : Row) (st : Store) :
  processClient row st
  = (send (client_statements row) st,
     Return {| clientId := VUndefined; client_created := true |}).
Proof.
  unfold DataLoader.processClient, try_catch, bind, ret.
  repeat step_query. reflexivity.
Qed.

Lemma processInvoice_eq (row : Row) (clientId : value) (st : Store) :
  processInvoice row clientId st
  = (send (invoice_statements parseFloat row clientId) st,
     Return {| invoiceId := VUndefined; invoice_created := true |}).
Proof.
  unfold DataLoader.processInvoice, try_catch, bind, ret.
  repeat step_query. reflexivity.
Qed.

Lemma processTransaction_eq (row : Row) (invoiceId : value) (st : Store) :
  processTransaction row invoiceId st
  = (send (transaction_statements parseFloat row invoiceId VUndefined) st,
     Return {| transactionId := VUndefined; transaction_created := true |}).
Proof.
  unfold DataLoader.processTransaction, try_catch, bind, ret.
  repeat step_query. reflexivity.
Qed.

(** A row that passes validation is counted three times as created,
    whatever the storage answers, and no message is recorded. *)
Lemma process_row_valid (i : nat) (row : Row) (stats : Stats) (st : Store) :
  validateRow row (i + 2) = [] ->
  process_row i row stats st
  = (send (client_statements row
           ++ invoice_statements parseFloat row VUndefined
           ++ transaction_statements parseFloat row VUndefined VUndefined) st,
     count_transaction (count_invoice (count_client stats true) true) true).
Proof.
  intros V. unfold DataLoader.process_row. rewrite V. cbn [List.length Nat.ltb Nat.leb].
  rewrite processClient_eq. cbn [clientId client_created].
  rewrite processInvoice_eq. cbn [invoiceId invoice_created].
  rewrite processTransaction_eq. cbn [transaction_created].
  unfold DataLoader.send. rewrite !fold_left_app. reflexivity.
Qed.

(** A row that fails validation only adds its defects. *)
Lemma process_row_defective (i : nat) (row : Row) (stats : Stats) (st : Store) :
  validateRow row (i + 2) <> [] ->
  process_row i row stats st = (st, push_errors stats (validateRow row (i + 2))).
Proof.
  intros V. unfold DataLoader.process_row.
  destruct (validateRow row (i + 2)) as [| e es]; [congruence | reflexivity].
Qed.

Lemma process_row_errors (i : nat) (row : Row) (stats : Stats) (st : Store) :
  errors (snd (process_row i row stats st)) = errors stats ++ validateRow row (i + 2).
Proof.
  destruct (validateRow row (i + 2)) as [| e es] eqn:V.
  - rewrite process_row_valid by exact V. cbn. now rewrite app_nil_r.
  - rewrite process_row_defective by (rewrite V; discriminate). rewrite V. reflexivity.
Qed.

Lemma process_rows_errors (data : list Row) :
  forall (i : nat) (stats : Stats) (st : Store),
    errors (snd (process_rows i data stats st)) = errors stats ++ defects_from i data.
Proof.
  induction data as [| row rest IH]; intros i stats st;
    cbn [DataLoader.process_rows DataLoader.defects_from].
  - cbn. now rewrite app_nil_r.
  - pose proof (process_row_errors i row stats st) as E.
    destruct (process_row i row stats st) as [st' stats']. cbn [snd] in E.
    rewrite IH, E, app_assoc. reflexivity.
Qed.

(** Every message of the validator starts with the row number it was
    given. *)
Lemma validateRow_numbered (row : Row) (rowNumber : nat) :
  Forall (fun e => exists message,
              e = ("Row " ++ string_of_nat rowNumber ++ ": " ++ message)%string)
         (validateRow row rowNumber).
Proof.
  unfold DataLoader.validateRow, row_message.
  repeat (apply Forall_app; split);
    match goal with
    | |- Forall _ (if ?b then _ else _) =>
        destruct b; constructor; [eexists; reflexivity | constructor]
    end.
Qed.

Lemma validateRow_length (row : Row) (rowNumber : nat) :
  List.length (validateRow row rowNumber) <= 7.
Proof.
  unfold DataLoader.validateRow. rewrite !length_app.
  repeat match goal with
         | |- context [if ?b then _ else _] => destruct b
         end; cbn; lia.
Qed.

(** The validator pushes one message for each check the row fails. *)
Lemma validateRow_checks (row : Row) (rowNumber : nat) :
  validateRow row rowNumber = map (row_message rowNumber) (failed_checks parseFloat row).
Proof.
  unfold DataLoader.validateRow, failed_checks, checks. cbn [filter fst].
  repeat match goal with
         | |- context [if ?b then _ else _] => destruct b
         end; reflexivity.
Qed.

Lemma validateRow_missing (row : Row) (rowNumber : nat) :
  missing_required row -> 1 <= List.length (validateRow row rowNumber).
Proof.
  unfold missing_required, DataLoader.validateRow. rewrite !length_app.
  intros H.
  destruct (truthy (client_code row)), (truthy (first_name row)),
    (truthy (last_name row)), (truthy (invoice_number row)),
    (truthy (transaction_reference row)), (truthy (platform_name row));
    cbn; try lia; exfalso; intuition discriminate.
Qed.

Lemma balanced_count_client (s : Stats) (created : bool) :
  balanced s -> balanced (count_client s created).
Proof. unfold balanced; destruct created; cbn; lia. Qed.

Lemma balanced_count_invoice (s : Stats) (created : bool) :
  balanced s -> balanced (count_invoice s created).
Proof. unfold balanced; destruct created; cbn; lia. Qed.

Lemma balanced_count_transaction (s : Stats) (created : bool) :
  balanced s -> balanced (count_transaction s created).
Proof. unfold balanced; destruct created; cbn; lia. Qed.

Lemma balanced_push_errors (s : Stats) (es : list string) :
  balanced s -> balanced (push_errors s es).
Proof. unfold balanced; cbn; lia. Qed.

Create HintDb balanced.

#[local] Hint Resolve balanced_count_client balanced_count_invoice
  balanced_count_transaction balanced_push_errors : balanced.

(** The loop body keeps the counters balanced on every path, including the
    paths through [catch]. *)
Lemma process_row_balanced (i : nat) (row : Row) (stats : Stats) (st : Store) :
  balanced stats -> balanced (snd (process_row i row stats st)).
Proof.
  intros B. unfold DataLoader.process_row.
  destruct (0 <? List.length (validateRow row (i + 2)))%nat; cbn [snd];
    [auto with balanced |].
  destruct (processClient row st) as [st1 [clientResult | m1]]; cbn [snd];
    [| auto with balanced].
  destruct (processInvoice row (clientId clientResult) st1)
    as [st2 [invoiceResult | m2]]; cbn [snd]; [| auto with balanced].
  destruct (processTransaction row (invoiceId invoiceResult) st2)
    as [st3 [transactionResult | m3]]; cbn [snd]; auto 6 with balanced.
Qed.

Lemma process_rows_balanced (data : list Row) :
  forall (i : nat) (stats : Stats) (st : Store),
    balanced stats -> balanced (snd (process_rows i data stats st)).
Proof.
  induction data as [| row rest IH]; intros i stats st B; cbn [DataLoader.process_rows].
  - exact B.
  - pose proof (process_row_balanced i row stats st B) as B'.
    destruct (process_row i row stats st) as [st' stats']. apply IH. exact B'.
Qed.

Lemma defects_from_nth (data : list Row) :
  forall (k i : nat) (row : Row),
    nth_error data i = Some row ->
    incl (validateRow row (k + i + 2)) (defects_from k data).
Proof.
  induction data as [| r rest IH]; intros k i row H.
  - destruct i; discriminate.
  - cbn [DataLoader.defects_from]. destruct i as [| i]; cbn in H.
    + injection H as ->. rewrite Nat.add_0_r. apply incl_appl, incl_refl.
    + apply incl_appr. replace (k + S i + 2) with (S k + i + 2) by lia.
      apply IH. exact H.
Qed.

(** C9. After every run of [processCSVData], each processed counter is the
    sum of the created and updated counters of its entity kind, whatever
    the storage answered. *)
Theorem processed_is_created_plus_updated (data : list Row) (st : Store) :
  let stats := snd (processCSVData data st) in
  clients_processed stats = clients_created stats + clients_updated stats
  /\ invoices_processed stats = invoices_created stats + invoices_updated stats
  /\ transactions_processed stats
     = transactions_created stats + transactions_updated stats.
Proof.
  apply (process_rows_balanced data 0 stats0 st).
  unfold balanced; cbn; lia.
Qed.

(** C8. The messages of a run are the validation defects of its rows in
    order, the row at index [i] (counting from 0) being validated under the
    number [i + 2]; so every message about that row is in the result and
    starts with [Row <i+2>: ], and the first data row is row 2. *)
Theorem rows_are_numbered_from_two (data : list Row) (st : Store) :
  errors (snd (processCSVData data st)) = defects_from 0 data
  /\ forall (i : nat) (row : Row),
       nth_error data i = Some row ->
       Forall (fun e =>
                 In e (errors (snd (processCSVData data st)))
                 /\ exists message,
                      e = ("Row " ++ string_of_nat (i + 2) ++ ": " ++ message)%string)
              (validateRow row (i + 2)).
Proof.
  assert (E : errors (snd (processCSVData data st)) = defects_from 0 data).
  { unfold DataLoader.processCSVData. rewrite process_rows_errors. reflexivity. }
  split; [exact E |].
  intros i row H. rewrite E.
  pose proof (validateRow_numbered row (i + 2)) as N.
  pose proof (defects_from_nth data 0 i row H) as I. cbn [Nat.add] in I.
  rewrite Forall_forall in *. intros e He. split; [apply I, He | apply N, He].
Qed.

(** C4, as amended. A row that lacks one of the six required fields gets
    the defects of the validator recorded: one for each of the seven checks
    the row fails, in the order of the checks and under the row's number,
    hence between one and seven of them; no statement reaches the storage
    and no counter moves. *)
Theorem defective_row_is_skipped (i : nat) (row : Row) (stats : Stats) (st : Store) :
  missing_required row ->
  let defects := validateRow row (i + 2) in
  fst (process_row i row stats st) = st
  /\ errors (snd (process_row i row stats st)) = errors stats ++ defects
  /\ defects = map (row_message (i + 2)) (failed_checks parseFloat row)
  /\ List.length defects = List.length (filter fst (checks parseFloat row))
  /\ 1 <= List.length defects <= 7
  /\ Forall (fun e => exists message,
                 e = ("Row " ++ string_of_nat (i + 2) ++ ": " ++ message)%string)
            defects
  /\ same_counters (snd (process_row i row stats st)) stats.
Proof.
  intros H defects.
  pose proof (validateRow_missing row (i + 2) H) as L1.
  assert (V : validateRow row (i + 2) <> []).
  { intros E. rewrite E in L1. cbn in L1. lia. }
  rewrite (process_row_defective i row stats st V). cbn [fst snd].
  split; [reflexivity |]. split; [reflexivity |].
  split; [apply validateRow_checks |].
  split; [unfold defects; rewrite validateRow_checks; unfold failed_checks;
          now rewrite !length_map |].
  split; [split; [exact L1 | apply validateRow_length] |].
  split; [apply validateRow_numbered |].
  unfold same_counters; cbn. repeat split.
Qed.

End WithStorage.

End LoaderProperties.

(** ** The loader on concrete batches *)

Module LoaderRuns.

Import DataLoader.

Local Open Scope string_scope.

(** C4, on a row without platform: nothing is sent to the storage. *)
Lemma defective_row_is_skipped_witness :
  missing_required Loader.no_platform_row
  /\ fst (process_row (Trace.traced MySQL.pool_execute) Builtins.parseFloat
            Builtins.ToNumberOther 0 Loader.no_platform_row stats0 (Schema.initial, []))
     = (Schema.initial, [])
  /\ errors (snd (process_row (Trace.traced MySQL.pool_execute) Builtins.parseFloat
                    Builtins.ToNumberOther 0 Loader.no_platform_row stats0
                    (Schema.initial, [])))
     = ["Row 2: Missing platform name"].
Proof.
  assert (H : missing_required Loader.no_platform_row).
  { unfold missing_required. cbn. tauto. }
  pose proof (LoaderProperties.defective_row_is_skipped
                (Trace.traced MySQL.pool_execute) Builtins.parseFloat
                Builtins.ToNumberOther 0 Loader.no_platform_row stats0
                (Schema.initial, []) H) as T.
  cbv zeta in T. destruct T as (T1 & T2 & _).
  split; [exact H |]. split; [exact T1 |]. rewrite T2. reflexivity.
Defined.

(** The row of the witness fails one check and gets one defect; the row
    without invoice number and platform fails two and gets two. *)
Example failed_checks_of_the_rows :
  failed_checks Builtins.parseFloat Loader.no_platform_row = ["Missing platform name"]
  /\ failed_checks Builtins.parseFloat Loader.no_invoice_no_platform_row
     = ["Missing invoice number"; "Missing platform name"].
Proof. split; reflexivity. Qed.

(** C4 as stated fails: a row that lacks its invoice number and its platform
    gets two defects, not one. *)
Lemma two_defects_for_one_row :
  missing_required Loader.no_invoice_no_platform_row
  /\ errors (snd (Loader.processCSVData [Loader.no_invoice_no_platform_row]
                    Schema.initial))
     = ["Row 2: Missing invoice number"; "Row 2: Missing platform name"].
Proof.
  split; [unfold missing_required; cbn; tauto | reflexivity].
Qed.

(** C8, on a batch whose first data row lacks its platform. *)
Lemma rows_are_numbered_from_two_witness :
  nth_error [Loader.no_platform_row] 0 = Some Loader.no_platform_row
  /\ errors (snd (Loader.processCSVData [Loader.no_platform_row] Schema.initial))
     = ["Row 2: Missing platform name"]
  /\ Forall (fun e =>
               In e (errors (snd (Loader.processCSVData [Loader.no_platform_row]
                                    Schema.initial)))
               /\ exists message, e = "Row " ++ string_of_nat (0 + 2) ++ ": " ++ message)
            (validateRow Builtins.parseFloat Loader.no_platform_row (0 + 2)).
Proof.
  pose proof (LoaderProperties.rows_are_numbered_from_two
                MySQL.pool_execute Builtins.parseFloat Builtins.ToNumberOther
                [Loader.no_platform_row] Schema.initial) as [E N].
  split; [reflexivity |].
  split; [unfold Loader.processCSVData; rewrite E; reflexivity |].
  apply (N 0 Loader.no_platform_row). reflexivity.
Defined.

(** C1 on the import scenario. The row is imported, then imported again
    into the database the first import left. The second import counts
    created entities once more and no updated one; the database holds the
    client and neither the invoice nor the transaction. *)
Theorem reimport_counts_created_again :
  let first := Loader.processCSVData [Loader.test_row] Schema.initial in
  let second := Loader.processCSVData [Loader.test_row] (fst first) in
  (clients_created (snd first), invoices_created (snd first),
   transactions_created (snd first)) = (1, 1, 1)
  /\ (clients_created (snd second), invoices_created (snd second),
      transactions_created (snd second)) = (1, 1, 1)
  /\ (clients_updated (snd second), invoices_updated (snd second),
      transactions_updated (snd second)) = (0, 0, 0)
  /\ errors (snd second) = []
  /\ List.length (Schema.clients (fst second)) = 1
  /\ Schema.invoices (fst second) = []
  /\ Schema.transactions (fst second) = [].
Proof. vm_compute. repeat split. Qed.

(** C2 on a batch that holds the scenario row twice. The tenth statement of
    the run is the second row's [INSERT INTO clients]; the engine rejects it
    as a duplicate key; the returned statistics hold no message and count
    the row as created. *)
Theorem duplicate_key_is_not_reported :
  let run := Loader.processCSVData_traced [Loader.test_row; Loader.test_row]
               (Schema.initial, []) in
  nth_error (snd (fst run)) 9
  = Some (INSERT_INTO_clients,
          [VStr "TEST001"; VStr "Test"; VStr "User"; VNull; VNull; VNull; VNull; VNull],
          inl "Duplicate entry 'TEST001' for key 'clients.client_code'")
  /\ errors (snd run) = []
  /\ (clients_processed (snd run), clients_created (snd run), clients_updated (snd run))
     = (2, 2, 0).
Proof. vm_compute. repeat split. Qed.

(** C7 on a row that names the seeded platform [Nequi], whose key is 1. The
    lookup finds the platform, yet an [INSERT INTO platforms] follows and is
    rejected, and the transaction is bound to [undefined] where the
    platform's key belongs. The platforms table is unchanged. *)
Theorem existing_platform_key_is_not_reused :
  let run := Loader.processTransaction_traced Loader.test_row (VNum PrimFloat.one)
               (Loader.with_one_invoice, []) in
  map (fun entry => (fst (fst entry), snd entry)) (firstn 2 (snd (fst run)))
  = [ (SELECT_platform_id_FROM_platforms_WHERE_platform_name,
       inr (VArr [VObj [("platform_id", VNum PrimFloat.one)]]));
      (INSERT_INTO_platforms,
       inl "Duplicate entry 'Nequi' for key 'platforms.platform_name'") ]
  /\ nth_error (snd (fst run)) 3
     = Some (INSERT_INTO_transactions,
             [VStr "TXN-1"; VNum PrimFloat.one; VUndefined;
              VStr "2024-01-15 10:00:00"; VNum (Builtins.parseFloat "100");
              VStr "PAYMENT"; VStr "COMPLETED"],
             inl "Bind parameters must not contain undefined. To pass SQL NULL specify JS null")
  /\ Schema.platforms (fst (fst run)) = Schema.platforms Loader.with_one_invoice
  /\ Schema.transactions (fst (fst run)) = []
  /\ snd run = Return {| transactionId := VUndefined; transaction_created := true |}.
Proof. vm_compute. repeat split. Qed.

(** The part of C7 that holds: a platform that does not exist yet is
    inserted with the type [DIGITAL_WALLET]. *)
Example new_platform_is_a_digital_wallet :
  let run := Loader.processTransaction_traced Loader.new_platform_row
               (VNum PrimFloat.one) (Loader.with_one_invoice, []) in
  Schema.platforms (fst (fst run))
  = (Schema.platforms Loader.with_one_invoice
     ++ [Schema.Platforms.mk 6 "PayNow" "DIGITAL_WALLET" true])%list.
Proof. vm_compute. reflexivity. Qed.

End LoaderRuns.

(** * Properties of the reports *)

Module QueryProperties.

Import Schema.
Import Queries.

(** ** Sorting and sums *)

Lemma insert_perm {A} (le : A -> A -> bool) (x : A) (l : list A) :
  Permutation (insert le x l) (x :: l).
Proof.
  induction l as [| y rest IH]; cbn [insert].
  - apply Permutation_refl.
  - destruct (le x y); [apply Permutation_refl |].
    apply Permutation_trans with (y :: x :: rest);
      [apply perm_skip, IH | apply perm_swap].
Qed.

Lemma order_by_perm {A} (le : A -> A -> bool) (l : list A) :
  Permutation (order_by le l) l.
Proof.
  unfold order_by. induction l as [| x rest IH]; cbn [fold_right].
  - apply perm_nil.
  - apply Permutation_trans with (x :: fold_right (insert le) [] rest);
      [apply insert_perm | apply perm_skip, IH].
Qed.

Lemma In_order_by {A} (le : A -> A -> bool) (l : list A) (x : A) :
  In x (order_by le l) <-> In x l.
Proof.
  split; apply Permutation_in;
    [apply order_by_perm | apply Permutation_sym, order_by_perm].
Qed.

Lemma sum_decimal_cons {A} (f : A -> decimal) (a : A) (l : list A) :
  sum_decimal f (a :: l) = (f a + sum_decimal f l)%Z.
Proof. reflexivity. Qed.

Lemma sum_decimal_perm {A} (f : A -> decimal) (l l' : list A) :
  Permutation l l' -> sum_decimal f l = sum_decimal f l'.
Proof.
  induction 1; rewrite ?sum_decimal_cons; try reflexivity; lia.
Qed.

Lemma sum_decimal_map {A B} (g : A -> B) (f : B -> decimal) (l : list A) :
  sum_decimal f (map g l) = sum_decimal (fun a => f (g a)) l.
Proof.
  induction l as [| a rest IH]; [reflexivity |].
  cbn [map]. rewrite !sum_decimal_cons, IH. reflexivity.
Qed.

Lemma sum_decimal_app {A} (f : A -> decimal) (l l' : list A) :
  sum_decimal f (l ++ l') = (sum_decimal f l + sum_decimal f l')%Z.
Proof.
  induction l as [| a rest IH]; [reflexivity |].
  cbn [app]. rewrite !sum_decimal_cons, IH. lia.
Qed.

Lemma sum_decimal_filter {A} (p : A -> bool) (f : A -> decimal) (l : list A) :
  sum_decimal f (filter p l) = sum_decimal (fun a => if p a then f a else 0%Z) l.
Proof.
  induction l as [| a rest IH]; [reflexivity |].
  cbn [filter]. rewrite sum_decimal_cons, <- IH.
  destruct (p a); [rewrite sum_decimal_cons |]; reflexivity.
Qed.

Lemma sum_decimal_flat_map {A B} (g : A -> list B) (f : B -> decimal) (l : list A) :
  sum_decimal f (flat_map g l) = sum_decimal (fun a => sum_decimal f (g a)) l.
Proof.
  induction l as [| a rest IH]; [reflexivity |].
  cbn [flat_map]. rewrite sum_decimal_app, sum_decimal_cons, IH. reflexivity.
Qed.

Lemma sum_decimal_ext {A} (f g : A -> decimal) (l : list A) :
  (forall a, In a l -> f a = g a) -> sum_decimal f l = sum_decimal g l.
Proof.
  induction l as [| a rest IH]; intros H; [reflexivity |].
  rewrite !sum_decimal_cons, IH by (intros; apply H; now right).
  rewrite (H a) by now left. reflexivity.
Qed.

Lemma sum_decimal_plus {A} (f g : A -> decimal) (l : list A) :
  sum_decimal (fun a => (f a + g a)%Z) l = (sum_decimal f l + sum_decimal g l)%Z.
Proof.
  induction l as [| a rest IH]; [reflexivity |].
  rewrite !sum_decimal_cons, IH. lia.
Qed.

Lemma sum_decimal_zero {A} (l : list A) :
  sum_decimal (fun _ => 0%Z) l = 0%Z.
Proof.
  induction l as [| a rest IH]; [reflexivity |].
  rewrite sum_decimal_cons, IH. reflexivity.
Qed.

Lemma sum_decimal_swap {A B} (F : A -> B -> decimal) (l1 : list A) (l2 : list B) :
  sum_decimal (fun a => sum_decimal (fun b => F a b) l2) l1
  = sum_decimal (fun b => sum_decimal (fun a => F a b) l1) l2.
Proof.
  induction l1 as [| a rest IH].
  - symmetry. apply sum_decimal_zero.
  - rewrite sum_decimal_cons, IH, <- sum_decimal_plus. reflexivity.
Qed.

(** Lookup by a unique key. *)
Lemma sum_decimal_unique {A} (key : A -> Z) (k : Z) (g : A -> decimal) (l : list A) :
  NoDup (map key l) ->
  sum_decimal (fun a => if (key a =? k)%Z then g a else 0%Z) l
  = match find (fun a => (key a =? k)%Z) l with
    | Some a => g a
    | None => 0%Z
    end.
Proof.
  induction l as [| a rest IH]; intros N; [reflexivity |].
  inversion N as [| ? ? Hnotin N']; subst.
  rewrite sum_decimal_cons, (IH N'). cbn [find].
  destruct (key a =? k)%Z eqn:E; [| reflexivity].
  apply Z.eqb_eq in E.
  destruct (find (fun a0 => (key a0 =? k)%Z) rest) as [b |] eqn:F; [| lia].
  apply find_some in F. destruct F as [Hin Hk]. apply Z.eqb_eq in Hk.
  exfalso. apply Hnotin. rewrite E, <- Hk. apply in_map. exact Hin.
Qed.

Lemma existsb_unique {A} (key : A -> Z) (k : Z) (h : A -> bool) (l : list A) :
  NoDup (map key l) ->
  existsb (fun a => (key a =? k)%Z && h a) l
  = match find (fun a => (key a =? k)%Z) l with
    | Some a => h a
    | None => false
    end.
Proof.
  induction l as [| a rest IH]; intros N; cbn; [reflexivity |].
  inversion N as [| ? ? Hnotin N']; subst.
  rewrite (IH N').
  destruct (key a =? k)%Z eqn:E; [| reflexivity]. cbn.
  apply Z.eqb_eq in E.
  destruct (find (fun a0 => (key a0 =? k)%Z) rest) as [b |] eqn:F;
    [| now rewrite orb_false_r].
  apply find_some in F. destruct F as [Hin Hk]. apply Z.eqb_eq in Hk.
  exfalso. apply Hnotin. rewrite E, <- Hk. apply in_map. exact Hin.
Qed.

(** ** Total payments *)

Section TotalPayments.

Variable db : Database.
Hypothesis clients_key : NoDup (map Clients.client_id (clients db)).
Hypothesis invoices_key : NoDup (map Invoices.invoice_id (invoices db)).

(** What one transaction adds to the totals of all reported clients. *)
Lemma contribution (t : Transactions.row) :
  sum_decimal
    (fun c => sum_decimal
                (fun i => if joins i t then Transactions.amount t else 0%Z)
                (invoices_of db c))
    (filter Clients.is_active (clients db))
  = if is_completed t && owner_active db t then Transactions.amount t else 0%Z.
Proof.
  set (a := Transactions.amount t).
  set (F := fun (c : Clients.row) (i : Invoices.row) =>
              if (Invoices.invoice_id i =? Transactions.invoice_id t)%Z
              then if (Clients.client_id c =? Invoices.client_id i)%Z
                   then if Clients.is_active c && is_completed t then a else 0%Z
                   else 0%Z
              else 0%Z).
  rewrite sum_decimal_filter.
  rewrite (sum_decimal_ext _ (fun c => sum_decimal (F c) (invoices db))).
  2:{ intros c _. destruct (Clients.is_active c) eqn:Hc.
      - unfold invoices_of. rewrite sum_decimal_filter.
        apply sum_decimal_ext. intros i _. unfold F, joins. rewrite Hc.
        destruct (Clients.client_id c =? Invoices.client_id i)%Z,
          (Invoices.invoice_id i =? Transactions.invoice_id t)%Z,
          (is_completed t); reflexivity.
      - symmetry. rewrite <- (sum_decimal_zero (invoices db)).
        apply sum_decimal_ext. intros i _. unfold F. rewrite Hc.
        destruct (Invoices.invoice_id i =? Transactions.invoice_id t)%Z,
          (Clients.client_id c =? Invoices.client_id i)%Z; reflexivity. }
  rewrite sum_decimal_swap.
  set (G := fun (i : Invoices.row) =>
              match find (fun c => (Clients.client_id c =? Invoices.client_id i)%Z)
                         (clients db) with
              | Some c => if Clients.is_active c && is_completed t then a else 0%Z
              | None => 0%Z
              end).
  rewrite (sum_decimal_ext _
             (fun i => if (Invoices.invoice_id i =? Transactions.invoice_id t)%Z
                       then G i else 0%Z)).
  2:{ intros i _. unfold F, G.
      destruct (Invoices.invoice_id i =? Transactions.invoice_id t)%Z.
      - rewrite <- (sum_decimal_unique Clients.client_id (Invoices.client_id i)
                      (fun c => if Clients.is_active c && is_completed t then a else 0%Z)
                      (clients db) clients_key).
        reflexivity.
      - apply sum_decimal_zero. }
  rewrite (sum_decimal_unique Invoices.invoice_id (Transactions.invoice_id t) G
             (invoices db) invoices_key).
  unfold owner_active.
  rewrite (existsb_unique Invoices.invoice_id (Transactions.invoice_id t)
             (fun i => existsb (fun c => (Clients.client_id c =? Invoices.client_id i)%Z
                                         && Clients.is_active c) (clients db))
             (invoices db) invoices_key).
  destruct (find (fun i => (Invoices.invoice_id i =? Transactions.invoice_id t)%Z)
                 (invoices db)) as [i0 |];
    [| now rewrite andb_false_r].
  unfold G.
  rewrite (existsb_unique Clients.client_id (Invoices.client_id i0) Clients.is_active
             (clients db) clients_key).
  destruct (find (fun c => (Clients.client_id c =? Invoices.client_id i0)%Z)
                 (clients db)) as [c0 |];
    [| now rewrite andb_false_r].
  rewrite andb_comm. reflexivity.
Qed.

Lemma total_paid_over (ts : list Transactions.row) :
  sum_decimal
    (fun c => sum_decimal Transactions.amount
                (flat_map (fun i => filter (joins i) ts) (invoices_of db c)))
    (filter Clients.is_active (clients db))
  = sum_decimal Transactions.amount
      (filter (fun t => is_completed t && owner_active db t) ts).
Proof.
  induction ts as [| t rest IH].
  - cbn [filter].
    rewrite (sum_decimal_ext _ (fun _ => 0%Z)); [apply sum_decimal_zero |].
    intros c _. rewrite sum_decimal_flat_map. apply sum_decimal_zero.
  - rewrite (sum_decimal_ext _
               (fun c => (sum_decimal
                            (fun i => if joins i t then Transactions.amount t else 0%Z)
                            (invoices_of db c)
                          + sum_decimal Transactions.amount
                              (flat_map (fun i => filter (joins i) rest)
                                        (invoices_of db c)))%Z)).
    2:{ intros c _. rewrite !sum_decimal_flat_map, <- sum_decimal_plus.
        apply sum_decimal_ext. intros i _. cbn [filter].
        destruct (joins i t); [rewrite sum_decimal_cons |]; reflexivity. }
    rewrite sum_decimal_plus, contribution, IH. cbn [filter].
    destruct (is_completed t && owner_active db t);
      [rewrite sum_decimal_cons |]; reflexivity.
Qed.

Lemma total_paid_sum :
  sum_decimal TotalPayments.total_paid (total_payments_query db)
  = sum_decimal Transactions.amount
      (filter (fun t => is_completed t && owner_active db t) (transactions db)).
Proof.
  unfold total_payments_query.
  rewrite (sum_decimal_perm _ _ _ (order_by_perm _ _)), sum_decimal_map.
  rewrite <- total_paid_over. apply sum_decimal_ext. intros c _.
  reflexivity.
Qed.

End TotalPayments.

Lemma joined_transactions_none (db : Database) (c : Clients.row) :
  no_completed_transaction db c -> joined_transactions db c = [].
Proof.
  intros H. unfold joined_transactions.
  destruct (flat_map _ _) as [| t rest] eqn:E; [reflexivity | exfalso].
  assert (Hin : In t (t :: rest)) by now left. rewrite <- E in Hin.
  apply in_flat_map in Hin. destruct Hin as (i & Hi & Ht).
  apply filter_In in Hi. destruct Hi as [Hi Hc].
  apply filter_In in Ht. destruct Ht as [Ht Hm].
  apply andb_prop in Hm. destruct Hm as [Hid Hs].
  apply Z.eqb_eq in Hc, Hid.
  apply (H i t Hi Ht); [congruence | congruence |].
  unfold is_completed in Hs. destruct (Transactions.status t) as [[] |]; congruence.
Qed.

(** C3, as amended. With [client_id] and [invoice_id] primary keys, the
    [total_paid] of the reported clients add up to the amounts of the
    COMPLETED transactions whose invoice belongs to an active client; and
    every active client without COMPLETED transaction is reported with
    [total_paid = 0]. *)
Theorem total_paid_covers_active_clients (db : Database) :
  NoDup (map Clients.client_id (clients db)) ->
  NoDup (map Invoices.invoice_id (invoices db)) ->
  let report := data_of (total_payments db) in
  sum_decimal TotalPayments.total_paid report
  = sum_decimal Transactions.amount
      (filter (fun t => is_completed t && owner_active db t) (transactions db))
  /\ forall c : Clients.row,
       In c (clients db) -> Clients.is_active c = true ->
       no_completed_transaction db c ->
       exists r,
         In r report
         /\ TotalPayments.client_id r = Clients.client_id c
         /\ TotalPayments.client_code r = Clients.client_code c
         /\ TotalPayments.total_paid r = 0%Z
         /\ TotalPayments.total_transactions r = 0.
Proof.
  intros Kc Ki report. split.
  - apply total_paid_sum; assumption.
  - intros c Hin Hact Hnone.
    exists (total_payments_group db c). split.
    + unfold report, total_payments, total_payments_handler, data_of,
        total_payments_query.
      apply In_order_by, in_map, filter_In. split; assumption.
    + unfold total_payments_group.
      rewrite (joined_transactions_none db c Hnone). repeat split.
Qed.

(** C3 as stated fails on a deactivated client that has paid: the report
    is empty, while the store holds a COMPLETED transaction of 100.00. *)
Lemma deactivated_payer_is_left_out :
  data_of (total_payments deactivated_payer) = []
  /\ sum_decimal Transactions.amount
       (filter is_completed (transactions deactivated_payer)) = 10000%Z
  /\ sum_decimal TotalPayments.total_paid (data_of (total_payments deactivated_payer))
     <> sum_decimal Transactions.amount
          (filter is_completed (transactions deactivated_payer)).
Proof.
  split; [reflexivity |]. split; [reflexivity |]. cbn. discriminate.
Qed.

(** ** Name resolution of the three statements *)

Lemma total_payments_resolves (rows : list TotalPayments.row) :
  MySQL.select total_payments_names rows = inr rows.
Proof. reflexivity. Qed.

Lemma pending_invoices_rejected (rows : list PendingInvoices.row) :
  MySQL.select pending_invoices_names rows
  = inl "Unknown column 'i.invoice_date' in 'field list'".
Proof. reflexivity. Qed.

Lemma transactions_by_platform_rejected (platform : option string)
  (rows : list ByPlatform.row) :
  MySQL.select (transactions_by_platform_names platform) rows
  = inl "Unknown column 'i.invoice_date' in 'field list'".
Proof.
  unfold MySQL.select, MySQL.unknown_column, transactions_by_platform_names.
  cbn [MySQL.references]. destruct (platform_given platform); reflexivity.
Qed.

(** ** Transactions by platform *)
























End QueryProperties.

(** ** The reports on concrete databases *)

Module ReportRuns.

Import Schema.
Import Queries.

(** C3, on the sample database: 50.00 and 100.00 were paid, and the client
    without invoice is listed with zero. *)
Lemma total_paid_covers_active_clients_witness :
  NoDup (map Clients.client_id (clients sample))
  /\ NoDup (map Invoices.invoice_id (invoices sample))
  /\ sum_decimal TotalPayments.total_paid (data_of (total_payments sample)) = 15000%Z
  /\ exists r,
       In r (data_of (total_payments sample))
       /\ TotalPayments.client_id r = 3%Z
       /\ TotalPayments.client_code r = "CLI003"%string
       /\ TotalPayments.total_paid r = 0%Z
       /\ TotalPayments.total_transactions r = 0.
Proof.
  assert (Kc : NoDup (map Clients.client_id (clients sample))).
  { repeat constructor; cbn; intuition discriminate. }
  assert (Ki : NoDup (map Invoices.invoice_id (invoices sample))).
  { repeat constructor; cbn; intuition discriminate. }
  pose proof (QueryProperties.total_paid_covers_active_clients sample Kc Ki) as T.
  cbv zeta in T. destruct T as [Tsum Tzero].
  split; [exact Kc |]. split; [exact Ki |]. split; [rewrite Tsum; reflexivity |].
  apply (Tzero eva).
  - cbn. tauto.
  - reflexivity.
  - intros i t Hi _ Hc _. cbn in Hi. destruct Hi as [<- | [<- | []]]; discriminate Hc.
Defined.

(** C5 on the sample database. Ana is an active client and her invoice
    INV-1 is PARTIAL. The statement of the route names [i.invoice_date],
    which the invoices table does not have; it is rejected, the route
    answers 500, and the invoice is not reported. *)
Theorem outstanding_invoice_is_not_reported
  (reading : Database -> list PendingInvoices.row) :
  In invoice_of_ana (invoices sample)
  /\ Invoices.status invoice_of_ana = Some INV_PARTIAL
  /\ is_outstanding invoice_of_ana = true
  /\ In ana (clients sample)
  /\ Invoices.client_id invoice_of_ana = Clients.client_id ana
  /\ Clients.is_active ana = true
  /\ MySQL.unknown_column pending_invoices_names
     = Some (MySQL.mkReference "i" "invoice_date" "field list")
  /\ pending_invoices reading sample
     = Status500 "Error retrieving pending invoices"
                 "Unknown column 'i.invoice_date' in 'field list'"
  /\ data_of (pending_invoices reading sample) = [].
Proof.
  cbn. repeat split; auto.
Qed.

(** C6 on the database right after the schema file, which holds no client.
    The total-payments route answers with an empty list, zero counts and
    sums and a zero average. The two other routes answer 500, their
    statements being rejected; on an empty result set the summary code of
    each would give zero counts and sums. *)
Theorem empty_database_reports
  (pending : Database -> list PendingInvoices.row)
  (by_platform : option string -> Database -> list ByPlatform.row)
  (platform : option string) :
  total_payments initial
  = Json [] (TotalPayments.mkSummary 0 PrimFloat.zero PrimFloat.zero) 0
  /\ pending_invoices pending initial
     = Status500 "Error retrieving pending invoices"
                 "Unknown column 'i.invoice_date' in 'field list'"
  /\ transactions_by_platform by_platform platform initial
     = Status500 "Error retrieving transactions by platform"
                 "Unknown column 'i.invoice_date' in 'field list'"
  /\ pending_invoices_handler (inr [])
     = Json [] (PendingInvoices.mkSummary 0 PrimFloat.zero 0 0) 0
  /\ transactions_by_platform_handler (inr [])
     = Json [] (ByPlatform.Summary.mk 0 PrimFloat.zero 0 0 0 []) 0.
Proof.
  split; [reflexivity |]. split; [reflexivity |]. split.
  - unfold transactions_by_platform.
    rewrite QueryProperties.transactions_by_platform_rejected. reflexivity.
  - split; reflexivity.
Qed.

(** C10 on a result set of three transactions, two COMPLETED and one
    CANCELLED, on two platforms. *)
Example sample_by_platform :
  let listed (platform reference : string) (amount : decimal) (status : string) :=
    ByPlatform.mk 1 platform "DIGITAL_WALLET" 1 reference "2024-01-01 00:00:00" amount
      (Some "PAYMENT"%string) (Some status) None "CLI001" "Ana Diaz" None None None
      "INV-1" VNull 10000%Z (Some "PARTIAL"%string) in
  let summary :=
    transactions_by_platform_summary
      [listed "Bancolombia" "TXN-3" 700%Z "CANCELLED";
       listed "Nequi" "TXN-2" 10000%Z "COMPLETED";
       listed "Nequi" "TXN-1" 5000%Z "COMPLETED"]%string in
  (ByPlatform.Summary.total_transactions summary, ByPlatform.Summary.completed_transactions summary,
   ByPlatform.Summary.pending_transactions summary, ByPlatform.Summary.failed_transactions summary)
  = (3, 2, 0, 0)
  /\ map (fun e => (ByPlatform.Stats.platform_name e,
                    ByPlatform.Stats.total_transactions e,
                    ByPlatform.Stats.completed_transactions e))
         (ByPlatform.Summary.platform_statistics summary)
     = [("Bancolombia"%string, 1, 0); ("Nequi"%string, 2, 2)].
Proof. vm_compute. split; reflexivity. Qed.

End ReportRuns.

(** * The storage wrapper on its own: [backend/config/database.js] *)

Module Database.

Import DataLoader.

Local Open Scope string_scope.

(** A statement of [executeTransaction]'s argument: [{ sql, params }], the
    parameters being optional. *)
Record Query (Statement : Type) : Type := mkQuery {
  sql : Statement;
  params : option (list value)
}.

Arguments mkQuery {Statement} sql params.
Arguments sql {Statement} q.
Arguments params {Statement} q.

(** [query.params || []]. *)
Definition params_or_empty {Statement : Type} (query : Query Statement) : list value :=
  match params query with
  | Some ps => ps
  | None => []
  end.

Section WithConnection.

Context {Store Statement : Type}.

(** [pool.execute] for any family of statements. *)
Variable pool_execute : Statement -> list value -> Store -> Store * (string + value).

(** [pool.getConnection], and the operations of the connection it gives:
    each takes the storage to a new state and rejects ([inl]) or resolves
    ([inr]); [release] is synchronous. *)
Variable getConnection : Store -> Store * (string + unit).
Variable beginTransaction : Store -> Store * (string + unit).
Variable execute : Statement -> list value -> Store -> Store * (string + value).
Variable commit : Store -> Store * (string + unit).
Variable rollback : Store -> Store * (string + unit).
Variable release : Store -> Store.

Notation "x <- m ;; k" := (bind m (fun x => k))
  (at level 100, m at next level, right associativity).

(** [await operation]: a rejection is thrown. *)
Definition await {A : Type} (operation : Store -> Store * (string + A)) : M A :=
  fun st =>
    match operation st with
    | (st', inr a) => (st', Return a)
    | (st', inl message) => (st', Throw message)
    end.

(** [executeQuery], for any family of statements. *)
Definition executeQuery (query : Statement) (parameters : list value) : M value :=
  try_catch
    (rows <- await (pool_execute query parameters) ;;
     ret (VObj [("success", VBool true); ("data", rows)]))
    (fun message => ret (VObj [("success", VBool false); ("error", VStr message)])).

(** The [for (const query of queries)] loop, [results] being the array
    filled so far. *)
Fixpoint run_queries (queries : list (Query Statement)) (results : list value)
  : M (list value) :=
  match queries with
  | [] => ret results
  | query :: rest =>
      rows <- await (execute (sql query) (params_or_empty query)) ;;
      run_queries rest (results ++ [rows])%list
  end.

(** [try { ... } catch (error) { ... } finally { connection.release() }]:
    the connection is released on every path, also when the handler itself
    throws. *)
Definition try_catch_finally {A : Type} (body : M A) (handler : string -> M A)
  (finally : Store -> Store) : M A :=
  fun st =>
    let '(st', result) := try_catch body handler st in
    (finally st', result).

Definition executeTransaction (queries : list (Query Statement)) : M value :=
  _ <- await getConnection ;;
  try_catch_finally
    (_ <- await beginTransaction ;;
     results <- run_queries queries [] ;;
     _ <- await commit ;;
     ret (VObj [("success", VBool true); ("data", VArr results)]))
    (fun message =>
       _ <- await rollback ;;
       ret (VObj [("success", VBool false); ("error", VStr message)]))
    release.

(** *** Observations on a transaction *)

(** From [st], every statement of [queries] resolves; [rows] are the
    results in order and [st'] is the storage after the last one. *)
Inductive all_resolve : list (Query Statement) -> Store -> list value -> Store -> Prop :=
| all_resolve_nil (st : Store) : all_resolve [] st [] st
| all_resolve_cons (query : Query Statement) (rest : list (Query Statement))
    (st st1 st' : Store) (rows : value) (more : list value) :
    execute (sql query) (params_or_empty query) st = (st1, inr rows) ->
    all_resolve rest st1 more st' ->
    all_resolve (query :: rest) st (rows :: more) st'.

End WithConnection.

End Database.

Module DatabaseProperties.

Import DataLoader.
Import Database.

Local Open Scope string_scope.

Section WithConnection.

Context {Store Statement : Type}.
Variable getConnection : Store -> Store * (string + unit).
Variable beginTransaction : Store -> Store * (string + unit).
Variable execute : Statement -> list value -> Store -> Store * (string + value).
Variable commit : Store -> Store * (string + unit).
Variable rollback : Store -> Store * (string + unit).
Variable release : Store -> Store.

Local Abbreviation executeTransaction :=
  (executeTransaction getConnection beginTransaction execute commit rollback release).
Local Abbreviation run_queries := (run_queries execute).
Local Abbreviation all_resolve := (all_resolve execute).

Lemma run_queries_resolve (queries : list (Query Statement)) :
  forall (st st' : Store) (rows results : list value),
    all_resolve queries st rows st' ->
    run_queries queries results st = (st', Return (results ++ rows)%list).
Proof.
  induction queries as [| query rest IH]; intros st st' rows results H;
    inversion H as [| ? ? ? st1 ? r more Hexec Hrest]; subst;
    cbn [Database.run_queries].
  - unfold ret. now rewrite app_nil_r.
  - unfold bind, await. rewrite Hexec.
    rewrite (IH _ _ _ _ Hrest), <- app_assoc. reflexivity.
Qed.

Lemma run_queries_reject (before : list (Query Statement)) :
  forall (query : Query Statement) (after : list (Query Statement))
         (st st1 st2 : Store) (rows results : list value) (message : string),
    all_resolve before st rows st1 ->
    execute (sql query) (params_or_empty query) st1 = (st2, inl message) ->
    run_queries (before ++ query :: after) results st = (st2, Throw message).
Proof.
  induction before as [| q rest IH];
    intros query after st st1 st2 rows results message H E;
    inversion H as [| ? ? ? st0 ? r more Hexec Hrest]; subst;
    cbn [Database.run_queries app]; unfold bind, await.
  - rewrite E. reflexivity.
  - rewrite Hexec. apply (IH _ _ _ _ _ _ _ _ Hrest E).
Qed.

(** X1. When the connection is obtained and [beginTransaction], every
    statement and [commit] resolve, [executeTransaction] runs the statements
    in order, commits, releases the connection and returns
    [{ success: true, data }] with one result per statement, in order. *)
Theorem transaction_commits (queries : list (Query Statement))
  (st st1 st2 st3 st4 : Store) (rows : list value) :
  getConnection st = (st1, inr tt) ->
  beginTransaction st1 = (st2, inr tt) ->
  all_resolve queries st2 rows st3 ->
  commit st3 = (st4, inr tt) ->
  executeTransaction queries st
  = (release st4, Return (VObj [("success", VBool true); ("data", VArr rows)])).
Proof.
  intros Hconn Hbegin Hrun Hcommit.
  unfold Database.executeTransaction, try_catch_finally, try_catch, bind, await.
  rewrite Hconn, Hbegin.
  rewrite (run_queries_resolve queries st2 st3 rows [] Hrun). cbn [app].
  rewrite Hcommit. reflexivity.
Qed.

(** X2. When a statement is rejected, the statements after it are not
    executed and nothing is committed: [executeTransaction] rolls back and
    releases the connection. When the rollback resolves it returns
    [{ success: false, error }] with the message of the rejected statement;
    when the rollback is rejected too, that rejection is thrown to the
    caller. *)
Theorem transaction_rolls_back (before after : list (Query Statement))
  (query : Query Statement) (st st1 st2 st3 st4 : Store) (rows : list value)
  (message : string) :
  getConnection st = (st1, inr tt) ->
  beginTransaction st1 = (st2, inr tt) ->
  all_resolve before st2 rows st3 ->
  execute (sql query) (params_or_empty query) st3 = (st4, inl message) ->
  executeTransaction (before ++ query :: after) st
  = match rollback st4 with
    | (st5, inr _) =>
        (release st5, Return (VObj [("success", VBool false); ("error", VStr message)]))
    | (st5, inl failure) => (release st5, Throw failure)
    end.
Proof.
  intros Hconn Hbegin Hrun Hreject.
  unfold Database.executeTransaction, try_catch_finally, try_catch, bind, await.
  rewrite Hconn, Hbegin.
  rewrite (run_queries_reject before query after st2 st3 st4 rows [] message Hrun Hreject).
  destruct (rollback st4) as [st5 [failure | []]]; reflexivity.
Qed.

End WithConnection.

(** [executeQuery] of the loader is [executeQuery] here at the loader's
    statements. *)
Lemma executeQuery_agrees {Store : Type}
  (pool_execute : Sql -> list value -> Store -> Store * (string + value))
  (query : Sql) (parameters : list value) (st : Store) :
  Database.executeQuery pool_execute query parameters st
  = DataLoader.executeQuery pool_execute query parameters st.
Proof.
  unfold Database.executeQuery, DataLoader.executeQuery, try_catch, bind, await, ret.
  destruct (pool_execute query parameters st) as [st' [message | rows]]; reflexivity.
Qed.

(** A connection over the reference engine: the database, and, while a
    transaction is open, the tables a rollback returns to. The
    [AUTO_INCREMENT] counters are not rolled back. *)
Definition Session : Type := Schema.Database * option Schema.Database.

Definition getConnection (s : Session) : Session * (string + unit) := (s, inr tt).

Definition beginTransaction (s : Session) : Session * (string + unit) :=
  ((fst s, Some (fst s)), inr tt).

Definition execute (query : Sql) (params : list value) (s : Session)
  : Session * (string + value) :=
  let '(db, result) := MySQL.pool_execute query params (fst s) in
  ((db, snd s), result).

Definition commit (s : Session) : Session * (string + unit) := ((fst s, None), inr tt).

Definition restore (old db : Schema.Database) : Schema.Database :=
  Schema.mkDatabase
    (Schema.platforms old) (Schema.clients old) (Schema.invoices old)
    (Schema.transactions old)
    (Schema.next_platform_id db) (Schema.next_client_id db)
    (Schema.next_invoice_id db) (Schema.next_transaction_id db)
    (Schema.server db) (Schema.stamped db).

Definition rollback (s : Session) : Session * (string + unit) :=
  ((match snd s with
    | Some old => restore old (fst s)
    | None => fst s
    end, None), inr tt).

(** A connection that is lost when the statement is rejected. *)
Definition lost (s : Session) : Session * (string + unit) :=
  (s, inl "Can't add new command when connection is in closed state").

Definition release (s : Session) : Session := s.

Definition insert_platform_query (name : string) : Query Sql :=
  mkQuery INSERT_INTO_platforms (Some [VStr name; VStr "DIGITAL_WALLET"]).

(** X1, on two inserts of different platforms. *)
Lemma transaction_commits_witness :
  let run :=
    executeTransaction getConnection beginTransaction execute commit rollback release
      [insert_platform_query "PayNow"; insert_platform_query "PayLater"]
      (Schema.initial, None) in
  map Schema.Platforms.platform_name (Schema.platforms (fst (fst run)))
  = ["Nequi"; "Daviplata"; "Bancolombia"; "Banco de Bogotá"; "BBVA Colombia";
     "PayNow"; "PayLater"]
  /\ snd run
     = Return (VObj [("success", VBool true);
                     ("data", VArr [MySQL.ResultSetHeader 1 6;
                                    MySQL.ResultSetHeader 1 7])]).
Proof.
  cbv zeta.
  erewrite (transaction_commits getConnection beginTransaction execute commit rollback
              release
              [insert_platform_query "PayNow"; insert_platform_query "PayLater"]
              (Schema.initial, None) (Schema.initial, None)
              (Schema.initial, Some Schema.initial)
              _ _ [MySQL.ResultSetHeader 1 6; MySQL.ResultSetHeader 1 7]
              eq_refl eq_refl); cycle 1.
  - eapply all_resolve_cons; [reflexivity |].
    eapply all_resolve_cons; [reflexivity | apply all_resolve_nil].
  - reflexivity.
  - split; reflexivity.
Defined.

(** X2, on two inserts of the same platform followed by a third insert:
    the first insert is undone. With a connection that is lost at the
    rejection, the rollback is rejected too and its error is thrown. *)
Lemma transaction_rolls_back_witness :
  let queries :=
    ([insert_platform_query "PayNow"]
     ++ insert_platform_query "PayNow" :: [insert_platform_query "PayLater"])%list in
  let run :=
    executeTransaction getConnection beginTransaction execute commit rollback release
      queries (Schema.initial, None) in
  Schema.platforms (fst (fst run)) = Schema.platforms Schema.initial
  /\ snd run
     = Return (VObj [("success", VBool false);
                     ("error",
                      VStr "Duplicate entry 'PayNow' for key 'platforms.platform_name'")])
  /\ snd (executeTransaction getConnection beginTransaction execute commit lost release
            queries (Schema.initial, None))
     = Throw "Can't add new command when connection is in closed state".
Proof.
  cbv zeta.
  erewrite (transaction_rolls_back getConnection beginTransaction execute commit rollback
              release
              [insert_platform_query "PayNow"] [insert_platform_query "PayLater"]
              (insert_platform_query "PayNow")
              (Schema.initial, None) (Schema.initial, None)
              (Schema.initial, Some Schema.initial)
              _ _ [MySQL.ResultSetHeader 1 6]
              "Duplicate entry 'PayNow' for key 'platforms.platform_name'"
              eq_refl eq_refl); cycle 1.
  - eapply all_resolve_cons; [reflexivity | apply all_resolve_nil].
  - reflexivity.
  - split; [reflexivity |]. split; [reflexivity |]. reflexivity.
Defined.

End DatabaseProperties.

(** * The client model and its routes *)

(** ** [backend/models/Client.js] *)

Module ClientModel.

Import DataLoader.

Local Open Scope string_scope.

(** The statements of the model that do not depend on the clock's
    [created_at] order. *)
Inductive Sql : Type :=
| SELECT_FROM_clients_WHERE_client_id
| SELECT_FROM_clients_WHERE_client_code
| INSERT_INTO_clients
| UPDATE_clients_SET_WHERE_client_id
| UPDATE_clients_SET_is_active_FALSE_WHERE_client_id
| DELETE_FROM_clients_WHERE_client_id.

(** [req.body] as the routes read it: the eight properties, each any JSON
    value or [undefined] when absent. *)
Record ClientData : Type := mkClientData {
  client_code : value;
  first_name : value;
  last_name : value;
  email : value;
  phone : value;
  address : value;
  city : value;
  department : value
}.

(** An error of [validationResult(req)]: its [path] and its [msg]. *)
Record ValidationError : Type := mkValidationError {
  path : string;
  msg : string
}.

(** [checkValidation]: [{ success: true }], or [{ success: false, errors }]
    with one [{ field, message }] per error. *)
Definition checkValidation (errors : list ValidationError) : value :=
  match errors with
  | [] => VObj [("success", VBool true)]
  | _ =>
      VObj [("success", VBool false);
            ("errors",
             VArr (map (fun error => VObj [("field", VStr (path error));
                                           ("message", VStr (msg error))])
                       errors))]
  end.

Section WithStorage.

Context {Store : Type}.
Variable pool_execute : Sql -> list value -> Store -> Store * (string + value).

Definition getById (clientId : value) : M value :=
  Database.executeQuery pool_execute SELECT_FROM_clients_WHERE_client_id [clientId].

Definition getByCode (clientCode : value) : M value :=
  Database.executeQuery pool_execute SELECT_FROM_clients_WHERE_client_code [clientCode].

Definition create (clientData : ClientData) : M value :=
  Database.executeQuery pool_execute INSERT_INTO_clients
    [client_code clientData; first_name clientData; last_name clientData;
     email clientData; phone clientData; address clientData;
     city clientData; department clientData].

Definition update (clientId : value) (clientData : ClientData) : M value :=
  Database.executeQuery pool_execute UPDATE_clients_SET_WHERE_client_id
    [client_code clientData; first_name clientData; last_name clientData;
     email clientData; phone clientData; address clientData;
     city clientData; department clientData; clientId].

Definition delete (clientId : value) : M value :=
  Database.executeQuery pool_execute UPDATE_clients_SET_is_active_FALSE_WHERE_client_id
    [clientId].

Definition hardDelete (clientId : value) : M value :=
  Database.executeQuery pool_execute DELETE_FROM_clients_WHERE_client_id [clientId].

End WithStorage.

End ClientModel.

(** ** [backend/routes/clients.js] *)

Module ClientsRouter.

Import DataLoader.
Import ClientModel.

Local Open Scope string_scope.

(** What a route answers: the status and the JSON body. *)
Record Response : Type := mkResponse {
  status : nat;
  json : value
}.

Definition failure (code : nat) (message : string) : Response :=
  mkResponse code (VObj [("success", VBool false); ("message", VStr message)]).

Definition failure_with (code : nat) (message : string) (error : value) : Response :=
  mkResponse code
    (VObj [("success", VBool false); ("message", VStr message); ("error", error)]).

Definition success_with (code : nat) (message : string) (data : value) : Response :=
  mkResponse code
    (VObj [("success", VBool true); ("message", VStr message); ("data", data)]).

(** [isNaN(clientId) || clientId <= 0]. *)
Definition invalid_id (clientId : float) : bool :=
  PrimFloat.is_nan clientId || PrimFloat.leb clientId PrimFloat.zero.

(** [v === n] for a number [n]: a value of another type is never equal. *)
Definition strict_equal_number (v : value) (n : float) : bool :=
  match v with
  | VNum x => PrimFloat.eqb x n
  | _ => false
  end.

Section WithStorage.

Context {Store : Type}.
Variable pool_execute : Sql -> list value -> Store -> Store * (string + value).

(** The language's [parseInt] on strings, and its number conversion of
    non-primitive values. *)
Variable parseInt : string -> float.
Variable ToNumberOther : value -> float.

Notation "x <- m ;; k" := (bind m (fun x => k))
  (at level 100, m at next level, right associativity).

(** [!result.success]. *)
Definition not_success (result : value) : @M Store bool :=
  success <- member result "success" ;;
  ret (negb (ToBoolean success)).

(** [result.data.length]. *)
Definition data_length (result : value) : @M Store value :=
  data <- member result "data" ;;
  member data "length".

(** [result.data[0]]. *)
Definition first_row (result : value) : @M Store value :=
  data <- member result "data" ;;
  index data 0.

(** [result.success && result.data.length > 0]. *)
Definition found (result : value) : @M Store bool :=
  success <- member result "success" ;;
  if ToBoolean success then
    length <- data_length result ;;
    ret (gt ToNumberOther length PrimFloat.zero)
  else ret false.

(** [!result.success || result.data.length === 0]. *)
Definition missing (result : value) : @M Store bool :=
  failed <- not_success result ;;
  if failed then ret true
  else
    length <- data_length result ;;
    ret (strict_equal_number length PrimFloat.zero).

(** The [try { ... } catch (error) { ... }] every handler is wrapped in. *)
Definition handler (body : @M Store Response) (st : Store) : Store * Response :=
  match body st with
  | (st', Return response) => (st', response)
  | (st', Throw message) =>
      (st', failure_with 500 "Internal server error" (VStr message))
  end.

(** [GET /api/clients/:id]. *)
Definition get_client (id : string) : Store -> Store * Response :=
  handler
    (let clientId := parseInt id in
     if invalid_id clientId then ret (failure 400 "Invalid client ID")
     else
       result <- getById pool_execute (VNum clientId) ;;
       failed <- not_success result ;;
       if failed then
         error <- member result "error" ;;
         ret (failure_with 500 "Error retrieving client" error)
       else
         length <- data_length result ;;
         if strict_equal_number length PrimFloat.zero
         then ret (failure 404 "Client not found")
         else
           client <- first_row result ;;
           ret (mkResponse 200 (VObj [("success", VBool true); ("data", client)]))).

(** [POST /api/clients], after the validation middleware: [errors] is what
    [validationResult(req)] holds and [body] is [req.body]. *)
Definition post_client (errors : list ValidationError) (body : ClientData)
  : Store -> Store * Response :=
  handler
    (let validation := checkValidation errors in
     failed <- not_success validation ;;
     if failed then
       validation_errors <- member validation "errors" ;;
       ret (mkResponse 400
              (VObj [("success", VBool false); ("message", VStr "Validation failed");
                     ("errors", validation_errors)]))
     else
       existingClient <- getByCode pool_execute (client_code body) ;;
       exists_already <- found existingClient ;;
       if exists_already then ret (failure 409 "Client code already exists")
       else
         result <- create pool_execute body ;;
         failed <- not_success result ;;
         if failed then
           error <- member result "error" ;;
           ret (failure_with 500 "Error creating client" error)
         else
           data <- member result "data" ;;
           insertId <- member data "insertId" ;;
           createdClient <- getById pool_execute insertId ;;
           client <- first_row createdClient ;;
           ret (success_with 201 "Client created successfully" client)).

(** [PUT /api/clients/:id], after the validation middleware. *)
Definition put_client (id : string) (errors : list ValidationError) (body : ClientData)
  : Store -> Store * Response :=
  handler
    (let clientId := parseInt id in
     if invalid_id clientId then ret (failure 400 "Invalid client ID")
     else
       let validation := checkValidation errors in
       failed <- not_success validation ;;
       if failed then
         validation_errors <- member validation "errors" ;;
         ret (mkResponse 400
                (VObj [("success", VBool false); ("message", VStr "Validation failed");
                       ("errors", validation_errors)]))
       else
         existingClient <- getById pool_execute (VNum clientId) ;;
         absent <- missing existingClient ;;
         if absent then ret (failure 404 "Client not found")
         else
           clientWithCode <- getByCode pool_execute (client_code body) ;;
           code_found <- found clientWithCode ;;
           conflict <-
             (if code_found then
                existingClientWithCode <- first_row clientWithCode ;;
                other_id <- member existingClientWithCode "client_id" ;;
                ret (negb (strict_equal_number other_id clientId))
              else ret false) ;;
           if conflict then ret (failure 409 "Client code already exists")
           else
             result <- update pool_execute (VNum clientId) body ;;
             failed <- not_success result ;;
             if failed then
               error <- member result "error" ;;
               ret (failure_with 500 "Error updating client" error)
             else
               updatedClient <- getById pool_execute (VNum clientId) ;;
               client <- first_row updatedClient ;;
               ret (success_with 200 "Client updated successfully" client)).

(** The two [DELETE] routes differ in the model function and in the
    message. *)
Definition delete_with (remove : value -> @M Store value) (message : string) (id : string)
  : Store -> Store * Response :=
  handler
    (let clientId := parseInt id in
     if invalid_id clientId then ret (failure 400 "Invalid client ID")
     else
       existingClient <- getById pool_execute (VNum clientId) ;;
       absent <- missing existingClient ;;
       if absent then ret (failure 404 "Client not found")
       else
         result <- remove (VNum clientId) ;;
         failed <- not_success result ;;
         if failed then
           error <- member result "error" ;;
           ret (failure_with 500 "Error deleting client" error)
         else
           ret (mkResponse 200
                  (VObj [("success", VBool true); ("message", VStr message)]))).

(** [DELETE /api/clients/:id]. *)
Definition delete_client : string -> Store -> Store * Response :=
  delete_with (delete pool_execute) "Client deleted successfully".

(** [DELETE /api/clients/:id/hard]. *)
Definition hard_delete_client : string -> Store -> Store * Response :=
  delete_with (hardDelete pool_execute) "Client permanently deleted".

End WithStorage.

End ClientsRouter.

(** ** The storage engine on the statements of the client model

    The routes bind a JavaScript number to [client_id] and the body's
    [client_code] to the code; a number selects the rows whose key it
    denotes exactly. [INSERT INTO clients] is the statement of the loader.
    [DELETE FROM clients] cascades to the invoices of the deleted clients
    and to the transactions of those invoices, as the schema's
    [ON DELETE CASCADE] says. *)

Module ClientEngine.

Import Schema.
Import ClientModel.

Local Open Scope string_scope.

Definition nullable (column : option string) : value :=
  match column with
  | Some s => VStr s
  | None => VNull
  end.

(** A [TIMESTAMP] as the driver returns it: [null], or a [Date] object,
    written as an object that holds its time value in an internal slot and
    has no property of its own. *)
Definition timestamp (t : option datetime) : value :=
  match t with
  | Some d => VObj [("[[DateValue]]", VStr d)]
  | None => VNull
  end.

(** A row of [clients] as the driver returns it, with the twelve columns
    of the two SELECT statements; [is_active] is a [TINYINT(1)]. *)
Definition client_object (c : Clients.row) : value :=
  VObj [("client_id", VNum (num_of_Z (Clients.client_id c)));
        ("client_code", VStr (Clients.client_code c));
        ("first_name", VStr (Clients.first_name c));
        ("last_name", VStr (Clients.last_name c));
        ("email", nullable (Clients.email c));
        ("phone", nullable (Clients.phone c));
        ("address", nullable (Clients.address c));
        ("city", nullable (Clients.city c));
        ("department", nullable (Clients.department c));
        ("is_active", VNum (if Clients.is_active c then PrimFloat.one else PrimFloat.zero));
        ("created_at", timestamp (Clients.created_at c));
        ("updated_at", timestamp (Clients.updated_at c))].

(** The key a bound number denotes, when it is an integer. *)
Definition key_of (v : value) : option Z :=
  match v with
  | VNum n =>
      match MySQL.round_scaled 1 n with
      | Some z => if PrimFloat.eqb (num_of_Z z) n then Some z else None
      | None => None
      end
  | _ => None
  end.

Definition has_id (id : Z) (c : Clients.row) : bool :=
  (Clients.client_id c =? id)%Z.

Definition select_by_id (db : Database) (params : list value) : string + value :=
  match params with
  | [p_id] =>
      match key_of p_id with
      | Some id => inr (VArr (map client_object (filter (has_id id) (clients db))))
      | None => inr (VArr [])
      end
  | _ => inl MySQL.arity_error
  end.

Definition select_by_code (db : Database) (params : list value) : string + value :=
  match params with
  | [VStr code] =>
      inr (VArr (map client_object
                     (filter (MySQL.has_client_code (server db) code) (clients db))))
  | [_] => inr (VArr [])
  | _ => inl MySQL.arity_error
  end.

Definition code_taken (db : Database) (code : string) (except : Z) : bool :=
  existsb (fun c => MySQL.has_client_code (server db) code c && negb (has_id except c))
          (clients db).

Definition email_taken (db : Database) (e : option string) (except : Z) : bool :=
  existsb (fun c => collates_nullable (server db) (Clients.email c) e
                    && negb (has_id except c))
          (clients db).

(** [UPDATE clients SET ..., updated_at = CURRENT_TIMESTAMP WHERE client_id = ?]. *)
Definition update_by_id (db : Database) (params : list value)
  : string + (Database * value) :=
  let sv := server db in
  match params with
  | [p_code; p_first; p_last; p_email; p_phone; p_address; p_city; p_department; p_id] =>
      MySQL.and_then (MySQL.varchar_not_null sv 20 "client_code" p_code) (fun code =>
      MySQL.and_then (MySQL.varchar_not_null sv 100 "first_name" p_first) (fun first =>
      MySQL.and_then (MySQL.varchar_not_null sv 100 "last_name" p_last) (fun last =>
      MySQL.and_then (MySQL.varchar sv 150 "email" p_email) (fun e =>
      MySQL.and_then (MySQL.varchar sv 20 "phone" p_phone) (fun ph =>
      MySQL.and_then (MySQL.text sv "address" p_address) (fun ad =>
      MySQL.and_then (MySQL.varchar sv 100 "city" p_city) (fun ci =>
      MySQL.and_then (MySQL.varchar sv 100 "department" p_department) (fun de =>
      match key_of p_id with
      | None => inr (db, MySQL.ResultSetHeader 0 0)
      | Some id =>
          let hit := existsb (has_id id) (clients db) in
          MySQL.and_then
            (MySQL.check (negb (hit && code_taken db code id))
               (MySQL.duplicate_error code "clients.client_code")) (fun _ =>
          MySQL.and_then
            (MySQL.check (negb (hit && email_taken db e id))
               (MySQL.duplicate_error (match e with Some s => s | None => "" end)
                                      "clients.email")) (fun _ =>
          inr (stamp (MySQL.with_clients db
                        (map (fun c =>
                                if has_id id c
                                then Clients.mk (Clients.client_id c) code first last
                                       e ph ad ci de (Clients.is_active c)
                                       (Clients.created_at c) (Some (current_timestamp db))
                                else c) (clients db))
                        (next_client_id db)),
               MySQL.ResultSetHeader (List.length (filter (has_id id) (clients db))) 0)))
      end))))))))
  | _ => inl MySQL.arity_error
  end.

(** [SET is_active = FALSE, updated_at = CURRENT_TIMESTAMP], at the
    time [t]. *)
Definition deactivate (t : datetime) (c : Clients.row) : Clients.row :=
  Clients.mk (Clients.client_id c) (Clients.client_code c)
    (Clients.first_name c) (Clients.last_name c)
    (Clients.email c) (Clients.phone c) (Clients.address c)
    (Clients.city c) (Clients.department c) false
    (Clients.created_at c) (Some t).

Definition soft_delete (db : Database) (params : list value)
  : string + (Database * value) :=
  match params with
  | [p_id] =>
      match key_of p_id with
      | None => inr (db, MySQL.ResultSetHeader 0 0)
      | Some id =>
          inr (stamp (MySQL.with_clients db
                        (map (fun c =>
                                if has_id id c then deactivate (current_timestamp db) c
                                else c)
                             (clients db))
                        (next_client_id db)),
               MySQL.ResultSetHeader (List.length (filter (has_id id) (clients db))) 0)
      end
  | _ => inl MySQL.arity_error
  end.

(** The rows that go with a client: its invoices, and the transactions of
    its invoices. *)
Definition owned_invoice (id : Z) (i : Invoices.row) : bool :=
  (Invoices.client_id i =? id)%Z.

Definition owned_transaction (db : Database) (id : Z) (t : Transactions.row) : bool :=
  existsb (fun i => owned_invoice id i
                    && (Invoices.invoice_id i =? Transactions.invoice_id t)%Z)
          (invoices db).

Definition hard_delete (db : Database) (params : list value)
  : string + (Database * value) :=
  match params with
  | [p_id] =>
      match key_of p_id with
      | None => inr (db, MySQL.ResultSetHeader 0 0)
      | Some id =>
          if existsb (has_id id) (clients db)
          then
            inr (mkDatabase
                   (platforms db)
                   (filter (fun c => negb (has_id id c)) (clients db))
                   (filter (fun i => negb (owned_invoice id i)) (invoices db))
                   (filter (fun t => negb (owned_transaction db id t)) (transactions db))
                   (next_platform_id db) (next_client_id db)
                   (next_invoice_id db) (next_transaction_id db)
                   (server db) (stamped db),
                 MySQL.ResultSetHeader (List.length (filter (has_id id) (clients db))) 0)
          else inr (db, MySQL.ResultSetHeader 0 0)
      end
  | _ => inl MySQL.arity_error
  end.

Definition pool_execute (query : Sql) (params : list value) (db : Database)
  : Database * (string + value) :=
  if existsb MySQL.is_undefined params
  then (db, inl "Bind parameters must not contain undefined. To pass SQL NULL specify JS null")
  else
    match query with
    | SELECT_FROM_clients_WHERE_client_id => (db, select_by_id db params)
    | SELECT_FROM_clients_WHERE_client_code => (db, select_by_code db params)
    | INSERT_INTO_clients => MySQL.run db (MySQL.insert_client db params)
    | UPDATE_clients_SET_WHERE_client_id => MySQL.run db (update_by_id db params)
    | UPDATE_clients_SET_is_active_FALSE_WHERE_client_id =>
        MySQL.run db (soft_delete db params)
    | DELETE_FROM_clients_WHERE_client_id => MySQL.run db (hard_delete db params)
    end.

End ClientEngine.

(** The routes over the reference engine, with [parseInt] on plain decimal
    text: optional leading blanks, an optional sign, digits; the hexadecimal
    prefix is outside this instance. *)
Module ClientRoutes.

Definition parseInt (s : string) : float :=
  let s1 := Builtins.skip_blanks s in
  let '(negative, s2) :=
    match s1 with
    | String "-"%char rest => (true, rest)
    | String "+"%char rest => (false, rest)
    | _ => (false, s1)
    end in
  let '(digits, count, _) := Builtins.read_digits s2 0%Z 0 in
  if (count =? 0)%nat then PrimFloat.nan
  else if negative then PrimFloat.opp (num_of_Z digits) else num_of_Z digits.

Definition get_client :=
  ClientsRouter.get_client ClientEngine.pool_execute parseInt.

Definition post_client :=
  ClientsRouter.post_client ClientEngine.pool_execute Builtins.ToNumberOther.

Definition put_client :=
  ClientsRouter.put_client ClientEngine.pool_execute parseInt Builtins.ToNumberOther.

Definition delete_client :=
  ClientsRouter.delete_client ClientEngine.pool_execute parseInt.

Definition hard_delete_client :=
  ClientsRouter.hard_delete_client ClientEngine.pool_execute parseInt.

End ClientRoutes.

(** * Properties of the client routes *)

Module ClientProperties.

Import Schema.
Import DataLoader.
Import ClientModel.
Import ClientsRouter.
Import ClientEngine.

Local Open Scope string_scope.

(** ** What the statements are about *)

(** The text of [:id] parses to the positive key [id]. *)
Definition names (parseInt : string -> float) (text : string) (id : Z) : Prop :=
  invalid_id (parseInt text) = false /\ key_of (VNum (parseInt text)) = Some id.

(** The key is a JavaScript number that denotes it, as every [INT] is. *)
Definition exact_key (id : Z) : Prop :=
  key_of (VNum (num_of_Z id)) = Some id.

(** [client_id] is the primary key and [client_code] is unique under the
    collation. *)
Definition code_weight (db : Database) (c : Clients.row) : string :=
  weight (server db) (Clients.client_code c).

Definition client_keys (db : Database) : Prop :=
  NoDup (map Clients.client_id (clients db))
  /\ NoDup (map (code_weight db) (clients db))
  /\ forall c, In c (clients db) -> exact_key (Clients.client_id c).

(** The foreign keys hold: every invoice has its client, every transaction
    its invoice. *)
Definition references (db : Database) : Prop :=
  (forall i, In i (invoices db) ->
     exists c, In c (clients db) /\ Clients.client_id c = Invoices.client_id i)
  /\ (forall t, In t (transactions db) ->
        exists i, In i (invoices db)
                  /\ Invoices.invoice_id i = Transactions.invoice_id t).

Definition found_response (c : Clients.row) : Response :=
  mkResponse 200 (VObj [("success", VBool true); ("data", client_object c)]).

(** A body whose three required properties are strings and whose optional
    ones are strings or [null]; and a body whose eight properties are
    strings. *)
Definition body_of (code first last : string) (e ph ad ci de : option string)
  : ClientData :=
  mkClientData (VStr code) (VStr first) (VStr last)
    (nullable e) (nullable ph) (nullable ad) (nullable ci) (nullable de).

Definition text_body (code first last e ph ad ci de : string) : ClientData :=
  body_of code first last (Some e) (Some ph) (Some ad) (Some ci) (Some de).



(** No client holds the e-mail address, under the collation. *)
Definition email_free (db : Database) (e : option string) : Prop :=
  existsb (fun c => collates_nullable (server db) (Clients.email c) e) (clients db)
  = false.

(** The eight values fit their columns: [VARCHAR(20)] for the code and the
    phone, [VARCHAR(100)] for the names, the city and the department,
    [VARCHAR(150)] for the e-mail address, [TEXT] for the address. *)
Definition within (width : nat) (sv : Server) (o : option string) : Prop :=
  match o with
  | Some s => char_length sv s <= width
  | None => True
  end.

Definition fits (sv : Server) (code first last : string) (e ph ad ci de : option string)
  : Prop :=
  char_length sv code <= 20 /\ char_length sv first <= 100
  /\ char_length sv last <= 100
  /\ within 150 sv e /\ within 20 sv ph
  /\ match ad with
     | Some s => (Z.of_nat (byte_length sv s) <= 65535)%Z
     | None => True
     end
  /\ within 100 sv ci /\ within 100 sv de.

(** The clients after an [UPDATE ... WHERE client_id = id]. *)
Definition replace_client (id : Z) (f : Clients.row -> Clients.row) (db : Database)
  : Database :=
  MySQL.with_clients db
    (map (fun c => if has_id id c then f c else c) (clients db))
    (next_client_id db).

(** ** Floating-point keys *)




(** ** Lookup by a unique column *)

Lemma filter_unique {A K : Type} (key : A -> K) (p : A -> bool) (k : K) (l : list A) :
  NoDup (map key l) ->
  (forall a, p a = true <-> key a = k) ->
  filter p l = match find p l with
               | Some a => [a]
               | None => []
               end.
Proof.
  intros N Hp. induction l as [| a rest IH]; [reflexivity |].
  inversion N as [| ? ? Hnotin N']; subst. cbn [filter find].
  destruct (p a) eqn:E.
  - f_equal. destruct (filter p rest) as [| b more] eqn:F; [reflexivity | exfalso].
    assert (Hb : In b (filter p rest)) by (rewrite F; now left).
    apply filter_In in Hb. destruct Hb as [Hin Hpb].
    apply Hp in E. apply Hp in Hpb. apply Hnotin. rewrite E, <- Hpb.
    apply in_map, Hin.
  - apply IH, N'.
Qed.

Lemma has_id_spec (id : Z) (c : Clients.row) :
  has_id id c = true <-> Clients.client_id c = id.
Proof. unfold has_id. apply Z.eqb_eq. Qed.


Lemma by_id_unique (db : Database) (id : Z) :
  client_keys db ->
  filter (has_id id) (clients db)
  = match find (has_id id) (clients db) with
    | Some c => [c]
    | None => []
    end.
Proof.
  intros (N & _ & _). apply (filter_unique Clients.client_id _ id _ N).
  apply has_id_spec.
Qed.


(** ** The routes on any storage *)

Section AnyStorage.

Context {Store : Type}.
Variable execute : Sql -> list value -> Store -> Store * (string + value).
Variable parseInt : string -> float.
Variable ToNumberOther : value -> float.

Definition validation_failed (errors : list ValidationError) : Response :=
  mkResponse 400
    (VObj [("success", VBool false); ("message", VStr "Validation failed");
           ("errors",
            VArr (map (fun error => VObj [("field", VStr (path error));
                                          ("message", VStr (msg error))])
                      errors))]).

(** X4. An [:id] that does not parse to a positive number is answered 400
    by the four routes that take one, and no statement reaches the
    storage. *)
Theorem invalid_key_is_refused (text : string) (errors : list ValidationError)
  (body : ClientData) (st : Store) :
  invalid_id (parseInt text) = true ->
  ClientsRouter.get_client execute parseInt text st
  = (st, failure 400 "Invalid client ID")
  /\ ClientsRouter.put_client execute parseInt ToNumberOther text errors body st
     = (st, failure 400 "Invalid client ID")
  /\ ClientsRouter.delete_client execute parseInt text st
     = (st, failure 400 "Invalid client ID")
  /\ ClientsRouter.hard_delete_client execute parseInt text st
     = (st, failure 400 "Invalid client ID").
Proof.
  intros H.
  unfold ClientsRouter.get_client, ClientsRouter.put_client, ClientsRouter.delete_client,
    ClientsRouter.hard_delete_client, delete_with, handler.
  rewrite H. repeat split.
Qed.

(** X5. When the validation middleware has recorded errors, [POST] and
    [PUT] answer 400 with one [{ field, message }] per error, in order, and
    no statement reaches the storage. *)
Theorem failed_validation_is_refused (text : string) (errors : list ValidationError)
  (body : ClientData) (st : Store) :
  errors <> [] ->
  invalid_id (parseInt text) = false ->
  ClientsRouter.post_client execute ToNumberOther errors body st
  = (st, validation_failed errors)
  /\ ClientsRouter.put_client execute parseInt ToNumberOther text errors body st
     = (st, validation_failed errors).
Proof.
  intros He Hid.
  unfold ClientsRouter.post_client, ClientsRouter.put_client, handler.
  rewrite Hid. destruct errors as [| e rest]; [congruence |]. split; reflexivity.
Qed.

(** What the handlers read off a result object. *)
Lemma not_success_rows (rows : value) (st : Store) :
  not_success (VObj [("success", VBool true); ("data", rows)]) st = (st, Return false).
Proof. reflexivity. Qed.




Lemma missing_one (row : value) (st : Store) :
  missing (VObj [("success", VBool true); ("data", VArr [row])]) st
  = (st, Return false).
Proof. reflexivity. Qed.


End AnyStorage.

(** ** The model functions on the engine *)

Definition rows_result (rows : list value) : value :=
  VObj [("success", VBool true); ("data", VArr rows)].

Lemma getById_engine (n : float) (id : Z) (db : Database) :
  key_of (VNum n) = Some id ->
  getById pool_execute (VNum n) db
  = (db, Return (rows_result (map client_object (filter (has_id id) (clients db))))).
Proof.
  intros H. unfold getById, Database.executeQuery, try_catch, bind, Database.await, ret,
    pool_execute, select_by_id.
  cbn [existsb MySQL.is_undefined orb]. rewrite H. reflexivity.
Qed.


Definition header_result (affectedRows : nat) (insertId : Z) : value :=
  VObj [("success", VBool true); ("data", MySQL.ResultSetHeader affectedRows insertId)].




Lemma varchar_fits (sv : Server) (width : nat) (column s : string) :
  char_length sv s <= width ->
  MySQL.varchar_not_null sv width column (VStr s) = inr s.
Proof. intros H. cbn. apply Nat.leb_le in H. now rewrite H. Qed.

Lemma varchar_nullable (sv : Server) (width : nat) (column : string) (o : option string) :
  within width sv o -> MySQL.varchar sv width column (nullable o) = inr o.
Proof.
  destruct o as [s |]; cbn; [| reflexivity].
  intros H. apply Nat.leb_le in H. now rewrite H.
Qed.

Lemma text_nullable (sv : Server) (column : string) (o : option string) :
  match o with
  | Some s => (Z.of_nat (byte_length sv s) <= 65535)%Z
  | None => True
  end ->
  MySQL.text sv column (nullable o) = inr o.
Proof.
  destruct o as [s |]; cbn [nullable MySQL.text]; [| reflexivity].
  intros H. apply Z.leb_le in H. now rewrite H.
Qed.



Lemma existsb_find_some {A : Type} (p : A -> bool) (l : list A) (a : A) :
  find p l = Some a -> existsb p l = true.
Proof.
  intros H. apply existsb_exists. exists a. apply find_some in H. exact H.
Qed.




Lemma delete_engine (db : Database) (n : float) (id : Z) :
  key_of (VNum n) = Some id ->
  delete pool_execute (VNum n) db
  = (stamp (replace_client id (deactivate (current_timestamp db)) db),
     Return (header_result (List.length (filter (has_id id) (clients db))) 0)).
Proof.
  intros Hkey.
  unfold delete, Database.executeQuery, try_catch, bind, Database.await, ret,
    pool_execute, soft_delete.
  cbn [existsb MySQL.is_undefined orb]. rewrite Hkey. reflexivity.
Qed.

(** The database after [DELETE FROM clients WHERE client_id = id], for an
    existing client. *)
Definition without_client (id : Z) (db : Database) : Database :=
  mkDatabase
    (platforms db)
    (filter (fun c => negb (has_id id c)) (clients db))
    (filter (fun i => negb (owned_invoice id i)) (invoices db))
    (filter (fun t => negb (owned_transaction db id t)) (transactions db))
    (next_platform_id db) (next_client_id db)
    (next_invoice_id db) (next_transaction_id db)
    (server db) (stamped db).

Lemma hardDelete_engine (db : Database) (n : float) (id : Z) (c : Clients.row) :
  key_of (VNum n) = Some id ->
  find (has_id id) (clients db) = Some c ->
  hardDelete pool_execute (VNum n) db
  = (without_client id db,
     Return (header_result (List.length (filter (has_id id) (clients db))) 0)).
Proof.
  intros Hkey Hfind.
  unfold hardDelete, Database.executeQuery, try_catch, bind, Database.await, ret,
    pool_execute, hard_delete.
  cbn [existsb MySQL.is_undefined orb]. rewrite Hkey.
  rewrite (existsb_find_some _ _ _ Hfind). reflexivity.
Qed.

Lemma not_success_header {Store : Type} (affectedRows : nat) (insertId : Z) (st : Store) :
  not_success (header_result affectedRows insertId) st = (st, Return false).
Proof. reflexivity. Qed.







Lemma bind_eq {Store A B : Type} (m : @M Store A) (k : A -> @M Store B)
  (st st' : Store) (a : A) :
  m st = (st', Return a) -> bind m k st = k a st'.
Proof. intros H. unfold bind. rewrite H. reflexivity. Qed.

Ltac step tac := erewrite bind_eq; [| tac]; cbv beta iota.

Section Routes.

Variable parseInt : string -> float.
Variable ToNumberOther : value -> float.

Local Abbreviation get_client := (get_client pool_execute parseInt).
Local Abbreviation post_client := (post_client pool_execute ToNumberOther).
Local Abbreviation put_client := (put_client pool_execute parseInt ToNumberOther).
Local Abbreviation delete_client := (delete_client pool_execute parseInt).
Local Abbreviation hard_delete_client := (hard_delete_client pool_execute parseInt).
Local Abbreviation names := (names parseInt).

(** X3. [GET /api/clients/:id] for a positive key: 404 when no client has
    the key, otherwise 200 with the client that has it; the database is not
    changed. *)
Theorem get_client_by_key (db : Database) (text : string) (id : Z) :
  client_keys db -> names text id ->
  get_client text db
  = (db, match find (has_id id) (clients db) with
         | Some c => found_response c
         | None => failure 404 "Client not found"
         end).
Proof.
  intros K [Hvalid Hkey]. unfold ClientsRouter.get_client, handler.
  rewrite Hvalid. unfold bind at 1. rewrite (getById_engine _ id db Hkey).
  rewrite (by_id_unique db id K).
  destruct (find (has_id id) (clients db)) as [c |]; reflexivity.
Qed.










Definition deleted_response : Response :=
  mkResponse 200
    (VObj [("success", VBool true); ("message", VStr "Client deleted successfully")]).

Definition hard_deleted_response : Response :=
  mkResponse 200
    (VObj [("success", VBool true); ("message", VStr "Client permanently deleted")]).

Lemma delete_client_eq (db : Database) (text : string) (id : Z) (rows : list value) :
  names text id ->
  map client_object (filter (has_id id) (clients db)) = rows ->
  List.length rows = 1 ->
  delete_client text db
  = (stamp (replace_client id (deactivate (current_timestamp db)) db), deleted_response).
Proof.
  intros [Hvalid Hkey] Hrows Hone.
  destruct rows as [| row [| ? ?]]; try discriminate.
  unfold ClientsRouter.delete_client, delete_with, handler. rewrite Hvalid.
  step ltac:(apply (getById_engine _ id); exact Hkey). rewrite Hrows.
  step ltac:(apply missing_one).
  step ltac:(apply (delete_engine db _ id); exact Hkey).
  step ltac:(apply not_success_header). reflexivity.
Qed.



(** X12. After [DELETE /api/clients/:id] on an existing client, the
    total-payments report is the report of before without the rows of that
    client. *)
Theorem deleted_client_leaves_report (db : Database) (text : string) (id : Z)
  (c : Clients.row) :
  client_keys db -> names text id ->
  find (has_id id) (clients db) = Some c ->
  let db' := fst (delete_client text db) in
  forall r, In r (Queries.data_of (Queries.total_payments db'))
            <-> In r (Queries.data_of (Queries.total_payments db))
                /\ Queries.TotalPayments.client_id r <> id.
Proof.
  intros K Hnames Hfind db' r.
  assert (E : db' = stamp (replace_client id (deactivate (current_timestamp db)) db)).
  { unfold db'.
    rewrite (delete_client_eq db text id [client_object c] Hnames); [reflexivity | |
      reflexivity].
    now rewrite (by_id_unique db id K), Hfind. }
  rewrite E.
  unfold Queries.total_payments. rewrite !QueryProperties.total_payments_resolves.
  unfold Queries.total_payments_handler, Queries.data_of, Queries.total_payments_query.
  rewrite !QueryProperties.In_order_by, !in_map_iff. split.
  - intros (c' & <- & Hc'). apply filter_In in Hc'. destruct Hc' as [Hin Hact].
    unfold replace_client in Hin. cbn [stamp MySQL.with_clients clients] in Hin.
    apply in_map_iff in Hin. destruct Hin as (x & Hx & Hinx).
    destruct (has_id id x) eqn:Hh; subst c'; [discriminate Hact |].
    split.
    + exists x. split; [reflexivity | apply filter_In; split; assumption].
    + cbn [Queries.total_payments_group Queries.TotalPayments.client_id].
      intros Heq. apply has_id_spec in Heq. congruence.
  - intros ((x & <- & Hx) & Hne). apply filter_In in Hx. destruct Hx as [Hin Hact].
    cbn [Queries.total_payments_group Queries.TotalPayments.client_id] in Hne.
    exists x. split; [reflexivity |]. apply filter_In. split; [| exact Hact].
    unfold replace_client. cbn [stamp MySQL.with_clients clients]. apply in_map_iff.
    exists x. split; [| exact Hin].
    destruct (has_id id x) eqn:Hh; [| reflexivity].
    apply has_id_spec in Hh. congruence.
Qed.

Lemma not_owned (db : Database) (id : Z) (t : Transactions.row) (i : Invoices.row) :
  owned_transaction db id t = false ->
  In i (invoices db) ->
  Invoices.invoice_id i = Transactions.invoice_id t ->
  owned_invoice id i = false.
Proof.
  intros Ho Hin Heq. destruct (owned_invoice id i) eqn:E; [exfalso | reflexivity].
  assert (Ht : owned_transaction db id t = true).
  { apply existsb_exists. exists i. split; [exact Hin |].
    rewrite E, Heq, Z.eqb_refl. reflexivity. }
  congruence.
Qed.

(** X13. [DELETE /api/clients/:id/hard] on an existing client answers 200
    and removes the client, its invoices and the transactions of its
    invoices, and only those; when the foreign keys held before, they hold
    after. *)
Theorem hard_delete_cascades (db : Database) (text : string) (id : Z) (c : Clients.row) :
  client_keys db -> references db -> names text id ->
  find (has_id id) (clients db) = Some c ->
  let db' := without_client id db in
  hard_delete_client text db = (db', hard_deleted_response)
  /\ (forall x, In x (clients db') <-> In x (clients db) /\ Clients.client_id x <> id)
  /\ (forall i, In i (invoices db') <-> In i (invoices db) /\ Invoices.client_id i <> id)
  /\ (forall t, In t (transactions db')
                <-> In t (transactions db)
                    /\ forall i, In i (invoices db) ->
                                 Invoices.invoice_id i = Transactions.invoice_id t ->
                                 Invoices.client_id i <> id)
  /\ platforms db' = platforms db
  /\ references db'.
Proof.
  intros K [Rinv Rtx] [Hvalid Hkey] Hfind db'.
  assert (Hc : forall x, In x (clients db')
                         <-> In x (clients db) /\ Clients.client_id x <> id).
  { intros x. unfold db', without_client. cbn [clients]. rewrite filter_In.
    unfold has_id. rewrite negb_true_iff, Z.eqb_neq. reflexivity. }
  assert (Hi : forall i, In i (invoices db')
                         <-> In i (invoices db) /\ Invoices.client_id i <> id).
  { intros i. unfold db', without_client. cbn [invoices]. rewrite filter_In.
    unfold owned_invoice. rewrite negb_true_iff, Z.eqb_neq. reflexivity. }
  assert (Ht : forall t, In t (transactions db')
                         <-> In t (transactions db)
                             /\ forall i, In i (invoices db) ->
                                  Invoices.invoice_id i = Transactions.invoice_id t ->
                                  Invoices.client_id i <> id).
  { intros t. unfold db', without_client. cbn [transactions]. rewrite filter_In.
    rewrite negb_true_iff. split; intros [Hin H]; (split; [exact Hin |]).
    - intros i Hini Heq. pose proof (not_owned db id t i H Hini Heq) as Hn.
      unfold owned_invoice in Hn. now apply Z.eqb_neq.
    - destruct (owned_transaction db id t) eqn:E; [exfalso | reflexivity].
      apply existsb_exists in E. destruct E as (i & Hini & Hb).
      apply andb_prop in Hb. destruct Hb as [Ho Heq].
      unfold owned_invoice in Ho. apply Z.eqb_eq in Ho, Heq.
      exact (H i Hini Heq Ho). }
  split.
  { unfold ClientsRouter.hard_delete_client, delete_with, handler. rewrite Hvalid.
    step ltac:(apply (getById_engine _ id); exact Hkey).
    rewrite (by_id_unique db id K), Hfind. cbn [map].
    step ltac:(apply missing_one).
    step ltac:(apply (hardDelete_engine db _ id c Hkey Hfind)).
    step ltac:(apply not_success_header). reflexivity. }
  split; [exact Hc |]. split; [exact Hi |]. split; [exact Ht |].
  split; [reflexivity |]. split.
  - intros i Hini. apply Hi in Hini. destruct Hini as [Hini Hne].
    destruct (Rinv i Hini) as (x & Hx & Heq). exists x. split; [| exact Heq].
    apply Hc. split; [exact Hx | congruence].
  - intros t Hint. apply Ht in Hint. destruct Hint as [Hint Hfree].
    destruct (Rtx t Hint) as (i & Hini & Heq). exists i. split; [| exact Heq].
    apply Hi. split; [exact Hini | exact (Hfree i Hini Heq)].
Qed.

End Routes.

End ClientProperties.

(** ** The client routes on the sample database *)

Module ClientRuns.

Import Schema.
Import Queries.
Import ClientModel.
Import ClientsRouter.
Import ClientEngine.
Import ClientProperties.

Local Open Scope string_scope.

Lemma sample_keys : client_keys sample.
Proof.
  split; [| split].
  - repeat constructor; cbn; intuition discriminate.
  - repeat constructor; cbn; intuition discriminate.
  - intros c Hc. cbn in Hc. destruct Hc as [<- | [<- | [<- | []]]]; reflexivity.
Qed.

Lemma sample_references : references sample.
Proof.
  split.
  - intros i Hi. cbn in Hi. destruct Hi as [<- | [<- | []]].
    + exists ana. split; [cbn; tauto | reflexivity].
    + exists luis. split; [cbn; tauto | reflexivity].
  - intros t Ht. cbn in Ht. destruct Ht as [<- | [<- | [<- | []]]].
    + exists invoice_of_ana. split; [cbn; tauto | reflexivity].
    + exists invoice_of_luis. split; [cbn; tauto | reflexivity].
    + exists invoice_of_ana. split; [cbn; tauto | reflexivity].
Qed.

Lemma names_1 : names ClientRoutes.parseInt "1" 1.
Proof. split; reflexivity. Qed.



(** The three errors the middleware records for an empty code. *)
Definition empty_code_errors : list ValidationError :=
  [ mkValidationError "client_code" "Client code is required";
    mkValidationError "client_code" "Client code must be between 3 and 20 characters";
    mkValidationError "client_code"
      "Client code must contain only uppercase letters and numbers" ].

(** A body that passes the middleware, under a given code and first
    name. *)
Definition body_for (code first : string) : ClientData :=
  text_body code first "Diaz" "nu@example.com" "3001234567" "Calle 1 # 2-3"
    "Bogota" "Cundinamarca".


(** X3: the first client of the sample is found under [1]. *)
Lemma get_client_by_key_witness :
  ClientRoutes.get_client "1" sample = (sample, found_response ana).
Proof.
  exact (get_client_by_key ClientRoutes.parseInt sample "1" 1 sample_keys names_1).
Defined.

(** X4: [abc] is no key. *)
Lemma invalid_key_is_refused_witness :
  ClientRoutes.get_client "abc" sample = (sample, failure 400 "Invalid client ID").
Proof.
  exact (proj1 (invalid_key_is_refused pool_execute ClientRoutes.parseInt
                  Builtins.ToNumberOther "abc" [] (body_for "NEW001" "Nu")
                  sample eq_refl)).
Defined.

(** X5: the errors recorded for an empty code. *)
Lemma failed_validation_is_refused_witness :
  ClientRoutes.post_client empty_code_errors (body_for "" "Ana") sample
  = (sample, validation_failed empty_code_errors).
Proof.
  refine (proj1 (failed_validation_is_refused pool_execute ClientRoutes.parseInt
                   Builtins.ToNumberOther "1" empty_code_errors
                   (body_for "" "Ana") sample _ eq_refl)).
  discriminate.
Defined.








(** X12: after the deletion the report lists the two other clients. *)
Lemma deleted_client_leaves_report_witness :
  map TotalPayments.client_id
      (data_of (total_payments (fst (ClientRoutes.delete_client "1" sample))))
  = [2%Z; 3%Z]
  /\ forall r, In r (data_of (total_payments (fst (ClientRoutes.delete_client "1" sample))))
               -> TotalPayments.client_id r <> 1%Z.
Proof.
  split; [reflexivity |].
  intros r Hr.
  apply (deleted_client_leaves_report ClientRoutes.parseInt sample "1" 1 ana
           sample_keys names_1 eq_refl r).
  exact Hr.
Defined.

(** X13: the first client goes with its invoice and its two
    transactions. *)
Lemma hard_delete_cascades_witness :
  map Invoices.invoice_number
      (invoices (fst (ClientRoutes.hard_delete_client "1" sample))) = ["INV-2"]
  /\ map Transactions.transaction_reference
         (transactions (fst (ClientRoutes.hard_delete_client "1" sample))) = ["TXN-2"]
  /\ references (without_client 1 sample).
Proof.
  destruct (hard_delete_cascades ClientRoutes.parseInt sample "1" 1 ana
              sample_keys sample_references names_1 eq_refl)
    as (Hdelete & _ & _ & _ & _ & Hrefs).
  unfold ClientRoutes.hard_delete_client. rewrite Hdelete.
  split; [reflexivity |]. split; [reflexivity | exact Hrefs].
Defined.

End ClientRuns.

(** * More on the reporting routes *)

(** ** [GET /api/queries/platforms] *)

Module PlatformsRoute.

Import Schema.
Import Queries.

Local Open Scope string_scope.

Record row : Type := mk {
  platform_id : Z;
  platform_name : string;
  platform_type : string;
  is_active : bool;
  transaction_count : nat;
  total_amount : decimal
}.

(** The two correlated subqueries of a platform: all its transactions, and
    the amounts of the COMPLETED ones. *)
Definition on_platform (p : Platforms.row) (t : Transactions.row) : bool :=
  (Transactions.platform_id t =? Platforms.platform_id p)%Z.

Definition platform_row (db : Database) (p : Platforms.row) : row :=
  mk (Platforms.platform_id p) (Platforms.platform_name p) (Platforms.platform_type p)
     (Platforms.is_active p)
     (List.length (filter (on_platform p) (transactions db)))
     (sum_decimal Transactions.amount
        (filter (fun t => on_platform p t && is_completed t) (transactions db))).

(** [ORDER BY platform_name], in the order [collate] of the column's
    collation. *)
Definition by_name (collate : string -> string -> bool) (a b : row) : bool :=
  collate (platform_name a) (platform_name b).

Definition platforms_query (collate : string -> string -> bool) (db : Database)
  : list row :=
  order_by (by_name collate)
           (map (platform_row db) (filter Platforms.is_active (platforms db))).

(** The transaction is on a platform that exists and is active. *)
Definition platform_active (db : Database) (t : Transactions.row) : bool :=
  existsb (fun p => (Platforms.platform_id p =? Transactions.platform_id t)%Z
                    && Platforms.is_active p)
          (platforms db).

End PlatformsRoute.

From Stdlib Require Import Sorted.

Module ReportExtras.

Import Schema.
Import Queries.
Import QueryProperties.

Local Open Scope string_scope.

(** ** Order of the reports *)

Section Ordering.

Context {A : Type}.
Variable le : A -> A -> bool.
Hypothesis le_total : forall a b, le a b = false -> le b a = true.

Lemma insert_sorted (x : A) (l : list A) :
  Sorted (fun a b => le a b = true) l ->
  Sorted (fun a b => le a b = true) (insert le x l).
Proof.
  induction l as [| y rest IH]; intros S; cbn [insert].
  - repeat constructor.
  - destruct (le x y) eqn:E.
    + constructor; [exact S | constructor; exact E].
    + inversion S as [| ? ? Srest Hhd]; subst. constructor; [apply IH, Srest |].
      destruct rest as [| z more]; cbn [insert].
      * constructor. apply le_total, E.
      * destruct (le x z); constructor; [apply le_total, E |].
        inversion Hhd; subst. assumption.
Qed.

Lemma order_by_sorted (l : list A) :
  Sorted (fun a b => le a b = true) (order_by le l).
Proof.
  unfold order_by. induction l as [| x rest IH]; cbn [fold_right].
  - constructor.
  - apply insert_sorted, IH.
Qed.

End Ordering.

(** X14. The total-payments report lists each active client once, by
    descending [total_paid], and [total_clients] is the number of active
    clients. *)
Theorem total_payments_lists_active_clients (db : Database) :
  let report := data_of (total_payments db) in
  Permutation report
    (map (total_payments_group db) (filter Clients.is_active (clients db)))
  /\ Sorted (fun a b => (TotalPayments.total_paid b <= TotalPayments.total_paid a)%Z)
            report
  /\ TotalPayments.total_clients (total_payments_summary report)
     = List.length (filter Clients.is_active (clients db)).
Proof.
  intros report. unfold report, total_payments. rewrite total_payments_resolves.
  unfold total_payments_handler, data_of, total_payments_query.
  split; [apply order_by_perm |]. split.
  - assert (S := order_by_sorted by_total_paid_desc
                   (fun a b H => proj2 (Z.leb_le _ _)
                                   (Z.lt_le_incl _ _ (proj1 (Z.leb_gt _ _) H)))
                   (map (total_payments_group db)
                        (filter Clients.is_active (clients db)))).
    unfold by_total_paid_desc in S.
    eapply Sorted_ind with (P := fun l => Sorted _ l); [constructor | | exact S].
    intros a l _ IH Hhd. constructor; [exact IH |].
    destruct Hhd; constructor. now apply Z.leb_le.
  - cbn [total_payments_summary TotalPayments.total_clients].
    rewrite (Permutation_length (order_by_perm _ _)), length_map. reflexivity.
Qed.

(** ** The two reports over [invoice_date] *)

(** X15. Whatever the database holds, and for every platform filter,
    [GET /api/queries/pending-invoices] and
    [GET /api/queries/transactions-by-platform] answer 500 with the
    server's refusal of the column [i.invoice_date], which their statements
    name and the invoices table does not have; no row is listed. *)
Theorem reports_over_invoice_date_are_refused
  (pending : Database -> list PendingInvoices.row)
  (by_platform : option string -> Database -> list ByPlatform.row)
  (platform : option string) (db : Database) :
  pending_invoices pending db
  = Status500 "Error retrieving pending invoices"
              "Unknown column 'i.invoice_date' in 'field list'"
  /\ transactions_by_platform by_platform platform db
     = Status500 "Error retrieving transactions by platform"
                 "Unknown column 'i.invoice_date' in 'field list'"
  /\ existsb (String.eqb "invoice_date") (MySQL.columns "invoices") = false.
Proof.
  unfold pending_invoices, transactions_by_platform.
  rewrite pending_invoices_rejected, transactions_by_platform_rejected.
  repeat split.
Qed.

(** ** The platforms list *)

Import PlatformsRoute.

Lemma platform_weight (db : Database) (w : Transactions.row -> Z) :
  NoDup (map Platforms.platform_id (platforms db)) ->
  sum_decimal (fun p => sum_decimal w (filter (on_platform p) (transactions db)))
              (filter Platforms.is_active (platforms db))
  = sum_decimal w (filter (platform_active db) (transactions db)).
Proof.
  intros N.
  set (F := fun (p : Platforms.row) (t : Transactions.row) =>
              if (Platforms.platform_id p =? Transactions.platform_id t)%Z
              then if Platforms.is_active p then w t else 0%Z
              else 0%Z).
  rewrite sum_decimal_filter.
  rewrite (sum_decimal_ext _ (fun p => sum_decimal (F p) (transactions db))).
  2:{ intros p _. destruct (Platforms.is_active p) eqn:Hp.
      - rewrite sum_decimal_filter. apply sum_decimal_ext. intros t _.
        unfold F, on_platform. rewrite Hp, Z.eqb_sym. reflexivity.
      - symmetry. rewrite <- (sum_decimal_zero (transactions db)).
        apply sum_decimal_ext. intros t _. unfold F. rewrite Hp.
        now destruct (Platforms.platform_id p =? Transactions.platform_id t)%Z. }
  rewrite sum_decimal_swap, sum_decimal_filter.
  apply sum_decimal_ext. intros t _. unfold F.
  etransitivity;
    [exact (sum_decimal_unique Platforms.platform_id (Transactions.platform_id t)
              (fun p => if Platforms.is_active p then w t else 0%Z) (platforms db) N) |].
  unfold platform_active.
  rewrite (existsb_unique Platforms.platform_id (Transactions.platform_id t)
             Platforms.is_active (platforms db) N).
  now destruct (find _ (platforms db)).
Qed.

Lemma length_as_sum {A : Type} (l : list A) :
  Z.of_nat (List.length l) = sum_decimal (fun _ => 1%Z) l.
Proof.
  induction l as [| a rest IH]; [reflexivity |].
  rewrite sum_decimal_cons, <- IH. cbn [List.length]. lia.
Qed.

(** X17. [GET /api/queries/platforms] lists the active platforms only. With
    [platform_id] a primary key, the [transaction_count] of the listed
    platforms add up to the number of transactions on an active platform,
    whatever their status and their client, and the [total_amount] add up to
    the amounts of the COMPLETED ones among them. *)
Theorem platforms_list_totals (collate : string -> string -> bool) (db : Database) :
  NoDup (map Platforms.platform_id (platforms db)) ->
  let report := platforms_query collate db in
  (forall r, In r report -> PlatformsRoute.is_active r = true)
  /\ sum_decimal (fun r => Z.of_nat (transaction_count r)) report
     = Z.of_nat (List.length (filter (platform_active db) (transactions db)))
  /\ sum_decimal PlatformsRoute.total_amount report
     = sum_decimal Transactions.amount
         (filter (fun t => is_completed t && platform_active db t) (transactions db)).
Proof.
  intros N report. unfold report, platforms_query. split; [| split].
  - intros r Hr. apply In_order_by, in_map_iff in Hr. destruct Hr as (p & <- & Hp).
    apply filter_In in Hp. apply Hp.
  - rewrite (sum_decimal_perm _ _ _ (order_by_perm _ _)), sum_decimal_map.
    cbn [platform_row transaction_count].
    rewrite length_as_sum, <- (platform_weight db (fun _ => 1%Z) N).
    apply sum_decimal_ext. intros p _. apply length_as_sum.
  - rewrite (sum_decimal_perm _ _ _ (order_by_perm _ _)), sum_decimal_map.
    cbn [platform_row PlatformsRoute.total_amount].
    rewrite (sum_decimal_ext _
               (fun p => sum_decimal
                           (fun t => if is_completed t then Transactions.amount t else 0%Z)
                           (filter (on_platform p) (transactions db)))).
    2:{ intros p _. rewrite !sum_decimal_filter. apply sum_decimal_ext. intros t _.
        now destruct (on_platform p t), (is_completed t). }
    rewrite (platform_weight db _ N), !sum_decimal_filter.
    apply sum_decimal_ext. intros t _.
    now destruct (is_completed t), (platform_active db t).
Qed.

End ReportExtras.

Module ReportExtraRuns.

Import Schema.
Import Queries.

Local Open Scope string_scope.

Lemma platforms_list_totals_witness :
  let report := PlatformsRoute.platforms_query String.leb sample in
  (forall r, In r report -> PlatformsRoute.is_active r = true)
  /\ sum_decimal (fun r => Z.of_nat (PlatformsRoute.transaction_count r)) report
     = Z.of_nat (List.length (filter (PlatformsRoute.platform_active sample)
                                     (transactions sample)))
  /\ sum_decimal PlatformsRoute.total_amount report
     = sum_decimal Transactions.amount
         (filter (fun t => is_completed t && PlatformsRoute.platform_active sample t)
                 (transactions sample)).
Proof.
  apply (ReportExtras.platforms_list_totals String.leb sample).
  cbn. repeat constructor; cbn; intuition lia.
Defined.

End ReportExtraRuns.

(** * What a run of the data loader leaves behind *)

Module LoaderExtras.

Import Js.
Import DataLoader.
Import Schema.
Import LoaderProperties.

Local Open Scope string_scope.

Section WithStorage.

Context {Store : Type}.
Variable pool_execute : Sql -> list value -> Store -> Store * (string + value).
Variable parseFloat : string -> float.
Variable ToNumberOther : value -> float.

Local Abbreviation validateRow := (validateRow parseFloat).
Local Abbreviation process_row := (process_row pool_execute parseFloat ToNumberOther).
Local Abbreviation process_rows := (process_rows pool_execute parseFloat ToNumberOther).
Local Abbreviation processCSVData := (processCSVData pool_execute parseFloat ToNumberOther).
Local Abbreviation send := (send pool_execute).

(** The number of rows, from index [i] on, for which the validator returns
    no message. *)
Fixpoint accepted_from (i : nat) (data : list Row) : nat :=
  match data with
  | [] => 0
  | row :: rest =>
      (match validateRow row (i + 2) with [] => 1 | _ :: _ => 0 end)
      + accepted_from (S i) rest
  end.

(** The statements of the rows that pass validation, in order. *)
Fixpoint statements_from (i : nat) (data : list Row) : list (Sql * list value) :=
  match data with
  | [] => []
  | row :: rest =>
      (match validateRow row (i + 2) with
       | [] => client_statements row
               ++ invoice_statements parseFloat row VUndefined
               ++ transaction_statements parseFloat row VUndefined VUndefined
       | _ :: _ => []
       end) ++ statements_from (S i) rest
  end.

Definition counted (n : nat) (before after : Stats) : Prop :=
  clients_created after = clients_created before + n
  /\ invoices_created after = invoices_created before + n
  /\ transactions_created after = transactions_created before + n
  /\ clients_updated after = clients_updated before
  /\ invoices_updated after = invoices_updated before
  /\ transactions_updated after = transactions_updated before.

Lemma process_rows_counted (data : list Row) :
  forall (i : nat) (stats : Stats) (st : Store),
    counted (accepted_from i data) stats (snd (process_rows i data stats st)).
Proof.
  induction data as [| row rest IH]; intros i stats st;
    cbn [DataLoader.process_rows accepted_from].
  - unfold counted; cbn; lia.
  - destruct (validateRow row (i + 2)) as [| e es] eqn:V.
    + rewrite (process_row_valid pool_execute parseFloat ToNumberOther i row stats st V).
      specialize (IH (S i)
                    (count_transaction (count_invoice (count_client stats true) true) true)
                    (DataLoader.send pool_execute
                       (client_statements row
                        ++ invoice_statements parseFloat row VUndefined
                        ++ transaction_statements parseFloat row VUndefined VUndefined)
                       st)).
      unfold counted in *; cbn in IH |- *. lia.
    + rewrite (process_row_defective pool_execute parseFloat ToNumberOther i row stats st)
        by (rewrite V; discriminate).
      specialize (IH (S i) (push_errors stats (validateRow row (i + 2))) st).
      unfold counted in *; cbn in IH |- *. lia.
Qed.

Lemma process_rows_sends (data : list Row) :
  forall (i : nat) (stats : Stats) (st : Store),
    fst (process_rows i data stats st) = send (statements_from i data) st.
Proof.
  induction data as [| row rest IH]; intros i stats st;
    cbn [DataLoader.process_rows statements_from]; [reflexivity |].
  unfold DataLoader.send. rewrite fold_left_app.
  destruct (validateRow row (i + 2)) as [| e es] eqn:V.
  - rewrite (process_row_valid pool_execute parseFloat ToNumberOther i row stats st V).
    apply IH.
  - rewrite (process_row_defective pool_execute parseFloat ToNumberOther i row stats st)
      by (rewrite V; discriminate).
    apply IH.
Qed.

(** X18. Whatever the storage holds and answers, a run reports no update:
    the three updated counters are 0, and each of the three created counters
    is the number of rows that passed validation. *)
Theorem every_accepted_row_counts_as_created (data : list Row) (st : Store) :
  let stats := snd (processCSVData data st) in
  let accepted := accepted_from 0 data in
  (clients_created stats, invoices_created stats, transactions_created stats)
  = (accepted, accepted, accepted)
  /\ (clients_updated stats, invoices_updated stats, transactions_updated stats)
     = (0, 0, 0).
Proof.
  intros stats accepted.
  destruct (process_rows_counted data 0 stats0 st) as (A & B & C & D & E & F).
  unfold stats, accepted, DataLoader.processCSVData.
  rewrite A, B, C, D, E, F. split; reflexivity.
Qed.

End WithStorage.

(** ** On the reference engine *)

(** The second database is the first with clients and platforms added at
    the end of their tables, and the same invoices and transactions. *)
Definition only_adds (db db' : Database) : Prop :=
  invoices db' = invoices db
  /\ transactions db' = transactions db
  /\ (exists added, clients db' = (clients db ++ added)%list)
  /\ (exists added, platforms db' = (platforms db ++ added)%list).

Lemma only_adds_refl (db : Database) : only_adds db db.
Proof.
  repeat split; exists []; now rewrite app_nil_r.
Qed.

Lemma only_adds_trans (a b c : Database) :
  only_adds a b -> only_adds b c -> only_adds a c.
Proof.
  intros (I1 & T1 & [c1 C1] & [p1 P1]) (I2 & T2 & [c2 C2] & [p2 P2]).
  split; [congruence |]. split; [congruence |]. split.
  - exists (c1 ++ c2)%list. now rewrite C2, C1, app_assoc.
  - exists (p1 ++ p2)%list. now rewrite P2, P1, app_assoc.
Qed.

Lemma insert_client_adds (db db' : Database) (params : list value) (v : value) :
  MySQL.insert_client db params = inr (db', v) -> only_adds db db'.
Proof.
  unfold MySQL.insert_client, MySQL.and_then.
  repeat match goal with
         | |- context [match ?x with _ => _ end] => destruct x; try discriminate
         end.
  intros H. injection H as <- _.
  repeat split; cbn; [eexists; reflexivity | exists []; now rewrite app_nil_r].
Qed.

Lemma insert_platform_adds (db db' : Database) (params : list value) (v : value) :
  MySQL.insert_platform db params = inr (db', v) -> only_adds db db'.
Proof.
  unfold MySQL.insert_platform, MySQL.and_then.
  repeat match goal with
         | |- context [match ?x with _ => _ end] => destruct x; try discriminate
         end.
  intros H. injection H as <- _.
  repeat split; cbn; [exists []; now rewrite app_nil_r | eexists; reflexivity].
Qed.

Lemma run_adds (db : Database) (r : string + (Database * value)) :
  (forall db' v, r = inr (db', v) -> only_adds db db') ->
  only_adds db (fst (MySQL.run db r)).
Proof.
  intros H. destruct r as [message | [db' v]]; cbn.
  - apply only_adds_refl.
  - apply (H db' v eq_refl).
Qed.

(** A statement of the loader that reads, or writes a client or a
    platform, or carries an [undefined] parameter. *)
Definition harmless (statement : Sql * list value) : bool :=
  existsb MySQL.is_undefined (snd statement)
  || match fst statement with
     | SELECT_client_id_FROM_clients_WHERE_client_code
     | SELECT_invoice_id_FROM_invoices_WHERE_invoice_number
     | SELECT_platform_id_FROM_platforms_WHERE_platform_name
     | SELECT_transaction_id_FROM_transactions_WHERE_transaction_reference
     | INSERT_INTO_clients
     | INSERT_INTO_platforms => true
     | _ => false
     end.

Lemma harmless_adds (statement : Sql * list value) (db : Database) :
  harmless statement = true ->
  only_adds db (after MySQL.pool_execute (fst statement) (snd statement) db).
Proof.
  destruct statement as [query params]. unfold harmless, after, MySQL.pool_execute.
  cbn [fst snd]. destruct (existsb MySQL.is_undefined params).
  - intros _. apply only_adds_refl.
  - cbn [orb]. destruct query; try discriminate; intros _;
      try apply only_adds_refl.
    + apply run_adds. intros db' v. apply insert_client_adds.
    + apply run_adds. intros db' v. apply insert_platform_adds.
Qed.

Lemma send_adds (statements : list (Sql * list value)) :
  forallb harmless statements = true ->
  forall db, only_adds db (send MySQL.pool_execute statements db).
Proof.
  induction statements as [| s rest IH]; intros H db.
  - apply only_adds_refl.
  - cbn [forallb] in H. apply andb_true_iff in H. destruct H as [Hs Hrest].
    unfold send. cbn [fold_left].
    eapply only_adds_trans; [apply (harmless_adds s db Hs) | apply (IH Hrest)].
Qed.

Lemma statements_harmless (parseFloat : string -> float) (data : list Row) :
  forall i, forallb harmless (statements_from parseFloat i data) = true.
Proof.
  induction data as [| row rest IH]; intros i; cbn [statements_from]; [reflexivity |].
  rewrite forallb_app, IH, andb_true_r.
  destruct (validateRow parseFloat row (i + 2)); [| reflexivity].
  unfold client_statements, invoice_statements, transaction_statements, harmless.
  cbn [app forallb fst snd existsb MySQL.is_undefined orb andb].
  rewrite !orb_true_r. reflexivity.
Qed.

(** X19. On the reference engine, whatever the file and the database, a
    run stores no invoice and no transaction and changes no stored row: the
    invoices and the transactions are as before, and the clients and the
    platforms are those of before, followed by the inserted ones. *)
Theorem run_stores_no_invoice (parseFloat : string -> float)
  (ToNumberOther : value -> float) (data : list Row) (db : Database) :
  let db' := fst (processCSVData MySQL.pool_execute parseFloat ToNumberOther data db) in
  invoices db' = invoices db
  /\ transactions db' = transactions db
  /\ (exists added, clients db' = (clients db ++ added)%list)
  /\ (exists added, platforms db' = (platforms db ++ added)%list).
Proof.
  intros db'. unfold db', processCSVData. rewrite process_rows_sends.
  apply send_adds, statements_harmless.
Qed.

(** ** The client of an accepted row *)

(** [field || null] as the engine stores it: an absent or empty cell is
    [NULL]. *)
Definition stored (field : option string) : option string :=
  if truthy field then field else None.

Lemma or_null_defined (field : option string) :
  MySQL.is_undefined (or_null field) = false.
Proof.
  unfold or_null. destruct field as [s |]; cbn; [destruct (String.eqb s "") |];
    reflexivity.
Qed.

Lemma or_null_stored (field : option string) :
  or_null field = ClientEngine.nullable (stored field).
Proof.
  unfold or_null, stored. destruct field as [s |]; cbn;
    [destruct (String.eqb s "") |]; reflexivity.
Qed.

Definition keeps_clients (db db' : Database) : Prop :=
  clients db' = clients db /\ next_client_id db' = next_client_id db.

Lemma insert_platform_keeps_clients (db db' : Database) (params : list value)
  (v : value) :
  MySQL.insert_platform db params = inr (db', v) -> keeps_clients db db'.
Proof.
  unfold MySQL.insert_platform, MySQL.and_then.
  repeat match goal with
         | |- context [match ?x with _ => _ end] => destruct x; try discriminate
         end.
  intros H. injection H as <- _. split; reflexivity.
Qed.

(** A statement that reads, or writes a platform, or carries an
    [undefined] parameter. *)
Definition client_free (statement : Sql * list value) : bool :=
  existsb MySQL.is_undefined (snd statement)
  || match fst statement with
     | SELECT_client_id_FROM_clients_WHERE_client_code
     | SELECT_invoice_id_FROM_invoices_WHERE_invoice_number
     | SELECT_platform_id_FROM_platforms_WHERE_platform_name
     | SELECT_transaction_id_FROM_transactions_WHERE_transaction_reference
     | INSERT_INTO_platforms => true
     | _ => false
     end.

Lemma client_free_keeps (statement : Sql * list value) (db : Database) :
  client_free statement = true ->
  keeps_clients db (after MySQL.pool_execute (fst statement) (snd statement) db).
Proof.
  destruct statement as [query params]. unfold client_free, after, MySQL.pool_execute.
  cbn [fst snd]. destruct (existsb MySQL.is_undefined params).
  - intros _. split; reflexivity.
  - cbn [orb]. destruct query; try discriminate; intros _;
      try (split; reflexivity).
    destruct (MySQL.insert_platform db params) as [m | [db' v]] eqn:E;
      cbn [MySQL.run fst];
      [split; reflexivity | apply (insert_platform_keeps_clients _ _ _ _ E)].
Qed.

Lemma send_keeps_clients (statements : list (Sql * list value)) :
  forallb client_free statements = true ->
  forall db, keeps_clients db (send MySQL.pool_execute statements db).
Proof.
  induction statements as [| s rest IH]; intros H db.
  - split; reflexivity.
  - cbn [forallb] in H. apply andb_true_iff in H. destruct H as [Hs Hrest].
    unfold send. cbn [fold_left].
    destruct (client_free_keeps s db Hs) as [C N].
    destruct (IH Hrest (after MySQL.pool_execute (fst s) (snd s) db)) as [C' N'].
    unfold send in C', N'. split; congruence.
Qed.

(** The statements of an invoice and of a transaction, bound to
    [undefined] keys, leave the clients as they are. *)
Lemma rest_keeps_clients (parseFloat : string -> float) (row : Row) (db : Database) :
  keeps_clients db
    (send MySQL.pool_execute
       (invoice_statements parseFloat row VUndefined
        ++ transaction_statements parseFloat row VUndefined VUndefined) db).
Proof.
  apply send_keeps_clients.
  unfold invoice_statements, transaction_statements, client_free.
  cbn [app forallb fst snd existsb MySQL.is_undefined orb andb].
  rewrite !orb_true_r. reflexivity.
Qed.

(** X20. On the reference engine, a one-row file whose row passes
    validation, with a client code and an e-mail address no stored client
    has under the collation and with client cells that fit their columns,
    adds that client, active, under the next key and stamped with the
    clock, with the row's name and with [NULL] for each empty contact cell;
    the invoice and the transaction of the row are not stored. *)
Theorem accepted_row_stores_its_client (parseFloat : string -> float)
  (ToNumberOther : value -> float) (row : Row) (db : Database)
  (code first last : string) :
  validateRow parseFloat row 2 = [] ->
  client_code row = Some code -> first_name row = Some first ->
  last_name row = Some last ->
  existsb (MySQL.has_client_code (server db) code) (clients db) = false ->
  ClientProperties.email_free db (stored (email row)) ->
  ClientProperties.fits (server db) code first last
    (stored (email row)) (stored (phone row)) (stored (address row))
    (stored (city row)) (stored (department row)) ->
  let db' := fst (processCSVData MySQL.pool_execute parseFloat ToNumberOther [row] db) in
  clients db'
  = (clients db
     ++ [Clients.mk (next_client_id db) code first last
           (stored (email row)) (stored (phone row)) (stored (address row))
           (stored (city row)) (stored (department row)) true
           (Some (current_timestamp db)) (Some (current_timestamp db))])%list
  /\ invoices db' = invoices db
  /\ transactions db' = transactions db.
Proof.
  intros V Hcode Hfirst Hlast Hnew Hmail (F1 & F2 & F3 & F4 & F5 & F6 & F7 & F8) db'.
  assert (E : db' = send MySQL.pool_execute
                      (client_statements row
                       ++ invoice_statements parseFloat row VUndefined
                       ++ transaction_statements parseFloat row VUndefined VUndefined)
                      db).
  { unfold db', processCSVData. rewrite process_rows_sends.
    cbn [statements_from Nat.add]. rewrite V, app_nil_r. reflexivity. }
  split.
  - rewrite E. unfold send. rewrite fold_left_app.
    fold (send MySQL.pool_execute (client_statements row) db).
    match goal with
    | |- clients (fold_left _ ?l ?d) = _ =>
        change (fold_left _ l d) with (send MySQL.pool_execute l d)
    end.
    rewrite (proj1 (rest_keeps_clients parseFloat row _)).
    unfold client_statements, send, after. cbn [fold_left fst snd].
    rewrite Hcode, Hfirst, Hlast. cbn [prop].
    unfold MySQL.pool_execute at 2. cbn [existsb MySQL.is_undefined orb fst].
    unfold MySQL.pool_execute.
    cbn [existsb MySQL.is_undefined orb]. rewrite !or_null_defined. cbn [orb].
    unfold MySQL.insert_client. cbv zeta. rewrite !or_null_stored.
    rewrite !ClientProperties.varchar_fits by assumption. cbn [MySQL.and_then].
    rewrite (ClientProperties.varchar_nullable _ 150 _ _ F4),
      (ClientProperties.varchar_nullable _ 20 _ _ F5),
      (ClientProperties.text_nullable _ _ _ F6),
      (ClientProperties.varchar_nullable _ 100 _ _ F7),
      (ClientProperties.varchar_nullable _ 100 _ _ F8).
    cbn [MySQL.and_then].
    unfold ClientProperties.email_free in Hmail. rewrite Hnew, Hmail. reflexivity.
  - unfold db', processCSVData. rewrite process_rows_sends.
    destruct (send_adds _ (statements_harmless parseFloat [row] 0) db) as (I & T & _).
    split; assumption.
Qed.

End LoaderExtras.

Module LoaderExtraRuns.

Import DataLoader.
Import Schema.

Local Open Scope string_scope.

(** The row of the import scenario on the database right after the schema
    file: the client is stored under key 1, nothing else of the row. *)
Lemma accepted_row_stores_its_client_witness :
  let db' := fst (processCSVData MySQL.pool_execute Builtins.parseFloat
                    Builtins.ToNumberOther [Loader.test_row] initial) in
  clients db'
  = [Clients.mk 1 "TEST001" "Test" "User" None None None None None true
       (Some "2024-01-15 10:00:00") (Some "2024-01-15 10:00:00")]
  /\ invoices db' = []
  /\ transactions db' = [].
Proof.
  apply (LoaderExtras.accepted_row_stores_its_client Builtins.parseFloat
           Builtins.ToNumberOther Loader.test_row initial "TEST001" "Test" "User");
    try reflexivity.
  unfold ClientProperties.fits, ClientProperties.within. vm_compute.
  repeat split; lia.
Defined.

End LoaderExtraRuns.
